(** * The experiment pipeline of [app/train.py]

    A shallow embedding of the training script: data acquisition with a
    synthetic fallback, the seeded train/test split, training, plots,
    metric and artifact recording inside a tracked run.

    Python code that can raise is a computation in the monad [M], which
    threads the observable world (printed lines, external actions, the
    tracking store, written files) and returns either a value or the raised
    exception.  The libraries the script calls (pandas' reader, the YAML
    parser, the predictor, the plotting calls, the requests to the tracking
    server) are oracles collected in [Env]; what the script itself does with
    their answers is written out. *)

From Stdlib Require Import ZArith QArith Floats.PrimFloat.
From Stdlib Require Import Numbers.Cyclic.Int63.Uint63.
From stdpp Require Import base option list gmap strings pretty.

Set Warnings "-inexact-float".

(** ** Python values and exceptions *)

(** Exception classes that occur in the script and in the libraries it
    calls; all of them derive from [Exception]. *)
Inductive exn_class : Set :=
| FileNotFoundError | PermissionError | IsADirectoryError | OSError
| EmptyDataError | ParserError | UnicodeDecodeError | YAMLError
| AttributeError | KeyError | ValueError | RuntimeError | MlflowException.

#[global] Instance exn_class_eq_dec : EqDecision exn_class.
Proof. solve_decision. Defined.

(** An exception instance: its class and [str(e)]. *)
Record exn : Set := Exn { exn_type : exn_class; exn_str : string }.

(** [isinstance(e, c)]: the three file errors are subclasses of [OSError]. *)
Definition isinstance (e : exn) (c : exn_class) : bool :=
  match c, exn_type e with
  | OSError, (FileNotFoundError | PermissionError | IsADirectoryError) => true
  | _, t => bool_decide (t = c)
  end.

Inductive result (A : Type) : Type :=
| Ok (a : A)
| Raise (e : exn).
Arguments Ok {A} a.
Arguments Raise {A} e.

(** Scalars as they reach the settings: [None], an integer or a string. *)
Inductive pyval : Set := PNone | PInt (z : Z) | PStr (s : string).

(** Python truthiness: [None], [0] and the empty string are falsy. *)
Definition truthy (v : pyval) : bool :=
  match v with
  | PNone => false
  | PInt z => negb (z =? 0)%Z
  | PStr s => negb (String.eqb s EmptyString)
  end.

(** ** Data frames *)

Inductive cell : Set := CInt (z : Z) | CFloat (x : float) | CStr (s : string) | CNaN.

(** A frame is its column names and its rows, each row carrying its index
    label (the row identity that [sample] keeps and [drop] removes by). *)
Record DataFrame : Set := mkFrame {
  columns : list string;
  body : list (nat * list cell)
}.

Definition df_len (df : DataFrame) : nat := length (body df).
Definition df_index (df : DataFrame) : list nat := (body df).*1.
Definition df_rows (df : DataFrame) : list (list cell) := (body df).*2.

(** A frame with a fresh [RangeIndex]: labels [0 .. n-1]. *)
Definition range_frame (cols : list string) (rows : list (list cell)) : DataFrame :=
  mkFrame cols (zip (seq 0 (length rows)) rows).

(** [pd.DataFrame({name: array, ...})]: the arrays must have one length. *)
Definition frame_of_columns (cols : list (string * list cell)) : result DataFrame :=
  match cols with
  | [] => Ok (range_frame [] [])
  | (_, c0) :: _ =>
      let n := length c0 in
      if forallb (λ c, length c.2 =? n) cols
      then Ok (range_frame cols.*1
                 ((λ i, (λ c, default CNaN (c.2 !! i)) <$> cols) <$> seq 0 n))
      else Raise (Exn ValueError "All arrays must be of the same length")
  end.

(** The value a row holds in column [c], [NaN] when it has no such column. *)
Fixpoint row_get (cols : list string) (r : list cell) (c : string) : cell :=
  match cols, r with
  | k :: cols', v :: r' => if String.eqb k c then v else row_get cols' r' c
  | _, _ => CNaN
  end.

Definition reindex_row (from to : list string) (r : list cell) : list cell :=
  row_get from r <$> to.

(** [pd.concat([a, b], ignore_index=True)]: the union of the columns (those
    of [a] first), missing values filled with [NaN], and a fresh index. *)
Definition pd_concat (a b : DataFrame) : DataFrame :=
  let cols := columns a ++ filter (λ c, c ∉ columns a) (columns b) in
  range_frame cols
    ((reindex_row (columns a) cols <$> df_rows a) ++
     (reindex_row (columns b) cols <$> df_rows b)).

(** [df.take(locs)]: the rows at the given positions, labels kept. *)
Definition take_rows (df : DataFrame) (locs : list nat) : DataFrame :=
  mkFrame (columns df) (omap (λ p, body df !! p) locs).

(** [df.drop(labels)]: every row whose label is listed is removed; a label
    that is not in the index is a [KeyError]. *)
Definition pd_drop (df : DataFrame) (labels : list nat) : result DataFrame :=
  if forallb (λ l, bool_decide (l ∈ df_index df)) labels
  then Ok (mkFrame (columns df) (filter (λ r, r.1 ∉ labels) (body df)))
  else Raise (Exn KeyError "not found in axis").

(** Python's [round] on a rational: to the nearest integer, ties to even. *)
Definition py_round (q : Q) : Z :=
  let n := Qnum q in
  let d := Zpos (Qden q) in
  let fl := (n / d)%Z in
  let r2 := (2 * (n mod d))%Z in
  if (r2 <? d)%Z then fl
  else if (d <? r2)%Z then (fl + 1)%Z
  else if Z.even fl then fl else (fl + 1)%Z.

(** ** Configuration, predictor and tracking store *)

(** What [yaml.safe_load] returns: [None] for an empty document, a mapping,
    or some other document (a top-level scalar or sequence). *)
Inductive yaml : Type := YNone | YMap (m : gmap string pyval) | YOther.

(** [config.get(key)]: only a mapping has [get]; a key that is absent from
    the mapping gives [None]. *)
Definition config_get (config : yaml) (key : string) : result pyval :=
  match config with
  | YMap m => Ok (default PNone (m !! key))
  | YNone => Raise (Exn AttributeError "'NoneType' object has no attribute 'get'")
  | YOther => Raise (Exn AttributeError "object has no attribute 'get'")
  end.

Definition default_config : yaml :=
  YMap (<["label" := PStr "rating"]> (<["time_limit" := PInt 300]> ∅)).

(** The parsed command line: a flag that is not given is [None]. *)
Record Args : Set := mkArgs {
  args_time_limit : option Z;
  args_label : option string
}.

Record LeaderboardRow : Set := mkRow { model : string; score_val : float }.

(** The fitted predictor, as the methods the script calls on it. *)
Record Predictor : Type := mkPredictor {
  predict : DataFrame → result (list cell);
  leaderboard : DataFrame → result (list LeaderboardRow);
  feature_importance : DataFrame → result (list (string * float));
  fit_summary : result string
}.

Inductive run_status : Set := NotStarted | Running | Finished | Failed.

Inductive plot : Set := FeaturePlot | PredictionPlot.
Inductive plt_op : Set := Figure | Draw | Title | TightLayout | Savefig | Close.

(** Contents of a written file: a table, a JSON text or a rendered figure
    (kept as its title). *)
Inductive file_data : Set :=
| EmptyFile
| Csv (header : list string) (rows : list (list cell))
| Json (text : string)
| Png (title : string).

(** External actions, in the order the script performs them.  An action is
    logged when it is attempted, whether or not it then raises.  A call of
    [log_params] or [log_metrics] is one request for the whole dict. *)
Inductive action : Set :=
| Makedirs (d : string)
| CreateExperiment (name : string)
| ReadCsv (path : string)
| OpenRead (path : string)
| Fit (label time_limit : pyval) (train_rows : nat)
| Predict
| LeaderboardOf
| FeatureImportance
| FitSummary
| Plt (p : plot) (op : plt_op)
| OpenWrite (path : string)
| WriteTo (path : string)
| StartRun
| LogParam (key : string) (value : pyval)
| LogParams (ps : list (string * pyval))
| LogMetrics (ms : list (string * float))
| GetArtifactUri
| LogArtifacts (dir artifact_path : string)
| LogArtifact (file artifact_path : string)
| ListDir (dir : string)
| EndRun (st : run_status).

(** The tracking store of one process: known experiments, the state of the
    run, and what has been recorded against it. *)
Record Tracking : Type := mkTracking {
  experiments : list string;
  active_experiment : option string;
  run : run_status;
  params : gmap string pyval;
  metrics : gmap string float;
  uploads : list (string * string)
}.

Record World : Type := mkWorld {
  stdout : list string;
  trace : list action;
  np_pos : nat;
  files : gmap string file_data;
  tracking : Tracking
}.

Definition with_stdout (f : list string → list string) (w : World) : World :=
  mkWorld (f (stdout w)) (trace w) (np_pos w) (files w) (tracking w).
Definition with_trace (f : list action → list action) (w : World) : World :=
  mkWorld (stdout w) (f (trace w)) (np_pos w) (files w) (tracking w).
Definition with_np_pos (f : nat → nat) (w : World) : World :=
  mkWorld (stdout w) (trace w) (f (np_pos w)) (files w) (tracking w).
Definition with_files (f : gmap string file_data → gmap string file_data)
    (w : World) : World :=
  mkWorld (stdout w) (trace w) (np_pos w) (f (files w)) (tracking w).
Definition with_tracking (f : Tracking → Tracking) (w : World) : World :=
  mkWorld (stdout w) (trace w) (np_pos w) (files w) (f (tracking w)).

Definition set_run (st : run_status) (t : Tracking) : Tracking :=
  mkTracking (experiments t) (active_experiment t) st (params t) (metrics t) (uploads t).
Definition add_param (k : string) (v : pyval) (t : Tracking) : Tracking :=
  mkTracking (experiments t) (active_experiment t) (run t)
    (<[k := v]> (params t)) (metrics t) (uploads t).
Definition add_metric (k : string) (v : float) (t : Tracking) : Tracking :=
  mkTracking (experiments t) (active_experiment t) (run t)
    (params t) (<[k := v]> (metrics t)) (uploads t).
Definition add_params (ps : list (string * pyval)) (t : Tracking) : Tracking :=
  foldl (λ t p, add_param p.1 p.2 t) t ps.
Definition add_metrics (ms : list (string * float)) (t : Tracking) : Tracking :=
  foldl (λ t m, add_metric m.1 m.2 t) t ms.
Definition add_upload (src dst : string) (t : Tracking) : Tracking :=
  mkTracking (experiments t) (active_experiment t) (run t)
    (params t) (metrics t) (uploads t ++ [(src, dst)]).
Definition add_experiment (name : string) (t : Tracking) : Tracking :=
  mkTracking (experiments t ++ [name]) (active_experiment t) (run t)
    (params t) (metrics t) (uploads t).
Definition set_experiment (name : string) (t : Tracking) : Tracking :=
  mkTracking (experiments t) (Some name) (run t) (params t) (metrics t) (uploads t).

(** ** The environment *)

(** Answers of the libraries and of the operating system.  The two
    generators of numpy differ: the global one is a stream read at the
    position kept in the world, [RandomState(seed)] is built afresh from its
    seed at every call, so its permutation depends on the seed and the
    length only.

    The reader answers with the header, the rows and the index label of
    each row ([read_csv_label path i] for the row at position [i]): pandas
    numbers the rows of a file whose lines have as many fields as the header
    (the label of a row is then its position), and takes the first field as
    the label when the data lines have one field more than the header, so
    that labels can repeat.

    [tracking_raises a] is the answer of the tracking server to the
    request [a] of the run: [None] when it is accepted, the exception the
    client raises otherwise.  Uploads have their own entries. *)
Record Env : Type := mkEnv {
  base_dir : string;
  abspath : string → string;
  now : string;
  new_run_id : string;
  artifact_uri : string;
  randint_at : Z → Z → nat → Z;
  uniform_at : float → float → nat → float;
  rs_permutation : Z → nat → list nat;
  rs_permutation_perm : ∀ seed n, rs_permutation seed n ≡ₚ seq 0 n;
  makedirs_raises : string → option exn;
  read_csv_result : string → result (list string * list (list cell));
  read_csv_label : string → nat → nat;
  open_read : string → result string;
  yaml_safe_load : string → result yaml;
  open_write_raises : string → option exn;
  write_raises : string → option exn;
  path_exists : string → bool;
  listdir : string → result (list string);
  is_file : string → bool;
  fit : DataFrame → pyval → pyval → list (string * list (string * Z)) → result Predictor;
  plt_raises : plot → plt_op → option exn;
  log_artifacts_raises : string → string → option exn;
  log_artifact_raises : string → string → option exn;
  tracking_raises : action → option exn
}.

(** ** Computations *)

Definition M (A : Type) : Type := World → result A * World.

Definition ret {A} (a : A) : M A := λ w, (Ok a, w).
Definition raise {A} (e : exn) : M A := λ w, (Raise e, w).
Definition bind {A B} (m : M A) (k : A → M B) : M B :=
  λ w, match m w with
       | (Ok a, w') => k a w'
       | (Raise e, w') => (Raise e, w')
       end.

Notation "x <- m ;; k" := (bind m (λ x, k))
  (at level 100, m at next level, right associativity).
Notation "m ;; k" := (bind m (λ _, k))
  (at level 100, right associativity).

Definition lift {A} (r : result A) : M A := λ w, (r, w).

(** [try: m  except C as e: h e] — only instances of [C] are handled. *)
Definition try_except {A} (m : M A) (C : exn → bool) (h : exn → M A) : M A :=
  λ w, match m w with
       | (Ok a, w') => (Ok a, w')
       | (Raise e, w') => if C e then h e w' else (Raise e, w')
       end.

(** [except Exception]: every exception of the model. *)
Definition any_exception (e : exn) : bool := true.

Definition print (line : string) : M unit :=
  λ w, (Ok tt, with_stdout (λ o, o ++ [line]) w).
Definition emit (a : action) : M unit :=
  λ w, (Ok tt, with_trace (λ t, t ++ [a]) w).
Definition update_tracking (f : Tracking → Tracking) : M unit :=
  λ w, (Ok tt, with_tracking f w).

(** An external call that returns nothing: logged, then it raises or not. *)
Definition call (a : action) (outcome : option exn) : M unit :=
  emit a ;; match outcome with Some e => raise e | None => ret tt end.

(** The statements of a [for] loop, one after the other. *)
Fixpoint for_each {A} (l : list A) (f : A → M unit) : M unit :=
  match l with
  | [] => ret tt
  | x :: l' => f x ;; for_each l' f
  end.

Definition path_join (d name : string) : string := d +:+ "/" +:+ name.

(** ** Column statistics

    [Series.max()] and [Series.mean()] skip missing values.  For the mean
    pandas replaces the missing values by zero, sums the column with numpy
    and divides by the number of values that are not missing.  numpy adds
    fewer than eight values in order; from eight values on it keeps eight
    running sums, one per position modulo eight, adds them as a balanced
    tree and then adds the values left over, and above 128 values it halves
    the array (at a multiple of eight) and adds the sums of the two halves.
    The arithmetic is a parameter, so that the same definitions can be read
    in binary64, as the script runs them, and in exact rationals. *)
Class Num (T : Type) : Type := mkNum {
  num_zero : T;
  num_add : T → T → T;
  num_div_count : T → nat → T;
  num_ltb : T → T → bool;
  num_isnan : T → bool
}.

#[global] Instance float_num : Num float := {|
  num_zero := 0%float;
  num_add := PrimFloat.add;
  num_div_count := λ x n, PrimFloat.div x (PrimFloat.of_uint63 (Uint63.of_Z (Z.of_nat n)));
  num_ltb := PrimFloat.ltb;
  num_isnan := PrimFloat.is_nan
|}.

#[global] Instance Q_num : Num Q := {|
  num_zero := 0%Q;
  num_add := Qplus;
  num_div_count := λ x n, Qdiv x (inject_Z (Z.of_nat n));
  num_ltb := λ x y, negb (Qle_bool y x);
  num_isnan := λ _, false
|}.

Definition series_valid {T} `{Num T} (l : list T) : list T :=
  filter (λ x, num_isnan x = false) l.

Definition series_max {T} `{Num T} (l : list T) : option T :=
  match series_valid l with
  | [] => None
  | x :: r => Some (foldl (λ m y, if num_ltb m y then y else m) x r)
  end.

(** The eight running sums added as a tree:
    [((r0 + r1) + (r2 + r3)) + ((r4 + r5) + (r6 + r7))]. *)
Definition tree8 {T} `{Num T} (r : list T) : T :=
  match r with
  | [r0; r1; r2; r3; r4; r5; r6; r7] =>
      num_add (num_add (num_add r0 r1) (num_add r2 r3))
              (num_add (num_add r4 r5) (num_add r6 r7))
  | _ => foldl num_add num_zero r
  end.

(** The unrolled loop: while eight more values are left, each is added to
    the running sum of its position. *)
Fixpoint add_blocks {T} `{Num T} (fuel : nat) (r l : list T) : list T * list T :=
  match fuel with
  | 0 => (r, l)
  | S fuel' =>
      if 8 <=? length l
      then add_blocks fuel' (zip_with num_add r (take 8 l)) (drop 8 l)
      else (r, l)
  end.

(** A block of 8 to 128 values. *)
Definition block_sum {T} `{Num T} (l : list T) : T :=
  let sums := add_blocks (length l) (take 8 l) (drop 8 l) in
  foldl num_add (tree8 sums.1) sums.2.

(** numpy's sum of an array; [fuel] bounds the halvings, and the length of
    the array is enough. *)
Fixpoint pairwise_sum {T} `{Num T} (fuel : nat) (l : list T) : T :=
  let n := length l in
  if n <? 8 then foldl num_add num_zero l
  else if n <=? 128 then block_sum l
  else
    match fuel with
    | 0 => block_sum l
    | S fuel' =>
        let n2 := n / 2 - (n / 2) mod 8 in
        num_add (pairwise_sum fuel' (take n2 l)) (pairwise_sum fuel' (drop n2 l))
    end.

Definition np_sum {T} `{Num T} (l : list T) : T := pairwise_sum (length l) l.

Definition series_mean {T} `{Num T} (l : list T) : option T :=
  match series_valid l with
  | [] => None
  | v =>
      let filled := (λ x, if num_isnan x then num_zero else x) <$> l in
      Some (num_div_count (np_sum filled) (length v))
  end.

(** The two metrics the script records from the validation-score column. *)
Definition best_score {T} `{Num T} (scores : list T) : option T := series_max scores.
Definition avg_score {T} `{Num T} (scores : list T) : option T := series_mean scores.

(** [float(x)] of a statistic: an empty column gives [nan]. *)
Definition to_float (o : option float) : float := default PrimFloat.nan o.

(** ** The script *)

Section Script.
Context (env : Env).

(** [np.random.randint(lo, hi, n)] and [np.random.uniform(lo, hi, n)] read
    the next [n] values of the global stream. *)
Definition np_randint (lo hi : Z) (n : nat) : M (list Z) :=
  λ w, (Ok ((λ i, randint_at env lo hi (np_pos w + i)) <$> seq 0 n),
        with_np_pos (λ p, p + n) w).

Definition np_uniform (lo hi : float) (n : nat) : M (list float) :=
  λ w, (Ok ((λ i, uniform_at env lo hi (np_pos w + i)) <$> seq 0 n),
        with_np_pos (λ p, p + n) w).

(** The frame of a parsed file: each row under the label the reader gave
    it. *)
Definition read_frame (path : string) (cols : list string) (rows : list (list cell))
    : DataFrame :=
  mkFrame cols (imap (λ i r, (read_csv_label env path i, r)) rows).

Definition pd_read_csv (path : string) : M DataFrame :=
  emit (ReadCsv path) ;;
  parsed <- lift (read_csv_result env path) ;;
  ret (read_frame path parsed.1 parsed.2).

Definition dirs_list : list string := ["artifacts"; "plots"; "models"].

(** What [setup_directories] returns: the three directories, by absolute
    path. *)
Record Dirs : Set := mkDirs {
  dir_artifacts : string;
  dir_plots : string;
  dir_models : string
}.

Definition setup_directories : M Dirs :=
  for_each dirs_list (λ d, call (Makedirs d) (makedirs_raises env d)) ;;
  ret (mkDirs (abspath env "artifacts") (abspath env "plots") (abspath env "models")).

(** The frame both branches of [load_or_create_data] build from a dict of
    four arrays of [n] values. *)
Definition synthetic_frame (n : nat) : M DataFrame :=
  rating <- np_randint 1 6 n ;;
  let review_text := (λ i : nat, "Review " +:+ pretty i) <$> seq 0 n in
  category <- np_randint 0 2 n ;;
  price <- np_uniform 10 1000 n ;;
  lift (frame_of_columns
          [("rating", CInt <$> rating);
           ("review_text", CStr <$> review_text);
           ("category", CInt <$> category);
           ("price", CFloat <$> price)]).

Definition shape_str (df : DataFrame) : string :=
  "(" +:+ pretty (df_len df) +:+ ", " +:+ pretty (length (columns df)) +:+ ")".

Definition load_or_create_data (data_path : string) (min_samples : nat) : M DataFrame :=
  try_except
    (data <- pd_read_csv data_path ;;
     print ("Data loaded from file. Shape: " +:+ shape_str data) ;;
     if df_len data <? min_samples
     then
       print ("Adding synthetic data to reach " +:+ pretty min_samples +:+ " samples") ;;
       synthetic_data <- synthetic_frame min_samples ;;
       ret (pd_concat data synthetic_data)
     else ret data)
    (λ e, isinstance e FileNotFoundError)
    (λ _,
       print ("Creating synthetic dataset with " +:+ pretty min_samples +:+ " samples") ;;
       synthetic_frame min_samples).

(** [df.sample(frac=frac, random_state=seed)]: the fraction is checked,
    the size is [round(frac * len)], and the rows are the first [size]
    positions of the seeded permutation.  The product is taken exactly:
    [4n/5] is at least 1/10 away from a tie, far more than the binary64
    product of the interpreter is away from [4n/5], so both round to the
    same integer. *)
Definition pd_sample (frac : Q) (random_state : Z) (df : DataFrame) : result DataFrame :=
  if negb (Qle_bool frac 1)
  then Raise (Exn ValueError "Replace has to be set to `True` when upsampling the population `frac` > 1.")
  else if negb (Qle_bool 0 frac)
  then Raise (Exn ValueError "A negative number of rows requested. Please provide `frac` >= 0.")
  else
    let n := df_len df in
    let size := Z.to_nat (py_round (frac * inject_Z (Z.of_nat n))) in
    if n <? size
    then Raise (Exn ValueError "Cannot take a larger sample than population when 'replace=False'")
    else Ok (take_rows df (take size (rs_permutation env random_state n))).

(** The split of [main]: [data.sample(frac=0.8, random_state=42)] and
    [data.drop(train_data.index)]. *)
Definition split (data : DataFrame) : M (DataFrame * DataFrame) :=
  train_data <- lift (pd_sample (4 # 5) 42 data) ;;
  test_data <- lift (pd_drop data (df_index train_data)) ;;
  ret (train_data, test_data).

Definition save_file (path : string) (d : file_data) : M unit :=
  λ w, (Ok tt, with_files (λ fs, <[path := d]> fs) w).

Definition plt (p : plot) (op : plt_op) : M unit :=
  call (Plt p op) (plt_raises env p op).

Definition plt_savefig (p : plot) (path title : string) : M unit :=
  plt p Savefig ;; save_file path (Png title).

(** The first [try] of [create_visualizations], under the comment
    "Feature importance". *)
Definition feature_importance_plot (predictor : Predictor) (test_data : DataFrame)
    (plots_dir : string) (plots : gmap string string) : M (gmap string string) :=
  try_except
    (emit FeatureImportance ;;
     importance <- lift (feature_importance predictor test_data) ;;
     plt FeaturePlot Figure ;;
     plt FeaturePlot Draw ;;
     plt FeaturePlot Title ;;
     plt FeaturePlot TightLayout ;;
     let filepath := path_join plots_dir "feature_importance.png" in
     plt_savefig FeaturePlot filepath "Feature Importance" ;;
     plt FeaturePlot Close ;;
     ret (<["feature_importance" := filepath]> plots))
    any_exception
    (λ e,
       print ("Could not create feature importance plot: " +:+ exn_str e) ;;
       ret plots).

(** The second [try], under the comment "Prediction distribution". *)
Definition prediction_distribution_plot (predictions : list cell)
    (plots_dir : string) (plots : gmap string string) : M (gmap string string) :=
  try_except
    (plt PredictionPlot Figure ;;
     plt PredictionPlot Draw ;;
     plt PredictionPlot Title ;;
     plt PredictionPlot TightLayout ;;
     let filepath := path_join plots_dir "prediction_dist.png" in
     plt_savefig PredictionPlot filepath "Prediction Distribution" ;;
     plt PredictionPlot Close ;;
     ret (<["prediction_distribution" := filepath]> plots))
    any_exception
    (λ e,
       print ("Could not create prediction distribution plot: " +:+ exn_str e) ;;
       ret plots).

(** [create_visualizations]: the two plots, one after the other, collected
    in the mapping it returns. *)
Definition create_visualizations (predictor : Predictor) (test_data : DataFrame)
    (predictions : list cell) (plots_dir : string) : M (gmap string string) :=
  let plots : gmap string string := ∅ in
  plots <- feature_importance_plot predictor test_data plots_dir plots ;;
  plots <- prediction_distribution_plot predictions plots_dir plots ;;
  ret plots.

Definition train_model (train_data test_data : DataFrame) (label time_limit : pyval)
    (hyperparameters : list (string * list (string * Z)))
    : M (Predictor * list cell * list LeaderboardRow) :=
  emit (Fit label time_limit (df_len train_data)) ;;
  predictor <- lift (fit env train_data label time_limit hyperparameters) ;;
  emit Predict ;;
  predictions <- lift (predict predictor test_data) ;;
  emit LeaderboardOf ;;
  lb <- lift (leaderboard predictor test_data) ;;
  ret (predictor, predictions, lb).

(** *** The tracking client *)

Definition experiment_name : string := "autogluon_tabular_demo".

(** The experiment is set up against a server that answers: creating the
    experiment fails only because it exists already. *)
Definition mlflow_create_experiment (name : string) : M string :=
  emit (CreateExperiment name) ;;
  λ w, if bool_decide (name ∈ experiments (tracking w))
       then (Raise (Exn MlflowException ("Experiment '" +:+ name +:+ "' already exists.")), w)
       else (Ok name, with_tracking (add_experiment name) w).

Definition mlflow_get_experiment_by_name (name : string) : M (option string) :=
  λ w, (Ok (if bool_decide (name ∈ experiments (tracking w)) then Some name else None), w).

(** [.experiment_id] of what the lookup returned. *)
Definition experiment_id_of (e : option string) : result string :=
  match e with
  | Some i => Ok i
  | None => Raise (Exn AttributeError "'NoneType' object has no attribute 'experiment_id'")
  end.

Definition mlflow_set_experiment (name : string) : M unit :=
  update_tracking
    (λ t, set_experiment name
            (if bool_decide (name ∈ experiments t) then t else add_experiment name t)).

(** The requests of the run.  Each is sent to the tracking server, which
    accepts it, and the store is updated, or refuses it, and the client
    raises and nothing is recorded. *)
Definition mlflow_start_run : M string :=
  call StartRun (tracking_raises env StartRun) ;;
  update_tracking (set_run Running) ;;
  ret (new_run_id env).

Definition mlflow_end_run (st : run_status) : M unit :=
  call (EndRun st) (tracking_raises env (EndRun st)) ;;
  update_tracking (set_run st).

(** [with mlflow.start_run() as run: body]: on the way out the run is ended,
    as finished when the body returned and as failed when it raised.  The
    exception of the body is not swallowed; an exception of the request
    that ends the run takes its place. *)
Definition with_run {A} (body : string → M A) : M A :=
  run_id <- mlflow_start_run ;;
  λ w, match body run_id w with
       | (Ok a, w') => (mlflow_end_run Finished ;; ret a) w'
       | (Raise e, w') => (mlflow_end_run Failed ;; raise e) w'
       end.

Definition mlflow_log_param (key : string) (value : pyval) : M unit :=
  call (LogParam key value) (tracking_raises env (LogParam key value)) ;;
  update_tracking (add_param key value).

Definition mlflow_log_params (ps : list (string * pyval)) : M unit :=
  call (LogParams ps) (tracking_raises env (LogParams ps)) ;;
  update_tracking (add_params ps).

Definition mlflow_log_metrics (ms : list (string * float)) : M unit :=
  call (LogMetrics ms) (tracking_raises env (LogMetrics ms)) ;;
  update_tracking (add_metrics ms).

Definition mlflow_get_artifact_uri : M string :=
  call GetArtifactUri (tracking_raises env GetArtifactUri) ;;
  ret (artifact_uri env).

Definition mlflow_log_artifacts (dir artifact_path : string) : M unit :=
  call (LogArtifacts dir artifact_path) (log_artifacts_raises env dir artifact_path) ;;
  update_tracking (add_upload dir artifact_path).

Definition mlflow_log_artifact (file artifact_path : string) : M unit :=
  call (LogArtifact file artifact_path) (log_artifact_raises env file artifact_path) ;;
  update_tracking (add_upload file artifact_path).

(** *** Settings *)

Definition setup_tracking : M unit :=
  experiment_id <- try_except
    (mlflow_create_experiment experiment_name)
    any_exception
    (λ _, found <- mlflow_get_experiment_by_name experiment_name ;;
          lift (experiment_id_of found)) ;;
  mlflow_set_experiment experiment_name.

Definition load_config : M yaml :=
  let config_path := path_join (base_dir env) "config.yaml" in
  try_except
    (emit (OpenRead config_path) ;;
     f <- lift (open_read env config_path) ;;
     lift (yaml_safe_load env f))
    any_exception
    (λ e,
       print ("Config loading error: " +:+ exn_str e) ;;
       ret default_config).

Definition opt_int (o : option Z) : pyval := from_option PInt PNone o.
Definition opt_str (o : option string) : pyval := from_option PStr PNone o.

(** [a or b]: [b] is evaluated only when [a] is falsy. *)
Definition py_or (a : pyval) (b : M pyval) : M pyval :=
  if truthy a then ret a else b.

(** Lines 122 and 123 of [main]: the label, then the time limit. *)
Definition resolve_settings (args : Args) (config : yaml) : M (pyval * pyval) :=
  label <- py_or (opt_str (args_label args)) (lift (config_get config "label")) ;;
  time_limit <- py_or (opt_int (args_time_limit args)) (lift (config_get config "time_limit")) ;;
  ret (label, time_limit).

Definition hyperparameters : list (string * list (string * Z)) :=
  [("GBM", [("num_boost_round", 100%Z)]);
   ("CAT", [("iterations", 100%Z)]);
   ("RF", [("n_estimators", 100%Z)]);
   ("XT", [("n_estimators", 100%Z)]);
   ("LR", [])].

(** *** Artifacts *)

(** [df[key]]: the column, or a [KeyError]. *)
Definition df_getitem (df : DataFrame) (key : pyval) : result (list cell) :=
  match key with
  | PStr c =>
      if bool_decide (c ∈ columns df)
      then Ok ((λ r, row_get (columns df) r c) <$> df_rows df)
      else Raise (Exn KeyError ("'" +:+ c +:+ "'"))
  | _ => Raise (Exn KeyError "None")
  end.

(** [with open(filepath, 'w') as f: f.write(content)]. *)
Definition write_text_file (filepath : string) (content : file_data) : M unit :=
  call (OpenWrite filepath) (open_write_raises env filepath) ;;
  save_file filepath EmptyFile ;;
  call (WriteTo filepath) (write_raises env filepath) ;;
  save_file filepath content.

(** The loop over [artifacts_map.items()], in insertion order. *)
Definition write_artifacts (artifacts_dir : string)
    (artifacts_map : list (string * file_data)) : M unit :=
  for_each artifacts_map
    (λ item, write_text_file (path_join artifacts_dir item.1) item.2).

Definition when (b : bool) (m : M unit) : M unit := if b then m else ret tt.

Definition upload_directories (artifacts_dirpath plots_dirpath : string) : M unit :=
  try_except
    (when (path_exists env artifacts_dirpath)
       (mlflow_log_artifacts artifacts_dirpath "artifacts" ;;
        print ("Logged artifacts from: " +:+ artifacts_dirpath)) ;;
     when (path_exists env plots_dirpath)
       (mlflow_log_artifacts plots_dirpath "plots" ;;
        print ("Logged plots from: " +:+ plots_dirpath)))
    any_exception
    (λ e,
       print ("Could not log artifacts directories: " +:+ exn_str e) ;;
       emit (ListDir artifacts_dirpath) ;;
       names <- lift (listdir env artifacts_dirpath) ;;
       for_each names
         (λ fname,
            let fp := path_join artifacts_dirpath fname in
            when (is_file env fp)
              (try_except
                 (mlflow_log_artifact fp "artifacts")
                 any_exception
                 (λ e2, print ("Could not log artifact file: " +:+ fp +:+ " " +:+ exn_str e2))))).

Definition upload_model : M unit :=
  let model_dir := abspath env "models/autogluon" in
  when (path_exists env model_dir)
    (try_except
       (mlflow_log_artifacts model_dir "model" ;;
        print ("Logged model files from: " +:+ model_dir))
       any_exception
       (λ e, print ("Warning: could not log model artifacts: " +:+ exn_str e))).

Definition count_float (n : nat) : float :=
  PrimFloat.of_uint63 (Uint63.of_Z (Z.of_nat n)).

Definition artifacts_of (lb : list LeaderboardRow) (predictions_df : DataFrame)
    (summary_obj : string) : list (string * file_data) :=
  [("leaderboard.csv",
    Csv ["model"; "score_val"] ((λ r, [CStr (model r); CFloat (score_val r)]) <$> lb));
   ("predictions.csv", Csv (columns predictions_df) (df_rows predictions_df));
   ("model_summary.json", Json summary_obj)].

(** *** The tracked run *)

(** The body of the [try] inside the run (lines 145 to 225). *)
Definition experiment_steps (dirs : Dirs) (label time_limit : pyval)
    (train_data test_data : DataFrame) (run_id : string) : M unit :=
  trained <- train_model train_data test_data label time_limit hyperparameters ;;
  let predictor := trained.1.1 in
  let predictions := trained.1.2 in
  let lb := trained.2 in
  plots <- create_visualizations predictor test_data predictions (dir_plots dirs) ;;
  mlflow_log_params
    [("label", label);
     ("time_limit", time_limit);
     ("train_samples", PInt (Z.of_nat (df_len train_data)));
     ("test_samples", PInt (Z.of_nat (df_len test_data)));
     ("timestamp", PStr (now env))] ;;
  mlflow_log_metrics
    [("best_score", to_float (best_score (score_val <$> lb)));
     ("avg_score", to_float (avg_score (score_val <$> lb)));
     ("model_count", count_float (length lb))] ;;
  emit FitSummary ;;
  summary_obj <- lift (fit_summary predictor) ;;
  true_values <- lift (df_getitem test_data label) ;;
  predictions_df <- lift (frame_of_columns [("true", true_values); ("predicted", predictions)]) ;;
  write_artifacts (dir_artifacts dirs) (artifacts_of lb predictions_df summary_obj) ;;
  uri <- mlflow_get_artifact_uri ;;
  print ("MLflow artifact URI (server base): " +:+ uri) ;;
  upload_directories (dir_artifacts dirs) (dir_plots dirs) ;;
  upload_model ;;
  print EmptyString ;;
  print "Training completed successfully!" ;;
  uri <- mlflow_get_artifact_uri ;;
  print ("View run at: " +:+ uri +:+ "/runs/" +:+ run_id).

(** The handler of that [try]: report, record the message, raise again.
    The recording is a request like the others: when it raises, the
    [raise e] after it is not reached. *)
Definition on_training_error {A} (e : exn) : M A :=
  print ("Training error: " +:+ exn_str e) ;;
  mlflow_log_param "error" (PStr (exn_str e)) ;;
  raise e.

(** Lines 141 to 230: the [with] block. *)
Definition run_experiment (dirs : Dirs) (label time_limit : pyval)
    (train_data test_data : DataFrame) : M unit :=
  with_run (λ run_id,
    print ("MLflow Run ID: " +:+ run_id) ;;
    try_except
      (experiment_steps dirs label time_limit train_data test_data run_id)
      any_exception
      on_training_error).

Definition data_path : string :=
  path_join (path_join (base_dir env) "data") "product_reviews.csv".

Definition main (args : Args) : M unit :=
  dirs <- setup_directories ;;
  setup_tracking ;;
  config <- load_config ;;
  settings <- resolve_settings args config ;;
  data <- load_or_create_data data_path 100 ;;
  parts <- split data ;;
  run_experiment dirs settings.1 settings.2 parts.1 parts.2.

End Script.

(** * Properties *)

Definition world0 : World :=
  mkWorld [] [] 0 ∅ (mkTracking [] None NotStarted ∅ ∅ []).

(** Unfolding of the monad and of the primitive effects. *)
Ltac unfold_m :=
  unfold bind, ret, raise, lift, try_except, print, emit, call, update_tracking,
         save_file, when in *.

(** ** Frames *)

Lemma df_len_range_frame cols rows : df_len (range_frame cols rows) = length rows.
Proof.
  unfold df_len, range_frame; simpl.
  rewrite length_zip_with, length_seq. lia.
Qed.

Lemma df_index_range_frame cols rows :
  df_index (range_frame cols rows) = seq 0 (length rows).
Proof.
  unfold df_index, range_frame; simpl.
  apply fst_zip. rewrite length_seq. lia.
Qed.

Lemma df_rows_range_frame cols rows : df_rows (range_frame cols rows) = rows.
Proof.
  unfold df_rows, range_frame; simpl.
  apply snd_zip. rewrite length_seq. lia.
Qed.

Lemma df_len_index df : length (df_index df) = df_len df.
Proof. unfold df_index, df_len. apply length_fmap. Qed.

Lemma df_len_rows df : length (df_rows df) = df_len df.
Proof. unfold df_rows, df_len. apply length_fmap. Qed.

Lemma df_len_concat a b : df_len (pd_concat a b) = df_len a + df_len b.
Proof.
  unfold pd_concat. rewrite df_len_range_frame.
  rewrite length_app, !length_fmap, !df_len_rows. reflexivity.
Qed.

Lemma df_rows_concat a b :
  df_rows (pd_concat a b) =
    (reindex_row (columns a) (columns (pd_concat a b)) <$> df_rows a) ++
    (reindex_row (columns b) (columns (pd_concat a b)) <$> df_rows b).
Proof. unfold pd_concat. rewrite df_rows_range_frame. reflexivity. Qed.

(** A row read back through its own column names is itself. *)
Lemma row_get_self cols r :
  NoDup cols → length r = length cols → row_get cols r <$> cols = r.
Proof.
  intros Hnd. revert r.
  induction Hnd as [|c cols Hc Hnd IH]; intros [|v r] Hlen; simpl in *; try lia.
  - reflexivity.
  - rewrite String.eqb_refl. f_equal.
    transitivity (row_get cols r <$> cols); [|apply IH; lia].
    apply list_fmap_ext. intros i k Hk.
    destruct (String.eqb_spec c k) as [->|]; [|reflexivity].
    exfalso. apply Hc. eapply list_elem_of_lookup_2; eauto.
Qed.

(** In the union of the columns, an original row keeps its values and is
    padded with [NaN] for the columns it does not have. *)
Lemma reindex_row_original cols extra r :
  NoDup cols → length r = length cols →
  (∀ c, c ∈ extra → c ∉ cols) →
  reindex_row cols (cols ++ extra) r = r ++ replicate (length extra) CNaN.
Proof.
  intros Hnd Hlen Hex. unfold reindex_row.
  rewrite fmap_app, row_get_self by assumption. f_equal.
  clear Hnd. induction extra as [|c extra IH]; [reflexivity|].
  rewrite fmap_cons. cbn [length replicate]. f_equal.
  2: { apply IH. intros c' Hc'. apply Hex. right. exact Hc'. }
  assert (Hc : c ∉ cols) by (apply Hex; left).
  clear -Hc Hlen. revert r Hlen.
  induction cols as [|k cols IH]; intros [|v r] Hlen; simpl in *; try lia; try reflexivity.
  apply not_elem_of_cons in Hc as [Hne Hc].
  destruct (String.eqb_spec k c) as [->|]; [congruence|].
  apply IH; [exact Hc | lia].
Qed.

(** ** Data acquisition *)

Definition synthetic_columns : list string :=
  ["rating"; "review_text"; "category"; "price"].

(** The synthetic generator never raises: its four arrays have one length.
    It yields [n] rows on a fresh index and consumes [3 n] random draws. *)
Lemma synthetic_frame_ok env n w :
  ∃ df, synthetic_frame env n w = (Ok df, with_np_pos (λ p, p + n + n + n) w)
        ∧ df_len df = n
        ∧ columns df = synthetic_columns
        ∧ df_index df = seq 0 n.
Proof.
  unfold synthetic_frame, np_randint, np_uniform. unfold_m.
  cbn -[seq pretty String.append].
  rewrite !length_fmap, !length_seq, Nat.eqb_refl. cbn -[seq pretty String.append].
  eexists. split; [reflexivity|].
  rewrite df_len_range_frame, df_index_range_frame, !length_fmap, length_seq.
  repeat split.
Qed.

Lemma df_len_read_frame env path cols rows :
  df_len (read_frame env path cols rows) = length rows.
Proof. unfold df_len, read_frame; cbn [body]. apply length_imap. Qed.

Lemma df_rows_read_frame env path cols rows :
  df_rows (read_frame env path cols rows) = rows.
Proof.
  unfold df_rows, read_frame; cbn [body].
  apply list_eq. intros i. rewrite list_lookup_fmap, list_lookup_imap.
  destruct (rows !! i); reflexivity.
Qed.

Lemma df_index_read_frame env path cols rows :
  df_index (read_frame env path cols rows)
  = read_csv_label env path <$> seq 0 (length rows).
Proof.
  unfold df_index, read_frame; cbn [body].
  apply list_eq. intros i. rewrite !list_lookup_fmap, list_lookup_imap.
  destruct (rows !! i) as [r|] eqn:Hi; cbn.
  - rewrite lookup_seq_lt by (eapply lookup_lt_Some; exact Hi). reflexivity.
  - rewrite lookup_seq_ge by (apply lookup_ge_None; exact Hi). reflexivity.
Qed.

(** Rows numbered by position: the frame has a [RangeIndex]. *)
Lemma read_frame_range env path cols rows :
  (∀ i, read_csv_label env path i = i) →
  read_frame env path cols rows = range_frame cols rows.
Proof.
  intros Hid. unfold read_frame, range_frame. f_equal.
  apply list_eq. intros i. rewrite list_lookup_imap, lookup_zip_with.
  destruct (rows !! i) as [r|] eqn:Hi; cbn.
  - rewrite lookup_seq_lt by (eapply lookup_lt_Some; exact Hi). cbn.
    rewrite Hid. reflexivity.
  - destruct (seq 0 (length rows) !! i); reflexivity.
Qed.

Lemma pd_read_csv_ok env path cols rows w :
  read_csv_result env path = Ok (cols, rows) →
  pd_read_csv env path w
  = (Ok (read_frame env path cols rows), with_trace (λ t, t ++ [ReadCsv path]) w).
Proof. intros H. unfold pd_read_csv. unfold_m. rewrite H. reflexivity. Qed.

Lemma pd_read_csv_raise env path e w :
  read_csv_result env path = Raise e →
  pd_read_csv env path w = (Raise e, with_trace (λ t, t ++ [ReadCsv path]) w).
Proof. intros H. unfold pd_read_csv. unfold_m. rewrite H. reflexivity. Qed.

(** The line that announces the full synthesis. *)
Definition creating_line (min_samples : nat) : string :=
  "Creating synthetic dataset with " +:+ pretty min_samples +:+ " samples".

(** What a call printed: the lines after those that were there before. *)
Definition printed_by (w w' : World) : list string :=
  drop (length (stdout w)) (stdout w').

(** ** Running a computation step by step *)

Lemma bind_ok {A B} (m : M A) (k : A → M B) w a w' :
  m w = (Ok a, w') → bind m k w = k a w'.
Proof. intros H. unfold bind. rewrite H. reflexivity. Qed.

Lemma bind_raise {A B} (m : M A) (k : A → M B) w e w' :
  m w = (Raise e, w') → bind m k w = (Raise e, w').
Proof. intros H. unfold bind. rewrite H. reflexivity. Qed.

Lemma bind_ret {A B} (a : A) (k : A → M B) w : bind (ret a) k w = k a w.
Proof. reflexivity. Qed.

Lemma bind_print {B} line (k : unit → M B) w :
  bind (print line) k w = k tt (with_stdout (λ o, o ++ [line]) w).
Proof. reflexivity. Qed.

Lemma bind_assoc {A B C} (m : M A) (k : A → M B) (h : B → M C) w :
  bind (bind m k) h w = bind m (λ a, bind (k a) h) w.
Proof. unfold bind. destruct (m w) as [[a|e] w']; reflexivity. Qed.

Lemma append_cons a s t : String a s +:+ t = String a (s +:+ t).
Proof. reflexivity. Qed.

(** Two lines that start with different literal characters differ. *)
Ltac line_discr H := rewrite !append_cons in H; discriminate H.

Lemma printed_by_app w w' l : stdout w' = stdout w ++ l → printed_by w w' = l.
Proof. unfold printed_by. intros ->. apply drop_app_length. Qed.

(** C4. The whole dataset is synthesised only when reading the file raised
    [FileNotFoundError]: the line announcing it is printed exactly in that
    case, and the result then is the synthetic frame of [min_samples] rows.
    Any other exception of the reader leaves [load_or_create_data] as it
    was raised, with nothing printed and no random draw consumed. *)
Theorem load_full_synthesis_only_when_missing env path min_samples w :
  let out := load_or_create_data env path min_samples w in
  (creating_line min_samples ∈ printed_by w out.2
     ↔ ∃ e, read_csv_result env path = Raise e ∧ isinstance e FileNotFoundError = true)
  ∧ (∀ e, read_csv_result env path = Raise e →
          isinstance e FileNotFoundError = true →
          ∃ df, out.1 = Ok df ∧ df_len df = min_samples
                ∧ columns df = synthetic_columns)
  ∧ (∀ e, read_csv_result env path = Raise e →
          isinstance e FileNotFoundError = false →
          out = (Raise e, with_trace (λ t, t ++ [ReadCsv path]) w)).
Proof.
  intros out. subst out.
  unfold load_or_create_data, try_except.
  destruct (read_csv_result env path) as [[cols rows]|e] eqn:Hread.
  - rewrite (bind_ok _ _ _ _ _ (pd_read_csv_ok _ _ _ _ _ Hread)).
    rewrite bind_print.
    split; [|split; intros e He; discriminate He].
    split; [|intros (e & He & _); discriminate He].
    intros Hin. exfalso. revert Hin.
    destruct (df_len (read_frame env path cols rows) <? min_samples).
    + rewrite bind_print.
      match goal with |- context [bind (synthetic_frame env min_samples) _ ?w0] =>
        destruct (synthetic_frame_ok env min_samples w0) as (syn & Hsyn & _)
      end.
      rewrite (bind_ok _ _ _ _ _ Hsyn). unfold ret.
      erewrite printed_by_app; [|simpl; rewrite <- app_assoc; reflexivity].
      unfold creating_line. simpl. rewrite !elem_of_cons, elem_of_nil.
      intros [H|[H|[]]]; line_discr H.
    + unfold ret.
      erewrite printed_by_app; [|simpl; reflexivity].
      unfold creating_line. simpl. rewrite !elem_of_cons, elem_of_nil.
      intros [H|[]]; line_discr H.
  - rewrite (bind_raise _ _ _ _ _ (pd_read_csv_raise _ _ _ _ Hread)).
    destruct (isinstance e FileNotFoundError) eqn:Hfnf.
    + rewrite bind_print.
      match goal with |- context [synthetic_frame env min_samples ?w0] =>
        destruct (synthetic_frame_ok env min_samples w0) as (syn & Hsyn & Hlen & Hcols & _)
      end.
      rewrite Hsyn.
      split; [|split].
      * split; [intros _; eauto|]. intros _.
        erewrite printed_by_app; [|simpl; reflexivity]. apply list_elem_of_singleton.
        reflexivity.
      * intros e' _ _. eauto.
      * intros e' [= <-] He'. congruence.
    + split; [|split].
      * split.
        -- erewrite printed_by_app; [|simpl; symmetry; apply app_nil_r].
           intros H. inversion H.
        -- intros (e' & [= <-] & He'). congruence.
      * intros e' [= <-] He'. congruence.
      * intros e' [= <-] _. reflexivity.
Qed.

(** What the script returns for a readable file that is too short: the
    file's frame concatenated with a synthetic frame of [min_samples] rows. *)
Lemma load_short_file_result env path min_samples cols rows w :
  read_csv_result env path = Ok (cols, rows) →
  length rows < min_samples →
  ∃ synthetic_data w',
    load_or_create_data env path min_samples w
    = (Ok (pd_concat (read_frame env path cols rows) synthetic_data), w')
    ∧ df_len synthetic_data = min_samples
    ∧ columns synthetic_data = synthetic_columns.
Proof.
  intros Hread Hshort.
  unfold load_or_create_data, try_except.
  rewrite (bind_ok _ _ _ _ _ (pd_read_csv_ok _ _ _ _ _ Hread)).
  rewrite bind_print, df_len_read_frame.
  destruct (Nat.ltb_spec (length rows) min_samples) as [_|]; [|lia].
  rewrite bind_print.
  match goal with |- context [bind (synthetic_frame env min_samples) _ ?w0] =>
    destruct (synthetic_frame_ok env min_samples w0) as (syn & Hsyn & Hlen & Hcols & _)
  end.
  rewrite (bind_ok _ _ _ _ _ Hsyn). unfold ret.
  exists syn. eexists. split; [reflexivity|]. split; assumption.
Qed.

(** C1. A readable file with fewer than [min_samples] rows is not padded
    up to [min_samples]: the script appends [min_samples] synthetic rows,
    so the result has [len + min_samples] rows on a fresh index.  The
    original rows come first and in order, each re-read through the union
    of the columns. *)
Theorem load_short_file_row_count env path min_samples cols rows w :
  read_csv_result env path = Ok (cols, rows) →
  length rows < min_samples →
  ∃ data w',
    load_or_create_data env path min_samples w = (Ok data, w')
    ∧ df_len data = length rows + min_samples
    ∧ df_index data = seq 0 (length rows + min_samples)
    ∧ take (length rows) (df_rows data)
      = reindex_row cols (columns data) <$> rows.
Proof.
  intros Hread Hshort.
  destruct (load_short_file_result env path min_samples cols rows w Hread Hshort)
    as (syn & w' & Hrun & Hlen & _).
  eexists _, w'. split; [exact Hrun|].
  rewrite df_len_concat, df_len_read_frame, Hlen. split; [reflexivity|].
  split.
  - unfold pd_concat. rewrite df_index_range_frame, length_app, !length_fmap,
      !df_len_rows, df_len_read_frame, Hlen. reflexivity.
  - rewrite df_rows_concat, df_rows_read_frame.
    rewrite take_app_length'; [reflexivity|]. rewrite length_fmap. reflexivity.
Qed.

(** The original rows are not altered: with distinct column names and
    rows of the width of the header, each original row is found again,
    followed by [NaN] for the synthetic columns the file does not have. *)
Lemma load_short_file_keeps_rows env path min_samples cols rows w :
  read_csv_result env path = Ok (cols, rows) →
  length rows < min_samples →
  NoDup cols →
  Forall (λ r, length r = length cols) rows →
  ∃ data w' extra,
    load_or_create_data env path min_samples w = (Ok data, w')
    ∧ columns data = cols ++ extra
    ∧ take (length rows) (df_rows data)
      = (λ r, r ++ replicate (length extra) CNaN) <$> rows.
Proof.
  intros Hread Hshort Hnd Hwidth.
  destruct (load_short_file_result env path min_samples cols rows w Hread Hshort)
    as (syn & w' & Hrun & _ & _).
  eexists _, w', (filter (λ c, c ∉ cols) (columns syn)).
  split; [exact Hrun|]. split; [reflexivity|].
  rewrite df_rows_concat, df_rows_read_frame.
  rewrite take_app_length' by (rewrite length_fmap; reflexivity).
  apply Forall_fmap_ext_1. eapply Forall_impl; [exact Hwidth|]. intros r Hr.
  cbv beta in Hr. unfold pd_concat; cbn [columns range_frame read_frame].
  apply reindex_row_original; [exact Hnd|exact Hr|].
  intros c Hc%list_elem_of_filter. exact (proj1 Hc).
Qed.

(** ** A concrete environment

    Used to run the script on examples: the seeded permutation reverses
    the positions, the random streams count upwards, and the answers of the
    reader, the parser, the predictor, the plotting calls and the file
    system are given as arguments. *)

Definition demo_predictor (scores : list float) : Predictor :=
  mkPredictor
    (λ df, Ok (replicate (df_len df) (CInt 3)))
    (λ _, Ok (imap (λ i s, mkRow ("model_" +:+ pretty i) s) scores))
    (λ _, Ok [("price", 0.5%float); ("category", 0.25%float)])
    (Ok "{}").

Lemma reverse_seq_perm (seed : Z) (n : nat) : reverse (seq 0 n) ≡ₚ seq 0 n.
Proof. apply reverse_Permutation. Qed.

(** The services as parameters: [makedirs], the reader with its labels, the
    configuration, the trainer, the plotting calls, the file opens, the
    uploads and the tracking server. *)
Definition service_env
    (makedirs : string → option exn)
    (csv : result (list string * list (list cell)))
    (labels : nat → nat)
    (config : result yaml)
    (fitted : result Predictor)
    (plots : plot → plt_op → option exn)
    (opens : string → option exn)
    (uploads : string → string → option exn)
    (tracking : action → option exn) : Env :=
  mkEnv "/repo" (λ d, "/repo/app/" +:+ d) "20240101_000000" "run-1" "mlflow-artifacts:/1"
    (λ lo hi i, (lo + Z.of_nat i mod (hi - lo))%Z)
    (λ lo hi i, lo)
    (λ seed n, reverse (seq 0 n))
    reverse_seq_perm
    makedirs
    (λ _, csv)
    (λ _, labels)
    (λ _, match config with Ok _ => Ok "text" | Raise e => Raise e end)
    (λ _, config)
    opens
    (λ _, None)
    (λ _, true)
    (λ _, Ok ["leaderboard.csv"; "predictions.csv"; "model_summary.json"])
    (λ _, true)
    (λ _ _ _ _, fitted)
    plots
    uploads
    uploads
    tracking.

(** Directories that can be created, rows numbered by position, uploads
    and a tracking server that accept everything. *)
Definition demo_env
    (csv : result (list string * list (list cell)))
    (config : result yaml)
    (fitted : result Predictor)
    (plots : plot → plt_op → option exn)
    (opens : string → option exn) : Env :=
  service_env (λ _, None) csv (λ i, i) config fitted plots opens (λ _ _, None) (λ _, None).

Definition missing_file {A} : result A :=
  Raise (Exn FileNotFoundError "No such file or directory").

(** A file of [n] well-formed rows. *)
Definition file_of (n : nat) : result (list string * list (list cell)) :=
  Ok (synthetic_columns,
      (λ i : nat, [CInt (1 + Z.of_nat i mod 5); CStr "fine"; CInt 0; CFloat 25%float])
        <$> seq 0 n).

Definition no_plot_failure (p : plot) (op : plt_op) : option exn := None.
Definition no_open_failure (path : string) : option exn := None.

Definition plain_env : Env :=
  demo_env missing_file missing_file
    (Ok (demo_predictor [0.5%float; 0.25%float])) no_plot_failure no_open_failure.

(** ** The split *)

Definition train_size (n : nat) : nat :=
  Z.to_nat (py_round ((4 # 5) * inject_Z (Z.of_nat n))).

Lemma train_size_le n : train_size n ≤ n.
Proof.
  unfold train_size, py_round. cbn [Qnum Qden Qmult inject_Z]. 
  change (Z.pos (5 * 1)) with 5%Z.
  set (z := Z.of_nat n).
  assert (0 ≤ z)%Z by lia.
  destruct (Z.ltb_spec (2 * ((4 * z) `mod` 5)) 5);
    [|destruct (Z.ltb_spec 5 (2 * ((4 * z) `mod` 5)));
      [|destruct (Z.even (4 * z `div` 5))]]; subst z; Z.div_mod_to_equations; lia.
Qed.

Lemma omap_lookup_seq {A} (pre l : list A) :
  omap (λ p, (pre ++ l) !! p) (seq (length pre) (length l)) = l.
Proof.
  revert pre. induction l as [|x l IH]; intros pre; [reflexivity|].
  cbn [length seq omap list_omap].
  rewrite list_lookup_middle by reflexivity.
  f_equal.
  specialize (IH (pre ++ [x])). rewrite length_app, <- app_assoc in IH. simpl in IH.
  replace (S (length pre)) with (length pre + 1) by lia. exact IH.
Qed.

Lemma omap_lookup_perm {A} (l : list A) (perm : list nat) :
  perm ≡ₚ seq 0 (length l) → omap (λ p, l !! p) perm ≡ₚ l.
Proof.
  intros ->. pose proof (omap_lookup_seq [] l) as H. simpl in H. rewrite H. reflexivity.
Qed.

Lemma length_omap_total {A B} (f : A → option B) (l : list A) :
  Forall (λ x, is_Some (f x)) l → length (omap f l) = length l.
Proof.
  induction 1 as [|x l [y Hy] _ IH]; [reflexivity|].
  cbn. rewrite Hy. simpl. congruence.
Qed.


Lemma filter_all {A} (P : A → Prop) `{∀ x, Decision (P x)} (l : list A) :
  Forall P l → filter P l = l.
Proof.
  induction 1 as [|x l Hx _ IH]; [reflexivity|].
  rewrite filter_cons_True by assumption. congruence.
Qed.

Lemma filter_none {A} (P : A → Prop) `{∀ x, Decision (P x)} (l : list A) :
  Forall (λ x, ¬ P x) l → filter P l = [].
Proof.
  induction 1 as [|x l Hx _ IH]; [reflexivity|].
  rewrite filter_cons_False by assumption. assumption.
Qed.

(** Rows with distinct labels: removing the labels of the first part from
    the whole leaves the second part. *)
Lemma filter_not_in_first (l1 l2 : list (nat * list cell)) :
  NoDup (l1 ++ l2).*1 →
  filter (λ r, r.1 ∉ l1.*1) (l1 ++ l2) = l2.
Proof.
  intros Hnd. rewrite fmap_app in Hnd. apply NoDup_app in Hnd as (_ & Hdisj & _).
  rewrite filter_app, filter_none, filter_all; [reflexivity| |].
  - apply Forall_forall. intros r Hr Hin.
    apply (Hdisj r.1 Hin). apply list_elem_of_fmap. eauto.
  - apply Forall_forall. intros r Hr Hnot. apply Hnot.
    apply list_elem_of_fmap. eauto.
Qed.

Lemma pd_sample_ok env data :
  pd_sample env (4 # 5) 42 data
  = Ok (take_rows data (take (train_size (df_len data))
                          (rs_permutation env 42 (df_len data)))).
Proof.
  unfold pd_sample. fold (train_size (df_len data)).
  change (negb (Qle_bool (4 # 5) 1)) with false.
  change (negb (Qle_bool 0 (4 # 5))) with false. cbn [negb].
  destruct (Nat.ltb_spec (df_len data) (train_size (df_len data))) as [Hlt|_];
    [|reflexivity].
  pose proof (train_size_le (df_len data)). lia.
Qed.

(** The rows of the data, in the order of the seeded permutation: the
    train part followed by the positions that were not sampled. *)
Lemma permuted_rows env data :
  body (take_rows data (take (train_size (df_len data))
                          (rs_permutation env 42 (df_len data))))
  ++ omap (λ p, body data !! p)
       (drop (train_size (df_len data)) (rs_permutation env 42 (df_len data)))
  ≡ₚ body data.
Proof.
  unfold take_rows; cbn [body].
  rewrite <- omap_app, take_drop.
  apply omap_lookup_perm, rs_permutation_perm.
Qed.

Lemma sampled_positions_valid env data k :
  Forall (λ p, is_Some (body data !! p))
    (take k (rs_permutation env 42 (df_len data))).
Proof.
  apply Forall_forall. intros p Hp.
  apply lookup_lt_is_Some.
  apply subseteq_take in Hp.
  rewrite (rs_permutation_perm env 42 (df_len data)) in Hp.
  apply elem_of_seq in Hp. unfold df_len in Hp. lia.
Qed.

Lemma split_result env data w :
  split env data w
  = (match pd_sample env (4 # 5) 42 data with
     | Ok train_data =>
         match pd_drop data (df_index train_data) with
         | Ok test_data => Ok (train_data, test_data)
         | Raise e => Raise e
         end
     | Raise e => Raise e
     end, w).
Proof.
  unfold split, bind, lift, ret.
  destruct (pd_sample env (4 # 5) 42 data); [|reflexivity].
  destruct (pd_drop data _); reflexivity.
Qed.

(** The positions sampled for the train part. *)
Definition train_locs (env : Env) (data : DataFrame) : list nat :=
  take (train_size (df_len data)) (rs_permutation env 42 (df_len data)).

Definition train_part (env : Env) (data : DataFrame) : DataFrame :=
  take_rows data (train_locs env data).

Definition test_part (env : Env) (data : DataFrame) : DataFrame :=
  mkFrame (columns data)
    (filter (λ r, r.1 ∉ df_index (train_part env data)) (body data)).

(** The split does not raise: the fraction is valid, the sample is not
    larger than the data, and every sampled label is a label of the data. *)
Lemma split_returns env data w :
  split env data w = (Ok (train_part env data, test_part env data), w).
Proof.
  rewrite split_result, pd_sample_ok. fold (train_locs env data) (train_part env data).
  unfold pd_drop.
  replace (forallb _ _) with true; [reflexivity|].
  symmetry. apply forallb_forall. intros l Hl%list_elem_of_In.
  apply bool_decide_eq_true.
  pose proof (permuted_rows env data) as Hperm.
  unfold df_index in *. rewrite <- Hperm, fmap_app. apply elem_of_app. left; exact Hl.
Qed.

Lemma df_len_train_part env data :
  df_len (train_part env data) = train_size (df_len data).
Proof.
  unfold df_len at 1, train_part, train_locs, take_rows; cbn [body].
  rewrite length_omap_total by apply sampled_positions_valid.
  rewrite length_take.
  pose proof (train_size_le (df_len data)).
  rewrite (Permutation_length (rs_permutation_perm env 42 (df_len data))), length_seq.
  lia.
Qed.

(** With one label for every row, whichever rows are sampled, [drop]
    removes all the rows: the test part is empty as soon as the training
    part is not. *)
Lemma test_part_of_one_label env data l :
  (∀ r, r ∈ body data → r.1 = l) →
  0 < df_len (train_part env data) →
  df_len (test_part env data) = 0.
Proof.
  intros Hone Htrain.
  assert (Hl : l ∈ df_index (train_part env data)).
  { unfold df_len in Htrain.
    destruct (body (train_part env data)) as [|r rest] eqn:Hbody; [cbn in Htrain; lia|].
    assert (Hin : r ∈ body (train_part env data)) by (rewrite Hbody; left).
    unfold train_part, take_rows in Hin; cbn [body] in Hin.
    apply list_elem_of_omap in Hin as (p & _ & Hp).
    apply list_elem_of_lookup_2 in Hp.
    unfold df_index. rewrite Hbody, fmap_cons. rewrite <- (Hone r Hp). left. }
  unfold df_len, test_part; cbn [body].
  rewrite filter_none; [reflexivity|].
  apply Forall_forall. intros r Hr Hnot. apply Hnot. rewrite (Hone r Hr). exact Hl.
Qed.

(** C3, as the script behaves.  On every dataset the split returns a train
    and a test part; any other execution of it, in whatever state of the
    world, returns the same two parts; no label is in both; every label of
    the data is in one of them; and the train part has [round(0.8 n)] rows,
    80 of 100.  When the rows of the dataset have distinct labels, the two
    parts together hold exactly the rows of the data, so that the test part
    has the remaining rows, 20 of 100.  [drop] removes rows by label: a row
    that shares its label with a sampled row is in neither part. *)
Theorem split_partition env data w :
  ∃ train_data test_data,
    split env data w = (Ok (train_data, test_data), w)
    ∧ (∀ w', (split env data w').1 = Ok (train_data, test_data))
    ∧ (∀ i, i ∈ df_index train_data → i ∉ df_index test_data)
    ∧ (∀ i, i ∈ df_index data ↔ i ∈ df_index train_data ∨ i ∈ df_index test_data)
    ∧ df_len train_data = train_size (df_len data)
    ∧ (df_len data = 100 → df_len train_data = 80)
    ∧ (NoDup (df_index data) →
       body train_data ++ body test_data ≡ₚ body data
       ∧ df_len test_data = df_len data - train_size (df_len data)
       ∧ (df_len data = 100 → df_len test_data = 20)).
Proof.
  exists (train_part env data), (test_part env data).
  split; [apply split_returns|].
  split; [intros w'; rewrite split_returns; reflexivity|].
  pose proof (permuted_rows env data) as Hperm.
  fold (train_locs env data) (train_part env data) in Hperm.
  set (rest := omap _ _) in Hperm.
  pose proof (df_len_train_part env data) as Htrain.
  split; [|split; [|split; [|split]]].
  - intros i Hi Htest. unfold df_index at 1, test_part in Htest; cbn [body] in Htest.
    apply list_elem_of_fmap in Htest as (r & -> & Hr).
    apply list_elem_of_filter in Hr as [Hnot _]. exact (Hnot Hi).
  - intros i. split.
    + intros Hdata.
      destruct (decide (i ∈ df_index (train_part env data))) as [Hin|Hnot];
        [left; exact Hin|right].
      unfold df_index at 1 in Hdata. apply list_elem_of_fmap in Hdata as (r & -> & Hr).
      unfold df_index at 1, test_part; cbn [body].
      apply list_elem_of_fmap. exists r. split; [reflexivity|].
      apply list_elem_of_filter. split; [exact Hnot|exact Hr].
    + intros [Hin|Hin].
      * unfold df_index in *. rewrite <- Hperm, fmap_app. apply elem_of_app.
        left; exact Hin.
      * unfold df_index at 1, test_part in Hin; cbn [body] in Hin.
        apply list_elem_of_fmap in Hin as (r & -> & Hr).
        apply list_elem_of_filter in Hr as [_ Hr].
        unfold df_index. apply list_elem_of_fmap. exists r. split; [reflexivity|exact Hr].
  - exact Htrain.
  - intros H100. rewrite H100 in Htrain. exact Htrain.
  - intros Hnd.
    assert (Hnd' : NoDup (body (train_part env data) ++ rest).*1).
    { rewrite Hperm. exact Hnd. }
    assert (Hall : body (train_part env data) ++ body (test_part env data) ≡ₚ body data).
    { transitivity (body (train_part env data) ++ rest); [|exact Hperm].
      apply Permutation_app_head.
      unfold test_part; cbn [body]. rewrite <- Hperm. unfold df_index.
      rewrite filter_not_in_first by exact Hnd'. reflexivity. }
    assert (Hlen : df_len (train_part env data) + df_len (test_part env data)
                   = df_len data).
    { unfold df_len. rewrite <- length_app. apply Permutation_length, Hall. }
    split; [exact Hall|]. split; [lia|].
    intros H100. rewrite H100 in Htrain, Hlen.
    change (train_size 100) with 80 in Htrain. lia.
Qed.

(** ** Plots *)

(** The external actions a call performed. *)
Definition performed_by (w w' : World) : list action :=
  drop (length (trace w)) (trace w').

Lemma performed_by_app w w' l : trace w' = trace w ++ l → performed_by w w' = l.
Proof. unfold performed_by. intros ->. apply drop_app_length. Qed.

Lemma path_join_inj d a b : path_join d a = path_join d b → a = b.
Proof.
  unfold path_join. induction d as [|c d IH]; simpl.
  - intros [= H]. exact H.
  - intros [= H]. auto.
Qed.

Definition feature_path (plots_dir : string) : string :=
  path_join plots_dir "feature_importance.png".
Definition prediction_path (plots_dir : string) : string :=
  path_join plots_dir "prediction_dist.png".

Lemma plot_paths_differ d : feature_path d ≠ prediction_path d.
Proof. intros H%path_join_inj. discriminate H. Qed.

Ltac run_m H :=
  cbv [bind ret raise lift try_except call emit print save_file update_tracking
       any_exception] in H.

Ltac run_plots H :=
  repeat (run_m H;
          match type of H with
          | context [match plt_raises ?env ?p ?op with _ => _ end] =>
              destruct (plt_raises env p op) eqn:?
          | context [match feature_importance ?p ?d with _ => _ end] =>
              destruct (feature_importance p d) eqn:?
          end);
  run_m H.

Definition feature_warning (e : exn) : string :=
  "Could not create feature importance plot: " +:+ exn_str e.
Definition prediction_warning (e : exn) : string :=
  "Could not create prediction distribution plot: " +:+ exn_str e.

Lemma printed_by_eq w w' l :
  stdout w' = stdout w ++ l → ∀ x, x ∈ l → x ∈ printed_by w w'.
Proof. intros H x Hx. rewrite (printed_by_app _ _ _ H). exact Hx. Qed.

Lemma performed_by_eq w w' l :
  trace w' = trace w ++ l → ∀ x, x ∈ l → x ∈ performed_by w w'.
Proof. intros H x Hx. rewrite (performed_by_app _ _ _ H). exact Hx. Qed.

Ltac world_fields :=
  cbn [stdout trace files np_pos tracking
       with_stdout with_trace with_files with_np_pos with_tracking fst snd].

Ltac in_list := rewrite ?elem_of_app, ?elem_of_cons; tauto.

Lemma feature_importance_plot_spec env predictor test_data plots_dir plots w :
  ∃ plots1 w1,
    feature_importance_plot env predictor test_data plots_dir plots w = (Ok plots1, w1)
    ∧ (∃ l, trace w1 = trace w ++ FeatureImportance :: l)
    ∧ (∀ p, p ≠ feature_path plots_dir → files w1 !! p = files w !! p)
    ∧ (plots1 = <["feature_importance" := feature_path plots_dir]> plots
         ∧ files w1 !! feature_path plots_dir = Some (Png "Feature Importance")
         ∧ stdout w1 = stdout w
       ∨ plots1 = plots ∧ ∃ e, stdout w1 = stdout w ++ [feature_warning e])
    ∧ ((∃ imp, feature_importance predictor test_data = Ok imp) →
       (∀ op, plt_raises env FeaturePlot op = None) →
       plots1 = <["feature_importance" := feature_path plots_dir]> plots
       ∧ files w1 !! feature_path plots_dir = Some (Png "Feature Importance")).
Proof.
  destruct (feature_importance_plot env predictor test_data plots_dir plots w)
    as [r w1] eqn:Hrun.
  unfold feature_importance_plot, plt_savefig, plt in Hrun.
  unfold feature_path, feature_warning.
  run_plots Hrun.
  all: injection Hrun as <- <-.
  all: eexists _, _; split; [reflexivity|].
  all: world_fields.
  all: split; [eexists; rewrite <- ?app_assoc; reflexivity|].
  all: split; [intros p Hp; by rewrite ?lookup_insert_ne|].
  all: split;
    [first [left; split; [reflexivity|split; [apply lookup_insert_eq|reflexivity]]
           |right; split; [reflexivity|eexists; reflexivity]]|].
  all: intros [imp Himp] Hall.
  all: first [split; [reflexivity|apply lookup_insert_eq]
             |match goal with
              | H : plt_raises _ FeaturePlot _ = Some _ |- _ =>
                  rewrite Hall in H; discriminate H
              end
             |discriminate Himp].
Qed.

Lemma prediction_distribution_plot_spec env predictions plots_dir plots w :
  ∃ plots1 w1,
    prediction_distribution_plot env predictions plots_dir plots w = (Ok plots1, w1)
    ∧ (∃ l, trace w1 = trace w ++ Plt PredictionPlot Figure :: l)
    ∧ (∀ p, p ≠ prediction_path plots_dir → files w1 !! p = files w !! p)
    ∧ (plots1 = <["prediction_distribution" := prediction_path plots_dir]> plots
         ∧ files w1 !! prediction_path plots_dir = Some (Png "Prediction Distribution")
         ∧ stdout w1 = stdout w
       ∨ plots1 = plots ∧ ∃ e, stdout w1 = stdout w ++ [prediction_warning e])
    ∧ ((∀ op, plt_raises env PredictionPlot op = None) →
       plots1 = <["prediction_distribution" := prediction_path plots_dir]> plots
       ∧ files w1 !! prediction_path plots_dir = Some (Png "Prediction Distribution")).
Proof.
  destruct (prediction_distribution_plot env predictions plots_dir plots w)
    as [r w1] eqn:Hrun.
  unfold prediction_distribution_plot, plt_savefig, plt in Hrun.
  unfold prediction_path, prediction_warning.
  run_plots Hrun.
  all: injection Hrun as <- <-.
  all: eexists _, _; split; [reflexivity|].
  all: world_fields.
  all: split; [eexists; rewrite <- ?app_assoc; reflexivity|].
  all: split; [intros p Hp; by rewrite ?lookup_insert_ne|].
  all: split;
    [first [left; split; [reflexivity|split; [apply lookup_insert_eq|reflexivity]]
           |right; split; [reflexivity|eexists; reflexivity]]|].
  all: intros Hall.
  all: first [split; [reflexivity|apply lookup_insert_eq]
             |match goal with
              | H : plt_raises _ PredictionPlot _ = Some _ |- _ =>
                  rewrite Hall in H; discriminate H
              end].
Qed.

(** C8. [create_visualizations] never raises.  Both plots are attempted
    whatever happens to the other one; each plot is either saved and listed
    in the returned mapping, or reported by a printed warning; the
    prediction plot is saved whenever its own calls succeed, however the
    feature-importance plot ended, and the other way round. *)
Theorem create_visualizations_independent env predictor test_data predictions plots_dir w :
  let out := create_visualizations env predictor test_data predictions plots_dir w in
  ∃ plots,
    out.1 = Ok plots
    ∧ FeatureImportance ∈ performed_by w out.2
    ∧ Plt PredictionPlot Figure ∈ performed_by w out.2
    ∧ (plots !! "feature_importance" = Some (feature_path plots_dir)
         ∧ files out.2 !! feature_path plots_dir = Some (Png "Feature Importance")
       ∨ plots !! "feature_importance" = None
         ∧ ∃ e, feature_warning e ∈ printed_by w out.2)
    ∧ (plots !! "prediction_distribution" = Some (prediction_path plots_dir)
         ∧ files out.2 !! prediction_path plots_dir = Some (Png "Prediction Distribution")
       ∨ plots !! "prediction_distribution" = None
         ∧ ∃ e, prediction_warning e ∈ printed_by w out.2)
    ∧ ((∀ op, plt_raises env PredictionPlot op = None) →
       plots !! "prediction_distribution" = Some (prediction_path plots_dir)
       ∧ files out.2 !! prediction_path plots_dir = Some (Png "Prediction Distribution"))
    ∧ ((∃ imp, feature_importance predictor test_data = Ok imp) →
       (∀ op, plt_raises env FeaturePlot op = None) →
       plots !! "feature_importance" = Some (feature_path plots_dir)
       ∧ files out.2 !! feature_path plots_dir = Some (Png "Feature Importance")).
Proof.
  intros out. subst out. unfold create_visualizations.
  destruct (feature_importance_plot_spec env predictor test_data plots_dir ∅ w)
    as (plots1 & w1 & Hrun1 & [l1 Htr1] & Hfr1 & Hcase1 & Hgood1).
  destruct (prediction_distribution_plot_spec env predictions plots_dir plots1 w1)
    as (plots2 & w2 & Hrun2 & [l2 Htr2] & Hfr2 & Hcase2 & Hgood2).
  rewrite (bind_ok _ _ _ _ _ Hrun1), (bind_ok _ _ _ _ _ Hrun2). unfold ret.
  pose proof (plot_paths_differ plots_dir) as Hdiff.
  exists plots2. cbn [fst snd].
  assert (Htr : trace w2 = trace w ++ (FeatureImportance :: l1)
                                 ++ (Plt PredictionPlot Figure :: l2)).
  { rewrite Htr2, Htr1, <- app_assoc. reflexivity. }
  assert (Hkeep : files w2 !! feature_path plots_dir = files w1 !! feature_path plots_dir)
    by (apply Hfr2, Hdiff).
  split; [reflexivity|].
  split; [eapply performed_by_eq; [exact Htr|in_list]|].
  split; [eapply performed_by_eq; [exact Htr|in_list]|].
  split; [|split; [|split]].
  - destruct Hcase1 as [(-> & Hf1 & Hs1)|(-> & e1 & Hs1)].
    + left. rewrite Hkeep. split; [|exact Hf1].
      destruct Hcase2 as [(-> & _)|(-> & _)]; by simplify_map_eq.
    + right. split.
      * destruct Hcase2 as [(-> & _)|(-> & _)]; by simplify_map_eq.
      * exists e1. destruct Hcase2 as [(_ & _ & Hs2)|(_ & e2 & Hs2)].
        -- eapply printed_by_eq; [rewrite Hs2; exact Hs1|in_list].
        -- eapply printed_by_eq;
             [rewrite Hs2, Hs1, <- app_assoc; reflexivity|in_list].
  - destruct Hcase2 as [(-> & Hf2 & Hs2)|(-> & e2 & Hs2)].
    + left. split; [by simplify_map_eq|exact Hf2].
    + right. split.
      * destruct Hcase1 as [(-> & _)|(-> & _)]; by simplify_map_eq.
      * exists e2. destruct Hcase1 as [(_ & _ & Hs1)|(_ & e1 & Hs1)].
        -- eapply printed_by_eq; [rewrite Hs2, Hs1; reflexivity|in_list].
        -- eapply printed_by_eq;
             [rewrite Hs2, Hs1, <- app_assoc; reflexivity|in_list].
  - intros Hall. destruct (Hgood2 Hall) as [-> Hf2].
    split; [by simplify_map_eq|exact Hf2].
  - intros Himp Hall. destruct (Hgood1 Himp Hall) as [-> Hf1].
    rewrite Hkeep. split; [|exact Hf1].
    destruct Hcase2 as [(-> & _)|(-> & _)]; by simplify_map_eq.
Qed.

(** ** Settings *)

(** What [a or c] evaluates to when the configuration holds [c]. *)
Definition flag_or_config (flag : pyval) (c : option pyval) : pyval :=
  if truthy flag then flag else default PNone c.

Lemma resolve_settings_mapping args m w :
  resolve_settings args (YMap m) w
  = (Ok (flag_or_config (opt_str (args_label args)) (m !! "label"),
         flag_or_config (opt_int (args_time_limit args)) (m !! "time_limit")), w).
Proof.
  unfold resolve_settings, py_or, flag_or_config, config_get.
  destruct (truthy (opt_str (args_label args)));
    destruct (truthy (opt_int (args_time_limit args))); reflexivity.
Qed.

(** A flag given with a truthy value is the value used, whatever the
    configuration is (it is then not even consulted). *)
Lemma truthy_flags_override args config w :
  truthy (opt_str (args_label args)) = true →
  truthy (opt_int (args_time_limit args)) = true →
  resolve_settings args config w
  = (Ok (opt_str (args_label args), opt_int (args_time_limit args)), w).
Proof.
  intros Hl Ht. unfold resolve_settings, py_or. rewrite Hl, Ht. reflexivity.
Qed.

(** C7, at the failing input.  [--time_limit 0] and an empty [--label] are
    given on the command line, yet the values used are those of the
    configuration: with the default configuration the label is "rating" and
    the time limit 300, not the empty string and 0. *)
Theorem falsy_flag_value_is_not_used m w :
  resolve_settings (mkArgs (Some 0%Z) (Some EmptyString)) (YMap m) w
  = (Ok (default PNone (m !! "label"), default PNone (m !! "time_limit")), w)
  ∧ resolve_settings (mkArgs (Some 0%Z) (Some EmptyString)) default_config w
    = (Ok (PStr "rating", PInt 300), w).
Proof.
  split.
  - rewrite resolve_settings_mapping. reflexivity.
  - unfold default_config. rewrite resolve_settings_mapping.
    unfold flag_or_config. cbn [truthy opt_str opt_int args_label args_time_limit
      from_option Z.eqb String.eqb negb].
    rewrite lookup_insert_eq, lookup_insert_ne, lookup_insert_eq by discriminate.
    reflexivity.
Qed.

(** What opening and parsing the configuration file gives. *)
Definition config_path (env : Env) : string := path_join (base_dir env) "config.yaml".








(** ** The tracked run *)

(** The world in which the body of the [try] starts: the run has been
    started and its identifier printed. *)
Definition run_opened (env : Env) (w : World) : World :=
  with_stdout (λ o, o ++ ["MLflow Run ID: " +:+ new_run_id env])
    (with_tracking (set_run Running)
       (with_trace (λ t, t ++ [StartRun]) w)).

(** The world after the run has been ended with status [st]. *)
Definition run_ended (st : run_status) (w : World) : World :=
  with_tracking (set_run st) (with_trace (λ t, t ++ [EndRun st]) w).

(** The world after the handler has reported and recorded [e]. *)
Definition error_recorded (e : exn) (w : World) : World :=
  with_tracking (add_param "error" (PStr (exn_str e)))
    (with_trace (λ t, t ++ [LogParam "error" (PStr (exn_str e))])
       (with_stdout (λ o, o ++ ["Training error: " +:+ exn_str e]) w)).

(** The world after the handler has reported [e] and the server has refused
    to record it. *)
Definition error_refused (e : exn) (w : World) : World :=
  with_trace (λ t, t ++ [LogParam "error" (PStr (exn_str e))])
    (with_stdout (λ o, o ++ ["Training error: " +:+ exn_str e]) w).

(** The handler raises [e] again only when its request was accepted. *)
Lemma on_training_error_result {A} env e w :
  on_training_error env (A := A) e w
  = match tracking_raises env (LogParam "error" (PStr (exn_str e))) with
    | None => (Raise e, error_recorded e w)
    | Some e2 => (Raise e2, error_refused e w)
    end.
Proof.
  unfold on_training_error, mlflow_log_param.
  cbv [bind ret raise print call emit update_tracking].
  destruct (tracking_raises env _); reflexivity.
Qed.

(** The way out of the [with] block: the result [r] of the body stands
    when the server accepts the end of the run. *)
Definition closed {A} (env : Env) (st : run_status) (r : result A) (w : World)
    : result A * World :=
  match tracking_raises env (EndRun st) with
  | None => (r, run_ended st w)
  | Some e2 => (Raise e2, with_trace (λ t, t ++ [EndRun st]) w)
  end.

Lemma mlflow_start_run_result env w :
  mlflow_start_run env w
  = match tracking_raises env StartRun with
    | Some e0 => (Raise e0, with_trace (λ t, t ++ [StartRun]) w)
    | None => (Ok (new_run_id env),
               with_tracking (set_run Running) (with_trace (λ t, t ++ [StartRun]) w))
    end.
Proof.
  unfold mlflow_start_run. cbv [bind call emit ret raise update_tracking].
  destruct (tracking_raises env StartRun); reflexivity.
Qed.

Lemma mlflow_end_run_then {A} env st (r : result A) w :
  bind (mlflow_end_run env st) (λ _, lift r) w = closed env st r w.
Proof.
  unfold closed, mlflow_end_run. cbv [bind call emit ret raise lift update_tracking].
  destruct (tracking_raises env (EndRun st)); reflexivity.
Qed.

Lemma run_experiment_result env dirs label time_limit train_data test_data w :
  run_experiment env dirs label time_limit train_data test_data w
  = match tracking_raises env StartRun with
    | Some e0 => (Raise e0, with_trace (λ t, t ++ [StartRun]) w)
    | None =>
        match experiment_steps env dirs label time_limit train_data test_data
                (new_run_id env) (run_opened env w) with
        | (Ok a, w1) => closed env Finished (Ok a) w1
        | (Raise e, w1) =>
            match tracking_raises env (LogParam "error" (PStr (exn_str e))) with
            | None => closed env Failed (Raise e) (error_recorded e w1)
            | Some e2 => closed env Failed (Raise e2) (error_refused e w1)
            end
        end
    end.
Proof.
  unfold run_experiment, with_run.
  unfold bind at 1. rewrite mlflow_start_run_result.
  destruct (tracking_raises env StartRun) as [e0|]; [reflexivity|].
  rewrite bind_print. fold (run_opened env w). unfold try_except.
  destruct (experiment_steps env dirs label time_limit train_data test_data
              (new_run_id env) (run_opened env w)) as [[a|e] w1].
  - apply mlflow_end_run_then.
  - cbv [any_exception]. rewrite on_training_error_result.
    destruct (tracking_raises env (LogParam "error" (PStr (exn_str e))));
      apply mlflow_end_run_then.
Qed.

(** With a server that accepts the start and the end of the run, only the
    body and the handler decide. *)
Lemma run_experiment_accepted env dirs label time_limit train_data test_data w :
  tracking_raises env StartRun = None →
  tracking_raises env (EndRun Finished) = None →
  tracking_raises env (EndRun Failed) = None →
  run_experiment env dirs label time_limit train_data test_data w
  = match experiment_steps env dirs label time_limit train_data test_data
            (new_run_id env) (run_opened env w) with
    | (Ok a, w1) => (Ok a, run_ended Finished w1)
    | (Raise e, w1) =>
        match tracking_raises env (LogParam "error" (PStr (exn_str e))) with
        | None => (Raise e, run_ended Failed (error_recorded e w1))
        | Some e2 => (Raise e2, run_ended Failed (error_refused e w1))
        end
    end.
Proof.
  intros Hstart Hfinished Hfailed. rewrite run_experiment_result, Hstart.
  unfold closed. rewrite Hfinished, Hfailed. reflexivity.
Qed.

(** C2, as the script behaves.  When a step of the body of the tracked
    run raises [e], the handler asks the tracking server to record [str(e)]
    as the parameter "error", and the way out of the [with] block asks it to
    end the run as failed.  When both requests are accepted, the parameter
    is recorded while the run is still running, the run is then ended as
    failed, and [e] itself is what [run_experiment] raises.  When the
    recording is refused, nothing is recorded under "error" and the
    exception of that request is raised in place of [e]; the run is ended as
    failed all the same.  With a server that accepts the start and the end
    of a run, the run is not left running, whatever the body does. *)
Theorem failed_run_is_recorded_and_closed env dirs label time_limit train_data test_data
    w e w1 :
  tracking_raises env StartRun = None →
  tracking_raises env (EndRun Failed) = None →
  experiment_steps env dirs label time_limit train_data test_data
    (new_run_id env) (run_opened env w) = (Raise e, w1) →
  (tracking_raises env (LogParam "error" (PStr (exn_str e))) = None →
   ∃ w2,
     run_experiment env dirs label time_limit train_data test_data w = (Raise e, w2)
     ∧ run (tracking w2) = Failed
     ∧ params (tracking w2) !! "error" = Some (PStr (exn_str e))
     ∧ trace w2 = trace w1 ++ [LogParam "error" (PStr (exn_str e)); EndRun Failed]
     ∧ stdout w2 = stdout w1 ++ ["Training error: " +:+ exn_str e])
  ∧ (∀ e2, tracking_raises env (LogParam "error" (PStr (exn_str e))) = Some e2 →
     ∃ w2,
       run_experiment env dirs label time_limit train_data test_data w = (Raise e2, w2)
       ∧ run (tracking w2) = Failed
       ∧ params (tracking w2) = params (tracking w1)
       ∧ trace w2 = trace w1 ++ [LogParam "error" (PStr (exn_str e)); EndRun Failed])
  ∧ (tracking_raises env (EndRun Finished) = None →
     ∀ w', run (tracking
                  (run_experiment env dirs label time_limit train_data test_data w').2)
           ≠ Running).
Proof.
  intros Hstart Hfailed Hsteps.
  split; [|split].
  - intros Hrec. rewrite run_experiment_result, Hstart, Hsteps, Hrec.
    unfold closed. rewrite Hfailed.
    eexists. split; [reflexivity|].
    unfold run_ended, error_recorded.
    cbn [tracking trace stdout with_tracking with_trace with_stdout run params
         set_run add_param].
    split; [reflexivity|]. split; [apply lookup_insert_eq|].
    split; [rewrite <- app_assoc; reflexivity|reflexivity].
  - intros e2 Hrec. rewrite run_experiment_result, Hstart, Hsteps, Hrec.
    unfold closed. rewrite Hfailed.
    eexists. split; [reflexivity|].
    unfold run_ended, error_refused.
    cbn [tracking trace stdout with_tracking with_trace with_stdout run params
         set_run].
    split; [reflexivity|]. split; [reflexivity|].
    rewrite <- app_assoc. reflexivity.
  - intros Hfinished w'.
    rewrite run_experiment_accepted by assumption.
    destruct (experiment_steps env dirs label time_limit train_data test_data
                  (new_run_id env) (run_opened env w')) as [[a|e'] w3];
        [|destruct (tracking_raises env (LogParam "error" (PStr (exn_str e'))))];
        cbn [snd]; unfold run_ended;
        cbn [tracking with_tracking run set_run]; discriminate.
Qed.

(** In particular a failing fit: the training error is the first thing
    that happens in the body. *)
Lemma fit_failure_raises env dirs label time_limit train_data test_data run_id e w :
  fit env train_data label time_limit hyperparameters = Raise e →
  experiment_steps env dirs label time_limit train_data test_data run_id w
  = (Raise e, with_trace (λ t, t ++ [Fit label time_limit (df_len train_data)]) w).
Proof.
  intros Hfit. unfold experiment_steps, train_model.
  cbv [bind ret emit lift]. rewrite Hfit. reflexivity.
Qed.

(** ** Writing the artifact files *)

(** The actions of writing one file completely. *)
Definition write_actions (dir : string) (item : string * file_data) : list action :=
  [OpenWrite (path_join dir item.1); WriteTo (path_join dir item.1)].

Definition writes_ok (env : Env) (dir : string) (item : string * file_data) : Prop :=
  open_write_raises env (path_join dir item.1) = None
  ∧ write_raises env (path_join dir item.1) = None.

(** The way writing one file fails with [e], and what was attempted of it. *)
Definition write_fails (env : Env) (dir : string) (item : string * file_data)
    (e : exn) (attempted : list action) : Prop :=
  open_write_raises env (path_join dir item.1) = Some e
    ∧ attempted = [OpenWrite (path_join dir item.1)]
  ∨ open_write_raises env (path_join dir item.1) = None
    ∧ write_raises env (path_join dir item.1) = Some e
    ∧ attempted = write_actions dir item.

Lemma write_text_file_ok env path content w :
  open_write_raises env path = None → write_raises env path = None →
  ∃ w', write_text_file env path content w = (Ok tt, w')
        ∧ trace w' = trace w ++ [OpenWrite path; WriteTo path]
        ∧ files w' !! path = Some content.
Proof.
  intros Ho Hw. unfold write_text_file. rewrite Ho, Hw.
  cbv [bind ret call emit save_file].
  eexists. split; [reflexivity|].
  cbn [trace files with_trace with_files]. split.
  - rewrite <- app_assoc. reflexivity.
  - apply lookup_insert_eq.
Qed.

(** C6, as the script behaves.  The loop over the artifact files has no
    handler of its own: when writing one file raises, the loop raises the
    same exception at once, and the actions performed are the complete
    writes of the files before it followed by the failed attempt; nothing is
    attempted for the files after it. *)
Theorem write_artifacts_stops_at_first_failure env dir written item remaining e attempted w :
  Forall (writes_ok env dir) written →
  write_fails env dir item e attempted →
  ∃ w', write_artifacts env dir (written ++ item :: remaining) w = (Raise e, w')
        ∧ trace w' = trace w ++ (written ≫= write_actions dir) ++ attempted
        ∧ performed_by w w' = (written ≫= write_actions dir) ++ attempted.
Proof.
  intros Hok Hfail.
  enough (∃ w', write_artifacts env dir (written ++ item :: remaining) w = (Raise e, w')
                ∧ trace w' = trace w ++ (written ≫= write_actions dir) ++ attempted)
    as (w' & Hrun & Htr).
  { exists w'. split; [exact Hrun|]. split; [exact Htr|].
    apply performed_by_app, Htr. }
  unfold write_artifacts.
  revert w. induction Hok as [|it written [Ho Hw] _ IH]; intros w.
  - cbn [app for_each]. unfold write_text_file.
    destruct Hfail as [(Ho & ->)|(Ho & Hw & ->)];
      rewrite Ho, ?Hw; cbv [bind ret raise call emit save_file];
      (eexists; split; [reflexivity|]);
      cbn [trace with_trace with_files];
      rewrite <- ?app_assoc; reflexivity.
  - cbn [app for_each].
    destruct (write_text_file_ok env (path_join dir it.1) it.2 w Ho Hw)
      as (w1 & Hrun & Htr & _).
    rewrite (bind_ok _ _ _ _ _ Hrun).
    destruct (IH w1) as (w' & Hrest & Htr').
    exists w'. split; [exact Hrest|].
    rewrite Htr', Htr, bind_cons, <- !app_assoc. reflexivity.
Qed.

(** ** The recorded scores *)

Open Scope Q_scope.

Definition qmax (m y : Q) : Q := if negb (Qle_bool y m) then y else m.

Lemma qmax_ge_l m y : m <= qmax m y.
Proof.
  unfold qmax. destruct (Qle_bool y m) eqn:H; cbn [negb].
  - apply Qle_refl.
  - destruct (Qlt_le_dec m y) as [Hlt|Hle].
    + apply Qlt_le_weak, Hlt.
    + apply Qle_bool_iff in Hle. congruence.
Qed.

Lemma qmax_ge_r m y : y <= qmax m y.
Proof.
  unfold qmax. destruct (Qle_bool y m) eqn:H; cbn [negb].
  - apply Qle_bool_iff, H.
  - apply Qle_refl.
Qed.

Lemma foldl_qmax_ge_init l m : m <= foldl qmax m l.
Proof.
  revert m. induction l as [|y l IH]; intros m; cbn [foldl].
  - apply Qle_refl.
  - eapply Qle_trans; [apply qmax_ge_l|apply IH].
Qed.

Lemma foldl_qmax_ge_elem l m y : y ∈ l → y <= foldl qmax m l.
Proof.
  revert m. induction l as [|z l IH]; intros m Hy; [inversion Hy|].
  cbn [foldl]. apply elem_of_cons in Hy as [->|Hy].
  - eapply Qle_trans; [apply qmax_ge_r|apply foldl_qmax_ge_init].
  - apply IH, Hy.
Qed.

(** A sum of values that are all at most [b] is at most their number
    times [b]. *)
Lemma foldl_Qplus_le l acc b :
  (∀ y, y ∈ l → y <= b) →
  foldl Qplus acc l <= acc + inject_Z (Z.of_nat (length l)) * b.
Proof.
  revert acc. induction l as [|y l IH]; intros acc Hb; cbn [foldl length].
  - cbn. rewrite Qmult_0_l, Qplus_0_r. apply Qle_refl.
  - eapply Qle_trans; [apply IH; intros; apply Hb; by right|].
    rewrite Nat2Z.inj_succ, <- Z.add_1_r, inject_Z_plus.
    assert (y <= b) by (apply Hb; by left).
    apply (Qle_trans _ (acc + b + inject_Z (Z.of_nat (length l)) * b)).
    + apply Qplus_le_compat; [|apply Qle_refl].
      apply Qplus_le_compat; [apply Qle_refl|exact H].
    + apply Qle_lteq. right. ring.
Qed.

Lemma series_valid_Q (scores : list Q) : series_valid scores = scores.
Proof.
  unfold series_valid. apply filter_all, Forall_forall. reflexivity.
Qed.

(** In exact arithmetic the order of the additions does not matter: numpy's
    sum is the sum. *)
Lemma foldl_Qplus_acc l a : foldl Qplus a l == a + foldl Qplus 0 l.
Proof.
  revert a. induction l as [|y l IH]; intros a; cbn [foldl].
  - ring.
  - rewrite (IH (a + y)), (IH (0 + y)). ring.
Qed.

Lemma Qsum_app l1 l2 :
  foldl Qplus 0 (l1 ++ l2) == foldl Qplus 0 l1 + foldl Qplus 0 l2.
Proof. rewrite foldl_app. apply foldl_Qplus_acc. Qed.

Lemma Qsum_zip_with (r c : list Q) :
  length r = length c →
  foldl Qplus 0 (zip_with Qplus r c) == foldl Qplus 0 r + foldl Qplus 0 c.
Proof.
  revert c. induction r as [|x r IH]; intros [|y c] Hlen; cbn in Hlen; try lia.
  - cbn. ring.
  - cbn [zip_with foldl].
    rewrite (foldl_Qplus_acc _ (0 + (x + y))), (foldl_Qplus_acc r (0 + x)),
      (foldl_Qplus_acc c (0 + y)), IH by lia.
    ring.
Qed.

Lemma tree8_Q (r : list Q) : tree8 r == foldl Qplus 0 r.
Proof.
  unfold tree8.
  destruct r as [|r0 [|r1 [|r2 [|r3 [|r4 [|r5 [|r6 [|r7 [|r8 r]]]]]]]]];
    try reflexivity.
  cbn [foldl num_add Q_num]. ring.
Qed.

Lemma add_blocks_Q fuel (r l : list Q) :
  length r = 8%nat →
  foldl Qplus 0 (add_blocks fuel r l).1 + foldl Qplus 0 (add_blocks fuel r l).2
  == foldl Qplus 0 r + foldl Qplus 0 l.
Proof.
  revert r l. induction fuel as [|fuel IH]; intros r l Hr; cbn [add_blocks fst snd].
  - reflexivity.
  - destruct (Nat.leb_spec 8 (length l)) as [Hl|Hl]; [|reflexivity].
    rewrite IH by (rewrite length_zip_with, length_take; lia).
    cbn [num_add Q_num].
    rewrite Qsum_zip_with by (rewrite length_take; lia).
    rewrite <- (take_drop 8 l) at 3. rewrite Qsum_app. ring.
Qed.

Lemma block_sum_Q (l : list Q) : (8 ≤ length l)%nat → block_sum l == foldl Qplus 0 l.
Proof.
  intros Hl. unfold block_sum. cbv zeta. cbn [num_add Q_num].
  rewrite foldl_Qplus_acc, tree8_Q, add_blocks_Q by (rewrite length_take; lia).
  rewrite <- (take_drop 8 l) at 3. rewrite Qsum_app. reflexivity.
Qed.

Lemma pairwise_sum_Q fuel (l : list Q) : pairwise_sum fuel l == foldl Qplus 0 l.
Proof.
  revert l. induction fuel as [|fuel IH]; intros l; cbn [pairwise_sum];
    destruct (Nat.ltb_spec (length l) 8) as [Hlt|Hge]; try reflexivity;
    destruct (length l <=? 128)%nat; try (apply block_sum_Q; exact Hge).
  cbn [num_add Q_num]. rewrite !IH.
  set (n2 := (length l / 2 - (length l / 2) mod 8)%nat).
  rewrite <- (take_drop n2 l) at 3. rewrite Qsum_app. reflexivity.
Qed.

(** C9, in exact arithmetic.  For a non-empty column of rational scores
    both statistics exist and the maximum is at least the mean. *)
Theorem best_score_ge_avg_score_exact (scores : list Q) :
  scores ≠ [] →
  ∃ best avg,
    best_score scores = Some best
    ∧ avg_score scores = Some avg
    ∧ avg <= best.
Proof.
  intros Hne. unfold best_score, avg_score, series_max, series_mean.
  rewrite series_valid_Q.
  destruct scores as [|x r]; [congruence|].
  eexists _, _. split; [reflexivity|]. split; [reflexivity|].
  cbn [num_div_count num_add num_zero num_ltb num_isnan Q_num].
  change (λ m y : Q, if negb (Qle_bool y m) then y else m) with qmax.
  rewrite list_fmap_id.
  set (b := foldl qmax x r).
  assert (Hall : ∀ y, y ∈ x :: r → y <= b).
  { intros y Hy. apply elem_of_cons in Hy as [->|Hy].
    - apply foldl_qmax_ge_init.
    - apply foldl_qmax_ge_elem, Hy. }
  pose proof (foldl_Qplus_le (x :: r) 0 b Hall) as Hsum.
  rewrite Qplus_0_l in Hsum.
  apply Qle_shift_div_r.
  - change 0 with (inject_Z 0). rewrite <- Zlt_Qlt. cbn [length]. lia.
  - rewrite Qmult_comm. unfold np_sum. rewrite pairwise_sum_Q. exact Hsum.
Qed.

Close Scope Q_scope.

(** Six candidates with the validation score 0.35 each, in binary64. *)
Definition equal_scores : list float := replicate 6 0.35%float.

(** C9, as the script computes it.  In binary64 the accumulated sum of six
    scores of 0.35 divided by six is 0.35000000000000003, above the maximum
    0.35: the recorded [best_score] is below the recorded [avg_score]. *)
Lemma best_score_below_avg_score_binary64 :
  ∃ best avg,
    best_score equal_scores = Some best
    ∧ avg_score equal_scores = Some avg
    ∧ PrimFloat.ltb best avg = true
    ∧ PrimFloat.leb avg best = false.
Proof.
  eexists _, _. split; [vm_compute; reflexivity|].
  split; [vm_compute; reflexivity|].
  split; vm_compute; reflexivity.
Qed.

(** From eight values on the sum is not accumulated in order: ten scores
    of 0.1 have the mean 0.1, where the sum in order would give
    0.09999999999999999. *)
Example avg_score_of_ten_tenths :
  avg_score (replicate 10 0.1%float) = Some 0.1%float
  ∧ PrimFloat.div (foldl PrimFloat.add 0%float (replicate 10 0.1%float)) 10%float
    = 0.09999999999999999%float.
Proof. split; vm_compute; reflexivity. Qed.

(** ** What reaches the split *)

(** Whatever [load_or_create_data] returns has at least [min_samples]
    rows: the split of [main] never sees an empty dataset.  The rows are
    labelled [0 .. n-1] whenever synthetic rows were generated; a file that
    is long enough is passed on as it was read, under the labels the reader
    gave to its rows. *)
Lemma load_or_create_data_cases env path min_samples w data w' :
  load_or_create_data env path min_samples w = (Ok data, w') →
  min_samples ≤ df_len data
  ∧ ((∃ cols rows, read_csv_result env path = Ok (cols, rows)
                   ∧ min_samples ≤ length rows
                   ∧ data = read_frame env path cols rows)
     ∨ df_index data = seq 0 (df_len data)).
Proof.
  unfold load_or_create_data, try_except.
  destruct (read_csv_result env path) as [[cols rows]|e] eqn:Hread.
  - rewrite (bind_ok _ _ _ _ _ (pd_read_csv_ok _ _ _ _ _ Hread)), bind_print.
    rewrite df_len_read_frame.
    destruct (Nat.ltb_spec (length rows) min_samples) as [Hlt|Hge].
    + rewrite bind_print.
      match goal with |- context [bind (synthetic_frame env min_samples) _ ?w0] =>
        destruct (synthetic_frame_ok env min_samples w0) as (syn & Hsyn & Hlen & _)
      end.
      rewrite (bind_ok _ _ _ _ _ Hsyn). unfold ret. intros [= <- <-].
      rewrite df_len_concat, df_len_read_frame, Hlen. split; [lia|]. right.
      unfold pd_concat. rewrite df_index_range_frame, length_app, !length_fmap,
        !df_len_rows, df_len_read_frame, Hlen. reflexivity.
    + unfold ret. intros [= <- <-].
      rewrite df_len_read_frame. split; [lia|]. left. eauto.
  - rewrite (bind_raise _ _ _ _ _ (pd_read_csv_raise _ _ _ _ Hread)).
    destruct (isinstance e FileNotFoundError); [|discriminate].
    rewrite bind_print.
    match goal with |- context [synthetic_frame env min_samples ?w0] =>
      destruct (synthetic_frame_ok env min_samples w0) as (syn & Hsyn & Hlen & _ & Hidx)
    end.
    rewrite Hsyn. intros [= <- <-]. rewrite Hidx, Hlen. split; [lia|]. right. reflexivity.
Qed.

(** C5, as the script behaves.  The split checks nothing and does not
    raise: every dataset, the empty one included, is split into a train
    and a test part, both empty when the dataset is; the fraction is the
    constant 0.8 of the call. *)
Theorem split_never_raises env data w :
  ∃ train_data test_data,
    split env data w = (Ok (train_data, test_data), w)
    ∧ df_len train_data = train_size (df_len data)
    ∧ (df_len data = 0 → df_len train_data = 0 ∧ df_len test_data = 0).
Proof.
  exists (train_part env data), (test_part env data).
  split; [apply split_returns|].
  pose proof (df_len_train_part env data) as Htrain.
  split; [exact Htrain|].
  intros Hempty. rewrite Htrain, Hempty. split; [reflexivity|].
  unfold df_len, test_part in *; cbn [body].
  pose proof (length_filter (λ r : nat * list cell,
                r.1 ∉ df_index (train_part env data)) (body data)).
  lia.
Qed.

(** * The script on concrete inputs *)

Definition two_models : Predictor := demo_predictor [0.5%float; 0.25%float].

Definition no_flags : Args := mkArgs None None.

(** A file of 30 rows where 100 are asked for. *)
Definition short_file_env : Env :=
  demo_env (file_of 30) missing_file (Ok two_models) no_plot_failure no_open_failure.

Lemma load_short_file_row_count_witness :
  read_csv_result short_file_env "product_reviews.csv"
    = Ok (synthetic_columns,
          (λ i : nat, [CInt (1 + Z.of_nat i mod 5); CStr "fine"; CInt 0; CFloat 25%float])
            <$> seq 0 30)
  ∧ ∃ data w',
      load_or_create_data short_file_env "product_reviews.csv" 100 world0 = (Ok data, w')
      ∧ df_len data = 130.
Proof.
  split; [reflexivity|].
  destruct (load_short_file_row_count short_file_env "product_reviews.csv" 100
              synthetic_columns
              ((λ i : nat, [CInt (1 + Z.of_nat i mod 5); CStr "fine"; CInt 0;
                            CFloat 25%float]) <$> seq 0 30)
              world0 eq_refl) as (data & w' & Hrun & Hlen & _).
  - vm_compute. lia.
  - exists data, w'. split; [exact Hrun|]. exact Hlen.
Defined.

(** The same through [main]: 130 rows reach the split, 104 of them the
    training and 26 the test. *)
Example main_short_file_sizes :
  let out := main short_file_env no_flags world0 in
  out.1 = Ok tt
  ∧ params (tracking out.2) !! "train_samples" = Some (PInt 104)
  ∧ params (tracking out.2) !! "test_samples" = Some (PInt 26).
Proof. intros out; subst out. repeat split; vm_compute; reflexivity. Qed.

Lemma load_full_synthesis_only_when_missing_witness :
  ∃ df, (load_or_create_data plain_env "product_reviews.csv" 100 world0).1 = Ok df
        ∧ df_len df = 100 ∧ columns df = synthetic_columns.
Proof.
  exact (proj1 (proj2 (load_full_synthesis_only_when_missing plain_env
                         "product_reviews.csv" 100 world0))
           (Exn FileNotFoundError "No such file or directory") eq_refl eq_refl).
Defined.

(** A reader that fails for another reason than absence. *)
Definition unreadable_env : Env :=
  demo_env (Raise (Exn PermissionError "Permission denied")) missing_file
    (Ok two_models) no_plot_failure no_open_failure.

Example main_unreadable_file_propagates :
  let out := main unreadable_env no_flags world0 in
  out.1 = Raise (Exn PermissionError "Permission denied")
  ∧ run (tracking out.2) = NotStarted
  ∧ np_pos out.2 = 0.
Proof. intros out; subst out. repeat split; vm_compute; reflexivity. Qed.

Definition hundred_rows : DataFrame :=
  range_frame synthetic_columns
    ((λ i : nat, [CInt (1 + Z.of_nat i mod 5); CStr "fine"; CInt 0; CFloat 25%float])
       <$> seq 0 100).

Lemma split_partition_witness :
  NoDup (df_index hundred_rows)
  ∧ ∃ train_data test_data,
      split plain_env hundred_rows world0 = (Ok (train_data, test_data), world0)
      ∧ (∀ i, i ∈ df_index train_data → i ∉ df_index test_data)
      ∧ body train_data ++ body test_data ≡ₚ body hundred_rows
      ∧ df_len train_data = 80 ∧ df_len test_data = 20.
Proof.
  assert (Hnd : NoDup (df_index hundred_rows)).
  { unfold hundred_rows. rewrite df_index_range_frame. apply NoDup_seq. }
  split; [exact Hnd|].
  destruct (split_partition plain_env hundred_rows world0)
    as (tr & te & Hrun & _ & Hdisj & _ & _ & Htrain & Hrows).
  destruct (Hrows Hnd) as (Hperm & _ & Htest).
  exists tr, te. split; [exact Hrun|]. split; [exact Hdisj|]. split; [exact Hperm|].
  split; [apply Htrain|apply Htest]; vm_compute; reflexivity.
Defined.

(** A file of 100 rows whose data lines have one field more than the
    header, so that the first field labels the rows; it is 7 on every
    line. *)
Definition repeated_labels_env : Env :=
  service_env (λ _, None) (file_of 100) (λ _, 7) missing_file (Ok two_models)
    no_plot_failure no_open_failure (λ _ _, None) (λ _, None).

Definition repeated_labels_file : DataFrame :=
  read_frame repeated_labels_env "product_reviews.csv" synthetic_columns
    ((λ i : nat, [CInt (1 + Z.of_nat i mod 5); CStr "fine"; CInt 0; CFloat 25%float])
       <$> seq 0 100).

(** C3 refuted as stated: the loader passes this file on as it was read;
    the 80 sampled rows carry the one label of the file, so that [drop]
    removes every row: the test part is empty, 20 rows of the dataset are in
    neither part, and [main] records 80 training and 0 test samples. *)
Lemma split_with_repeated_labels_loses_rows :
  let data := repeated_labels_file in
  let train_data := train_part repeated_labels_env data in
  let test_data := test_part repeated_labels_env data in
  (load_or_create_data repeated_labels_env "product_reviews.csv" 100 world0).1 = Ok data
  ∧ df_len data = 100
  ∧ split repeated_labels_env data world0 = (Ok (train_data, test_data), world0)
  ∧ df_len train_data = 80
  ∧ df_len test_data = 0
  ∧ ¬ (body train_data ++ body test_data ≡ₚ body data)
  ∧ params (tracking (main repeated_labels_env no_flags world0).2) !! "test_samples"
    = Some (PInt 0).
Proof.
  intros data train_data test_data. subst data train_data test_data.
  split; [vm_compute; reflexivity|]. split; [vm_compute; reflexivity|].
  split; [apply split_returns|].
  split; [vm_compute; reflexivity|]. split; [vm_compute; reflexivity|].
  split; [|vm_compute; reflexivity].
  assert (Hlen : (length (body (train_part repeated_labels_env repeated_labels_file)
                          ++ body (test_part repeated_labels_env repeated_labels_file))
                  =? length (body repeated_labels_file)) = false)
    by (vm_compute; reflexivity).
  intros Hperm%Permutation_length. apply Nat.eqb_neq in Hlen. exact (Hlen Hperm).
Qed.

Definition empty_dataset : DataFrame := range_frame synthetic_columns [].

(** C5 refuted as stated: the empty dataset is split without an error, and
    pandas' [sample] accepts the two ends of the interval. *)
Lemma split_of_empty_dataset_returns :
  split plain_env empty_dataset world0 = (Ok (empty_dataset, empty_dataset), world0)
  ∧ ¬ (∃ e w', split plain_env empty_dataset world0 = (Raise e, w'))
  ∧ (∃ df, pd_sample plain_env 1 42 hundred_rows = Ok df ∧ df_len df = 100)
  ∧ (∃ df, pd_sample plain_env 0 42 hundred_rows = Ok df ∧ df_len df = 0).
Proof.
  assert (H : split plain_env empty_dataset world0
              = (Ok (empty_dataset, empty_dataset), world0)) by (vm_compute; reflexivity).
  split; [exact H|]. split.
  - intros (e & w' & H'). rewrite H in H'. discriminate H'.
  - split; eexists; (split; [vm_compute; reflexivity|vm_compute; reflexivity]).
Qed.

(** A training that fails. *)
Definition training_failed : exn := Exn ValueError "No models were trained".

Definition failing_fit_env : Env :=
  demo_env missing_file missing_file (Raise training_failed)
    no_plot_failure no_open_failure.

Definition repo_dirs : Dirs :=
  mkDirs "/repo/app/artifacts" "/repo/app/plots" "/repo/app/models".

Lemma failed_run_is_recorded_and_closed_witness :
  experiment_steps failing_fit_env repo_dirs (PStr "rating") (PInt 300)
    hundred_rows empty_dataset (new_run_id failing_fit_env)
    (run_opened failing_fit_env world0)
  = (Raise training_failed,
     with_trace (λ t, t ++ [Fit (PStr "rating") (PInt 300) 100])
       (run_opened failing_fit_env world0))
  ∧ ∃ w2,
      run_experiment failing_fit_env repo_dirs (PStr "rating") (PInt 300)
        hundred_rows empty_dataset world0 = (Raise training_failed, w2)
      ∧ run (tracking w2) = Failed
      ∧ params (tracking w2) !! "error" = Some (PStr "No models were trained")
      ∧ trace w2 = [StartRun; Fit (PStr "rating") (PInt 300) 100;
                    LogParam "error" (PStr "No models were trained"); EndRun Failed].
Proof.
  assert (H : experiment_steps failing_fit_env repo_dirs (PStr "rating") (PInt 300)
                hundred_rows empty_dataset (new_run_id failing_fit_env)
                (run_opened failing_fit_env world0)
              = (Raise training_failed,
                 with_trace (λ t, t ++ [Fit (PStr "rating") (PInt 300) 100])
                   (run_opened failing_fit_env world0))).
  { apply fit_failure_raises. reflexivity. }
  split; [exact H|].
  destruct (proj1 (failed_run_is_recorded_and_closed failing_fit_env repo_dirs
                     (PStr "rating") (PInt 300) hundred_rows empty_dataset world0 _ _
                     eq_refl eq_refl H) eq_refl)
    as (w2 & Hrun & Hst & Hpar & Htr & _).
  exists w2. split; [exact Hrun|]. split; [exact Hst|]. split; [exact Hpar|].
  rewrite Htr. reflexivity.
Defined.

Example main_training_failure :
  let out := main failing_fit_env no_flags world0 in
  out.1 = Raise training_failed
  ∧ run (tracking out.2) = Failed
  ∧ params (tracking out.2) !! "error" = Some (PStr "No models were trained")
  ∧ last (trace out.2) = Some (EndRun Failed).
Proof. intros out; subst out. repeat split; vm_compute; reflexivity. Qed.

(** The files the script tried to open for writing, and the fits it
    asked for, in order. *)
Definition opened_for_writing (t : list action) : list string :=
  omap (λ a, match a with OpenWrite p => Some p | _ => None end) t.

Definition fits_requested (t : list action) : list (pyval * pyval * nat) :=
  omap (λ a, match a with Fit l tl n => Some (l, tl, n) | _ => None end) t.

Lemma opened_for_writing_elem p t : OpenWrite p ∈ t → p ∈ opened_for_writing t.
Proof.
  intros H. unfold opened_for_writing. apply list_elem_of_omap.
  exists (OpenWrite p). split; [exact H|reflexivity].
Qed.

(** A tracking server that refuses to record the parameter "error", and
    one that refuses to end a run. *)
Definition request_refused : exn := Exn MlflowException "API request failed".

Definition error_refusing (a : action) : option exn :=
  match a with
  | LogParam key _ => if String.eqb key "error" then Some request_refused else None
  | _ => None
  end.

Definition end_refusing (a : action) : option exn :=
  match a with
  | EndRun _ => Some request_refused
  | _ => None
  end.

Definition unrecorded_failure_env : Env :=
  service_env (λ _, None) missing_file (λ i, i) missing_file (Raise training_failed)
    no_plot_failure no_open_failure (λ _ _, None) error_refusing.

Definition unclosed_run_env : Env :=
  service_env (λ _, None) missing_file (λ i, i) missing_file (Raise training_failed)
    no_plot_failure no_open_failure (λ _ _, None) end_refusing.

(** C2 refuted as stated.  The training fails in both runs.  When the
    server refuses the parameter, the handler does not reach its [raise e]:
    [main] raises the exception of the request, not the training failure,
    and no "error" is recorded.  When the server refuses to end the run, the
    run is left running. *)
Lemma refused_requests_break_the_failure_report :
  (let out := main unrecorded_failure_env no_flags world0 in
   fits_requested (trace out.2) = [(PStr "rating", PInt 300, 80)]
   ∧ last (stdout out.2) = Some "Training error: No models were trained"
   ∧ out.1 = Raise request_refused
   ∧ out.1 ≠ Raise training_failed
   ∧ params (tracking out.2) !! "error" = None
   ∧ run (tracking out.2) = Failed)
  ∧ (let out := main unclosed_run_env no_flags world0 in
     fits_requested (trace out.2) = [(PStr "rating", PInt 300, 80)]
     ∧ params (tracking out.2) !! "error" = Some (PStr "No models were trained")
     ∧ out.1 = Raise request_refused
     ∧ run (tracking out.2) = Running).
Proof.
  split; intros out; subst out.
  - assert (Hout : (main unrecorded_failure_env no_flags world0).1 = Raise request_refused)
      by (vm_compute; reflexivity).
    split; [vm_compute; reflexivity|]. split; [vm_compute; reflexivity|].
    split; [exact Hout|]. split; [rewrite Hout; discriminate|].
    split; vm_compute; reflexivity.
  - repeat split; vm_compute; reflexivity.
Qed.

(** A disk that refuses the first artifact file. *)
Definition disk_full : exn := Exn OSError "No space left on device".

Definition leaderboard_path : string := "/repo/app/artifacts/leaderboard.csv".
Definition predictions_path : string := "/repo/app/artifacts/predictions.csv".
Definition summary_path : string := "/repo/app/artifacts/model_summary.json".

Definition disk_full_env : Env :=
  demo_env missing_file missing_file (Ok two_models) no_plot_failure
    (λ path, if String.eqb path leaderboard_path then Some disk_full else None).

(** C6 refuted as stated: when [leaderboard.csv] cannot be opened, neither
    [predictions.csv] nor [model_summary.json] is attempted; the exception
    ends the run as failed and leaves [main]. *)
Lemma write_failure_skips_remaining_files :
  let out := main disk_full_env no_flags world0 in
  out.1 = Raise disk_full
  ∧ opened_for_writing (trace out.2) = [leaderboard_path]
  ∧ (OpenWrite predictions_path ∉ trace out.2)
  ∧ (OpenWrite summary_path ∉ trace out.2)
  ∧ run (tracking out.2) = Failed
  ∧ params (tracking out.2) !! "error" = Some (PStr "No space left on device").
Proof.
  intros out. subst out.
  assert (Hopened : opened_for_writing (trace (main disk_full_env no_flags world0).2)
                    = [leaderboard_path]) by (vm_compute; reflexivity).
  split; [vm_compute; reflexivity|]. split; [exact Hopened|].
  split; [|split; [|split; vm_compute; reflexivity]].
  - intros Hin%opened_for_writing_elem. rewrite Hopened in Hin.
    apply list_elem_of_singleton in Hin. discriminate Hin.
  - intros Hin%opened_for_writing_elem. rewrite Hopened in Hin.
    apply list_elem_of_singleton in Hin. discriminate Hin.
Qed.

(** A disk that refuses the second artifact file when it is written. *)
Definition second_write_fails_env : Env :=
  demo_env missing_file missing_file (Ok two_models) no_plot_failure
    (λ path, if String.eqb path predictions_path then Some disk_full else None).

Lemma write_artifacts_stops_at_first_failure_witness :
  (Forall (writes_ok second_write_fails_env "/repo/app/artifacts")
     [("leaderboard.csv", Json "a")]
   ∧ write_fails second_write_fails_env "/repo/app/artifacts"
       ("predictions.csv", Json "b") disk_full [OpenWrite predictions_path])
  ∧ ∃ w',
      write_artifacts second_write_fails_env "/repo/app/artifacts"
        [("leaderboard.csv", Json "a"); ("predictions.csv", Json "b");
         ("model_summary.json", Json "c")] world0 = (Raise disk_full, w')
      ∧ trace w' = [OpenWrite leaderboard_path; WriteTo leaderboard_path;
                    OpenWrite predictions_path].
Proof.
  assert (Hok : Forall (writes_ok second_write_fails_env "/repo/app/artifacts")
                  [("leaderboard.csv", Json "a")]).
  { repeat constructor. }
  assert (Hfail : write_fails second_write_fails_env "/repo/app/artifacts"
                    ("predictions.csv", Json "b") disk_full [OpenWrite predictions_path]).
  { left. split; reflexivity. }
  split; [split; assumption|].
  destruct (write_artifacts_stops_at_first_failure second_write_fails_env
              "/repo/app/artifacts" [("leaderboard.csv", Json "a")]
              ("predictions.csv", Json "b") [("model_summary.json", Json "c")]
              disk_full [OpenWrite predictions_path] world0 Hok Hfail)
    as (w' & Hrun & Htr & _).
  exists w'. split; [exact Hrun|]. rewrite Htr. reflexivity.
Defined.

(** C7 through [main]: with [--time_limit 0] and an empty label the fit is called
    with the label and the time limit of the configuration. *)
Example main_falsy_flags_use_config :
  let out := main plain_env (mkArgs (Some 0%Z) (Some EmptyString)) world0 in
  out.1 = Ok tt
  ∧ fits_requested (trace out.2) = [(PStr "rating", PInt 300, 80)]
  ∧ params (tracking out.2) !! "time_limit" = Some (PInt 300)
  ∧ params (tracking out.2) !! "label" = Some (PStr "rating").
Proof. intros out; subst out. repeat split; vm_compute; reflexivity. Qed.

(** A flag with a truthy value is used in place of the configuration. *)
Example main_truthy_flags_override :
  fits_requested
    (trace (main plain_env (mkArgs (Some 60%Z) (Some "category")) world0).2)
  = [(PStr "category", PInt 60, 80)].
Proof. vm_compute. reflexivity. Qed.

(** A predictor without feature importance, and a figure that cannot be
    saved for the other plot. *)
Definition no_importance : Predictor :=
  mkPredictor (predict two_models) (leaderboard two_models)
    (λ _, Raise (Exn RuntimeError "feature importance is not supported"))
    (fit_summary two_models).

Lemma create_visualizations_independent_witness :
  (feature_importance no_importance hundred_rows
     = Raise (Exn RuntimeError "feature importance is not supported")
   ∧ ∀ op, plt_raises plain_env PredictionPlot op = None)
  ∧ ∃ plots,
      (create_visualizations plain_env no_importance hundred_rows [] "/repo/app/plots"
         world0).1 = Ok plots
      ∧ plots !! "prediction_distribution" = Some (prediction_path "/repo/app/plots")
      ∧ files (create_visualizations plain_env no_importance hundred_rows []
                 "/repo/app/plots" world0).2 !! prediction_path "/repo/app/plots"
        = Some (Png "Prediction Distribution").
Proof.
  split; [split; [reflexivity|intros op; reflexivity]|].
  destruct (create_visualizations_independent plain_env no_importance hundred_rows []
              "/repo/app/plots" world0)
    as (plots & Hrun & _ & _ & _ & _ & Hpred & _).
  exists plots. split; [exact Hrun|].
  exact (Hpred (λ _, eq_refl)).
Defined.

(** There the feature-importance plot is not produced and is reported. *)
Example create_visualizations_without_importance :
  let out := create_visualizations plain_env no_importance hundred_rows []
               "/repo/app/plots" world0 in
  out.1 = Ok {[ "prediction_distribution" := prediction_path "/repo/app/plots" ]}
  ∧ stdout out.2
    = ["Could not create feature importance plot: feature importance is not supported"].
Proof. intros out; subst out. split; vm_compute; reflexivity. Qed.

Lemma best_score_ge_avg_score_exact_witness :
  [1 # 2; 1 # 4]%Q ≠ []
  ∧ ∃ best avg,
      best_score [1 # 2; 1 # 4]%Q = Some best
      ∧ avg_score [1 # 2; 1 # 4]%Q = Some avg
      ∧ (avg <= best)%Q.
Proof.
  assert (H : [1 # 2; 1 # 4]%Q ≠ []) by discriminate.
  split; [exact H|].
  exact (best_score_ge_avg_score_exact [1 # 2; 1 # 4]%Q H).
Defined.

(** C9 refuted as stated, through [main]: six candidates that all score
    0.35 on validation. *)
Definition equal_scores_env : Env :=
  demo_env missing_file missing_file (Ok (demo_predictor equal_scores))
    no_plot_failure no_open_failure.

Lemma recorded_best_score_below_avg_score :
  let out := main equal_scores_env no_flags world0 in
  out.1 = Ok tt
  ∧ ∃ best avg,
      metrics (tracking out.2) !! "best_score" = Some best
      ∧ metrics (tracking out.2) !! "avg_score" = Some avg
      ∧ best = 0.35%float
      ∧ PrimFloat.ltb best avg = true
      ∧ PrimFloat.leb avg best = false.
Proof.
  intros out; subst out.
  split; [vm_compute; reflexivity|].
  eexists _, _. split; [vm_compute; reflexivity|].
  split; [vm_compute; reflexivity|].
  repeat split.
Qed.

(** An empty configuration file. *)
Definition empty_config_env : Env :=
  demo_env missing_file (Ok YNone) (Ok two_models) no_plot_failure no_open_failure.


(** With both flags given and truthy the empty configuration is never
    read, and the run goes through. *)
Example main_empty_config_with_flags :
  (main empty_config_env (mkArgs (Some 60%Z) (Some "rating")) world0).1 = Ok tt.
Proof. vm_compute. reflexivity. Qed.

(** A mapping without the two keys: both settings are [None]. *)
Example settings_of_mapping_without_keys :
  resolve_settings no_flags (YMap ∅) world0 = (Ok (PNone, PNone), world0).
Proof. rewrite resolve_settings_mapping. reflexivity. Qed.
(** * Further properties of the script *)

(** ** Data acquisition, the remaining cases *)

(** X1. A file that already has [min_samples] rows is returned as it was
    read, under the labels the reader gave to its rows: nothing is appended,
    no row is renumbered, no random number is drawn, and the only line
    printed is the shape. *)
Theorem load_long_file_unchanged env path min_samples cols rows w :
  read_csv_result env path = Ok (cols, rows) →
  min_samples ≤ length rows →
  ∃ data w',
    load_or_create_data env path min_samples w = (Ok data, w')
    ∧ data = read_frame env path cols rows
    ∧ columns data = cols
    ∧ df_rows data = rows
    ∧ df_index data = read_csv_label env path <$> seq 0 (length rows)
    ∧ np_pos w' = np_pos w
    ∧ printed_by w w'
      = ["Data loaded from file. Shape: " +:+ shape_str (read_frame env path cols rows)].
Proof.
  intros Hread Hlong.
  unfold load_or_create_data, try_except.
  rewrite (bind_ok _ _ _ _ _ (pd_read_csv_ok _ _ _ _ _ Hread)).
  rewrite bind_print, df_len_read_frame.
  destruct (Nat.ltb_spec (length rows) min_samples) as [Hlt|_]; [lia|].
  unfold ret. eexists _, _. split; [reflexivity|].
  rewrite df_rows_read_frame, df_index_read_frame.
  repeat split. apply printed_by_app. reflexivity.
Qed.

(** X2. Whatever [load_or_create_data] returns has at least [min_samples]
    rows.  It is either the file as it was read, when the file has that many
    rows, or a frame whose rows are labelled [0 .. n-1], each label once;
    when the reader numbers the rows of the file by position, the labels are
    [0 .. n-1] in every case. *)
Theorem loaded_dataset_is_large env path min_samples w data w' :
  load_or_create_data env path min_samples w = (Ok data, w') →
  min_samples ≤ df_len data
  ∧ ((∃ cols rows, read_csv_result env path = Ok (cols, rows)
                   ∧ min_samples ≤ length rows
                   ∧ data = read_frame env path cols rows)
     ∨ (df_index data = seq 0 (df_len data) ∧ NoDup (df_index data)))
  ∧ ((∀ i, read_csv_label env path i = i) →
     df_index data = seq 0 (df_len data) ∧ NoDup (df_index data)).
Proof.
  intros Hload.
  destruct (load_or_create_data_cases _ _ _ _ _ _ Hload) as [Hmin Hcases].
  assert (Hfresh : ∀ df, df_index df = seq 0 (df_len df) →
                         df_index df = seq 0 (df_len df) ∧ NoDup (df_index df)).
  { intros df Hidx. split; [exact Hidx|]. rewrite Hidx. apply NoDup_seq. }
  split; [exact Hmin|]. split.
  - destruct Hcases as [Hfile|Hidx]; [left; exact Hfile|right; apply Hfresh, Hidx].
  - intros Hid. apply Hfresh.
    destruct Hcases as [(cols & rows & _ & _ & ->)|Hidx]; [|exact Hidx].
    rewrite (read_frame_range _ _ _ _ Hid).
    rewrite df_index_range_frame, df_len_range_frame. reflexivity.
Qed.

(** The row the synthetic generator builds at position [i], when the
    global stream stands at position [p]: the three arrays are drawn one
    after the other, so the categories start [n] draws after the ratings and
    the prices [2 n] draws after them. *)
Definition synthetic_row (env : Env) (p n i : nat) : list cell :=
  [CInt (randint_at env 1 6 (p + i));
   CStr ("Review " +:+ pretty i);
   CInt (randint_at env 0 2 (p + n + i));
   CFloat (uniform_at env 10 1000 (p + n + n + i))].

Lemma synthetic_frame_rows env n w :
  ∃ df, synthetic_frame env n w = (Ok df, with_np_pos (λ p, p + n + n + n) w)
        ∧ columns df = synthetic_columns
        ∧ df_rows df = synthetic_row env (np_pos w) n <$> seq 0 n.
Proof.
  unfold synthetic_frame, np_randint, np_uniform.
  cbv [bind ret lift].
  cbn [np_pos with_np_pos stdout trace files tracking frame_of_columns forallb snd andb
       fmap list_fmap fst].
  rewrite !length_fmap, !length_seq, Nat.eqb_refl. cbn [andb].
  eexists. split; [reflexivity|]. split; [reflexivity|].
  rewrite df_rows_range_frame.
  apply list_fmap_ext. intros j i Hi.
  apply lookup_seq in Hi as [-> Hi]. cbn [Nat.add].
  unfold synthetic_row.
  rewrite !list_lookup_fmap, !lookup_seq_lt by assumption.
  reflexivity.
Qed.

(** X3. When the file is missing, the dataset is exactly the synthetic rows:
    row [i] carries the text "Review i", and three times [min_samples]
    random numbers have been consumed. *)
Theorem missing_file_dataset_rows env path min_samples w e :
  read_csv_result env path = Raise e →
  isinstance e FileNotFoundError = true →
  ∃ data w',
    load_or_create_data env path min_samples w = (Ok data, w')
    ∧ columns data = synthetic_columns
    ∧ df_rows data = synthetic_row env (np_pos w) min_samples <$> seq 0 min_samples
    ∧ np_pos w' = np_pos w + 3 * min_samples.
Proof.
  intros Hread Hfnf.
  unfold load_or_create_data, try_except.
  rewrite (bind_raise _ _ _ _ _ (pd_read_csv_raise _ _ _ _ Hread)), Hfnf.
  rewrite bind_print.
  match goal with |- context [synthetic_frame env min_samples ?w0] =>
    destruct (synthetic_frame_rows env min_samples w0) as (df & Hsyn & Hcols & Hrows)
  end.
  rewrite Hsyn. exists df. eexists. split; [reflexivity|].
  split; [exact Hcols|]. split; [exact Hrows|].
  cbn [np_pos with_np_pos with_stdout with_trace]. lia.
Qed.


(** ** The sizes of the two parts *)

(** The train size is the integer nearest to [0.8 n]: it is within half a
    row of it. *)
Lemma train_size_nearest n :
  (8 * Z.of_nat n - 5 ≤ 10 * Z.of_nat (train_size n) ≤ 8 * Z.of_nat n + 5)%Z.
Proof.
  unfold train_size, py_round. cbn [Qnum Qden Qmult inject_Z].
  change (Z.pos (5 * 1)) with 5%Z.
  set (z := Z.of_nat n).
  assert (0 ≤ z)%Z by lia.
  destruct (Z.ltb_spec (2 * ((4 * z) `mod` 5)) 5);
    [|destruct (Z.ltb_spec 5 (2 * ((4 * z) `mod` 5)));
      [|destruct (Z.even (4 * z `div` 5))]];
    subst z; rewrite Z2Nat.id by (Z.div_mod_to_equations; lia);
    Z.div_mod_to_equations; lia.
Qed.

(** With distinct labels the two parts hold the rows of the data, each
    once. *)
Lemma split_parts_permutation env data :
  NoDup (df_index data) →
  body (train_part env data) ++ body (test_part env data) ≡ₚ body data.
Proof.
  intros Hnd.
  pose proof (permuted_rows env data) as Hperm.
  fold (train_locs env data) (train_part env data) in Hperm.
  set (rest := omap _ _) in Hperm.
  assert (Hnd' : NoDup (body (train_part env data) ++ rest).*1).
  { rewrite Hperm. exact Hnd. }
  transitivity (body (train_part env data) ++ rest); [|exact Hperm].
  apply Permutation_app_head.
  unfold test_part; cbn [body]. rewrite <- Hperm. unfold df_index.
  rewrite filter_not_in_first by exact Hnd'. reflexivity.
Qed.

(** X5. From three rows on, neither part is empty; with one or two rows the
    rounding gives every row to the training part and the test part is
    empty. *)
Theorem split_part_sizes env data w :
  NoDup (df_index data) →
  ∃ train_data test_data,
    split env data w = (Ok (train_data, test_data), w)
    ∧ df_len train_data + df_len test_data = df_len data
    ∧ (8 * Z.of_nat (df_len data) - 5 ≤ 10 * Z.of_nat (df_len train_data)
       ≤ 8 * Z.of_nat (df_len data) + 5)%Z
    ∧ (3 ≤ df_len data → 0 < df_len train_data ∧ 0 < df_len test_data)
    ∧ (0 < df_len data < 3 → df_len test_data = 0).
Proof.
  intros Hnd.
  exists (train_part env data), (test_part env data).
  split; [apply split_returns|].
  pose proof (split_parts_permutation env data Hnd) as Hall.
  assert (Hlen : df_len (train_part env data) + df_len (test_part env data)
                 = df_len data).
  { unfold df_len. rewrite <- length_app. apply Permutation_length, Hall. }
  pose proof (train_size_nearest (df_len data)) as Hnear.
  rewrite <- (df_len_train_part env data) in Hnear.
  split; [exact Hlen|]. split; [exact Hnear|]. split; intros Hn; lia.
Qed.

(** X6. In [main] the split follows the loader.  When the dataset the
    loader returned carries distinct labels — which it does whenever rows
    were synthesised, and for a file that is long enough when the reader
    gave distinct labels to its rows — and at least three rows were asked
    for, both parts are non-empty and together they have all the rows. *)
Theorem loaded_data_splits_into_two_nonempty_parts env path min_samples w data w' :
  load_or_create_data env path min_samples w = (Ok data, w') →
  3 ≤ min_samples →
  (∀ cols rows, read_csv_result env path = Ok (cols, rows) →
                NoDup (read_csv_label env path <$> seq 0 (length rows))) →
  ∃ train_data test_data,
    split env data w' = (Ok (train_data, test_data), w')
    ∧ NoDup (df_index data)
    ∧ df_len train_data + df_len test_data = df_len data
    ∧ 0 < df_len train_data
    ∧ 0 < df_len test_data.
Proof.
  intros Hload Hmin Hlabels.
  destruct (load_or_create_data_cases _ _ _ _ _ _ Hload) as [Hlen Hcases].
  assert (Hnd : NoDup (df_index data)).
  { destruct Hcases as [(cols & rows & Hread & _ & ->)|Hidx].
    - rewrite df_index_read_frame. apply (Hlabels cols rows Hread).
    - rewrite Hidx. apply NoDup_seq. }
  exists (train_part env data), (test_part env data).
  split; [apply split_returns|]. split; [exact Hnd|].
  pose proof (split_parts_permutation env data Hnd) as Hall.
  assert (Hsum : df_len (train_part env data) + df_len (test_part env data)
                 = df_len data).
  { unfold df_len. rewrite <- length_app. apply Permutation_length, Hall. }
  pose proof (train_size_nearest (df_len data)) as Hnear.
  rewrite <- (df_len_train_part env data) in Hnear.
  split; [exact Hsum|]. lia.
Qed.

(** ** Training *)

Lemma train_model_result env train_data test_data label time_limit hp w :
  let w1 := with_trace (λ t, t ++ [Fit label time_limit (df_len train_data)]) w in
  let w2 := with_trace (λ t, t ++ [Predict]) w1 in
  let w3 := with_trace (λ t, t ++ [LeaderboardOf]) w2 in
  train_model env train_data test_data label time_limit hp w
  = match fit env train_data label time_limit hp with
    | Raise e => (Raise e, w1)
    | Ok predictor =>
        match predict predictor test_data with
        | Raise e => (Raise e, w2)
        | Ok predictions =>
            match leaderboard predictor test_data with
            | Raise e => (Raise e, w3)
            | Ok lb => (Ok (predictor, predictions, lb), w3)
            end
        end
    end.
Proof.
  intros w1 w2 w3. subst w1 w2 w3. unfold train_model. cbv [bind ret emit lift].
  destruct (fit env train_data label time_limit hp) as [predictor|e]; [|reflexivity].
  destruct (predict predictor test_data) as [predictions|e]; [|reflexivity].
  destruct (leaderboard predictor test_data) as [lb|e]; reflexivity.
Qed.

(** X7. [train_model] calls fit, predict and leaderboard in this order and
    stops at the first that raises: after a failed fit nothing is asked of
    the predictor, and a result is returned only when all three succeeded. *)
Theorem train_model_stops_at_first_failure env train_data test_data label time_limit
    hp w :
  let out := train_model env train_data test_data label time_limit hp w in
  let fit_action := Fit label time_limit (df_len train_data) in
  match fit env train_data label time_limit hp with
  | Raise e => out.1 = Raise e ∧ performed_by w out.2 = [fit_action]
  | Ok predictor =>
      match predict predictor test_data with
      | Raise e => out.1 = Raise e ∧ performed_by w out.2 = [fit_action; Predict]
      | Ok predictions =>
          performed_by w out.2 = [fit_action; Predict; LeaderboardOf]
          ∧ match leaderboard predictor test_data with
            | Raise e => out.1 = Raise e
            | Ok lb => out.1 = Ok (predictor, predictions, lb)
            end
      end
  end
  ∧ stdout out.2 = stdout w
  ∧ tracking out.2 = tracking w.
Proof.
  intros out fit_action. subst out fit_action.
  unfold train_model. cbv [bind ret lift emit].
  destruct (fit env train_data label time_limit hp) as [predictor|e];
    [destruct (predict predictor test_data) as [predictions|e];
       [destruct (leaderboard predictor test_data) as [lb|e]|]|].
  all: repeat split.
  all: apply performed_by_app; cbn [snd trace with_trace];
    rewrite <- ?app_assoc; reflexivity.
Qed.

(** ** The recorded scores, whatever the arithmetic *)

Section Scores.
Context {T : Type} `{Num T}.

Lemma foldl_pick_elem (x : T) (r : list T) :
  foldl (λ m y, if num_ltb m y then y else m) x r ∈ x :: r.
Proof.
  revert x. induction r as [|y r IH]; intros x; cbn [foldl].
  - left.
  - destruct (num_ltb x y).
    + right. apply IH.
    + specialize (IH x). apply elem_of_cons in IH as [->|IH]; [left|].
      right. right. exact IH.
Qed.

(** X9. [best_score] is one of the scores of the column and is not a missing
    value; there is none exactly when the column has no score that is not
    missing, and [avg_score] is absent in exactly the same case. *)
Theorem best_score_is_a_valid_score (scores : list T) :
  (∀ b, best_score scores = Some b → b ∈ scores ∧ num_isnan b = false)
  ∧ (best_score scores = None ↔ Forall (λ x, num_isnan x = true) scores)
  ∧ (avg_score scores = None ↔ best_score scores = None).
Proof.
  unfold best_score, avg_score, series_max, series_mean.
  assert (Hvalid : ∀ x, x ∈ series_valid scores ↔ x ∈ scores ∧ num_isnan x = false).
  { intros x. unfold series_valid. rewrite list_elem_of_filter. tauto. }
  assert (Hnone : series_valid scores = [] ↔ Forall (λ x, num_isnan x = true) scores).
  { split.
    - intros Hnil. apply Forall_forall. intros x Hx.
      destruct (num_isnan x) eqn:Hn; [reflexivity|].
      assert (Hin : x ∈ series_valid scores) by (apply Hvalid; auto).
      rewrite Hnil in Hin. inversion Hin.
    - intros Hall. unfold series_valid. apply filter_none.
      eapply Forall_impl; [exact Hall|]. intros x Hx Hf. cbv beta in *.
      rewrite Hx in Hf. discriminate Hf. }
  destruct (series_valid scores) as [|x r] eqn:Hv.
  - split; [intros b Hb; discriminate Hb|].
    split; [|split; reflexivity].
    split; [intros _; apply Hnone; reflexivity|reflexivity].
  - split; [|split].
    + intros b [= <-].
      apply Hvalid. apply foldl_pick_elem.
    + split; [intros Hb; discriminate Hb|].
      intros Hall. apply Hnone in Hall. discriminate Hall.
    + split; intros Hn; discriminate Hn.
Qed.

End Scores.

(** ** The prediction table *)

Lemma predictions_frame_lemma (true_values predicted : list cell) :
  (length predicted = length true_values →
   ∃ df, frame_of_columns [("true", true_values); ("predicted", predicted)] = Ok df)
  ∧ (length predicted ≠ length true_values →
     frame_of_columns [("true", true_values); ("predicted", predicted)]
     = Raise (Exn ValueError "All arrays must be of the same length")).
Proof.
  unfold frame_of_columns. cbn [forallb snd andb]. rewrite Nat.eqb_refl. cbn [andb].
  split.
  - intros Hlen. rewrite Hlen, Nat.eqb_refl. cbn [andb]. eauto.
  - intros Hne. destruct (Nat.eqb_spec (length predicted) (length true_values));
      [contradiction|reflexivity].
Qed.

(** X10. The table of true and predicted values exists exactly when there are as
    many predictions as true values; its row [i] pairs the true value [i]
    with the prediction [i]. *)
Theorem predictions_frame_is_aligned (true_values predicted : list cell) :
  (length predicted = length true_values →
   ∃ df, frame_of_columns [("true", true_values); ("predicted", predicted)] = Ok df
         ∧ columns df = ["true"; "predicted"]
         ∧ df_len df = length true_values
         ∧ ∀ i t p, true_values !! i = Some t → predicted !! i = Some p →
                    df_rows df !! i = Some [t; p])
  ∧ (length predicted ≠ length true_values →
     frame_of_columns [("true", true_values); ("predicted", predicted)]
     = Raise (Exn ValueError "All arrays must be of the same length")).
Proof.
  unfold frame_of_columns. cbn [forallb snd andb]. rewrite Nat.eqb_refl. cbn [andb].
  split.
  - intros Hlen. rewrite Hlen, Nat.eqb_refl. cbn [andb].
    eexists. split; [reflexivity|].
    rewrite df_len_range_frame, df_rows_range_frame, length_fmap, length_seq.
    split; [reflexivity|]. split; [reflexivity|].
    intros i t p Ht Hp.
    rewrite list_lookup_fmap, lookup_seq_lt by (eapply lookup_lt_Some; eassumption).
    cbn [fmap option_fmap option_map list_fmap snd Nat.add].
    rewrite Ht, Hp. reflexivity.
  - intros Hne. destruct (Nat.eqb_spec (length predicted) (length true_values));
      [contradiction|reflexivity].
Qed.

(** ** The artifact files, when every write succeeds *)

(** The files after the items have been written one after the other. *)
Definition files_after (dir : string) (items : list (string * file_data))
    (fs : gmap string file_data) : gmap string file_data :=
  foldl (λ fs it, <[path_join dir it.1 := it.2]> fs) fs items.

Lemma write_artifacts_ok env dir items w :
  Forall (writes_ok env dir) items →
  ∃ w', write_artifacts env dir items w = (Ok tt, w')
        ∧ trace w' = trace w ++ (items ≫= write_actions dir)
        ∧ files w' = files_after dir items (files w)
        ∧ stdout w' = stdout w
        ∧ tracking w' = tracking w
        ∧ np_pos w' = np_pos w.
Proof.
  intros Hok. unfold write_artifacts. revert w.
  induction Hok as [|it items [Ho Hw] _ IH]; intros w.
  - exists w. cbn [for_each]. unfold ret. rewrite app_nil_r. repeat split.
  - cbn [for_each]. unfold write_text_file. rewrite Ho, Hw.
    cbv [bind ret call emit save_file].
    match goal with |- context [for_each items _ ?w0] =>
      destruct (IH w0) as (w' & Hrun & Htr & Hfs & Hout & Htk & Hnp)
    end.
    exists w'. split; [exact Hrun|].
    rewrite Htr, Hfs, Hout, Htk, Hnp.
    cbn [trace files stdout tracking np_pos with_trace with_files].
    rewrite bind_cons, <- !app_assoc, insert_insert_eq. repeat split.
Qed.

Lemma files_after_other dir items fs p :
  p ∉ (path_join dir <$> items.*1) → files_after dir items fs !! p = fs !! p.
Proof.
  unfold files_after. revert fs.
  induction items as [|it items IH]; intros fs Hp; [reflexivity|].
  cbn [foldl]. rewrite fmap_cons, fmap_cons in Hp.
  apply not_elem_of_cons in Hp as [Hne Hp].
  rewrite IH by exact Hp. apply lookup_insert_ne. congruence.
Qed.

Lemma files_after_lookup dir items fs name content :
  NoDup items.*1 → (name, content) ∈ items →
  files_after dir items fs !! path_join dir name = Some content.
Proof.
  unfold files_after. revert fs.
  induction items as [|it items IH]; intros fs Hnd Hin; [inversion Hin|].
  rewrite fmap_cons in Hnd. apply NoDup_cons in Hnd as [Hfresh Hnd].
  cbn [foldl]. apply elem_of_cons in Hin as [<-|Hin].
  - fold (files_after dir items (<[path_join dir (name, content).1 := (name, content).2]> fs)).
    rewrite files_after_other.
    + apply lookup_insert_eq.
    + cbn [fst]. intros Hin. apply list_elem_of_fmap in Hin as (n' & Heq & Hn').
      apply path_join_inj in Heq as <-. contradiction.
  - apply IH; assumption.
Qed.

(** X11. When no open and no write fails, every artifact file is written, in
    the order of the mapping, and holds the content that was meant for it;
    files with other paths are left as they were. *)
Theorem written_artifacts_hold_their_content env dir items w :
  Forall (writes_ok env dir) items →
  NoDup items.*1 →
  ∃ w', write_artifacts env dir items w = (Ok tt, w')
        ∧ performed_by w w' = items ≫= write_actions dir
        ∧ (∀ name content, (name, content) ∈ items →
             files w' !! path_join dir name = Some content)
        ∧ (∀ p, p ∉ (path_join dir <$> items.*1) → files w' !! p = files w !! p).
Proof.
  intros Hok Hnd.
  destruct (write_artifacts_ok env dir items w Hok) as (w' & Hrun & Htr & Hfs & _).
  exists w'. split; [exact Hrun|]. split; [apply performed_by_app, Htr|].
  rewrite Hfs. split.
  - intros name content Hin. apply files_after_lookup; assumption.
  - intros p Hp. apply files_after_other, Hp.
Qed.

(** The three names the script writes are distinct. *)
Lemma artifacts_of_names lb predictions_df summary_obj :
  (artifacts_of lb predictions_df summary_obj).*1
  = ["leaderboard.csv"; "predictions.csv"; "model_summary.json"].
Proof. reflexivity. Qed.

(** ** Uploads *)

(** The fallback loop: one attempt for every regular file of the listing,
    and one line for every attempt that raised. *)
Definition fallback_uploads (env : Env) (dir : string) (names : list string) : list action :=
  (λ fname, LogArtifact (path_join dir fname) "artifacts")
    <$> filter (λ fname, is_file env (path_join dir fname) = true) names.

Definition fallback_line (env : Env) (dir fname : string) : option string :=
  let fp := path_join dir fname in
  if is_file env fp
  then (λ e2, "Could not log artifact file: " +:+ fp +:+ " " +:+ exn_str e2)
         <$> log_artifact_raises env fp "artifacts"
  else None.

Definition fallback_lines (env : Env) (dir : string) (names : list string) : list string :=
  omap (fallback_line env dir) names.

Lemma fallback_loop_returns env dir names w :
  ∃ w',
    for_each names
      (λ fname,
         let fp := path_join dir fname in
         when (is_file env fp)
           (try_except (mlflow_log_artifact env fp "artifacts") any_exception
              (λ e2, print ("Could not log artifact file: " +:+ fp +:+ " " +:+ exn_str e2))))
      w = (Ok tt, w')
    ∧ trace w' = trace w ++ fallback_uploads env dir names
    ∧ stdout w' = stdout w ++ fallback_lines env dir names
    ∧ run (tracking w') = run (tracking w)
    ∧ params (tracking w') = params (tracking w)
    ∧ files w' = files w.
Proof.
  revert w. induction names as [|fname names IH]; intros w.
  - exists w. cbn [for_each]. unfold ret, fallback_uploads, fallback_lines.
    rewrite filter_nil, fmap_nil. cbn [omap list_omap]. rewrite !app_nil_r. repeat split.
  - cbn [for_each]. unfold fallback_uploads, fallback_lines. cbv zeta.
    cbn [omap list_omap]. unfold fallback_line at 1. cbv zeta.
    destruct (is_file env (path_join dir fname)) eqn:Hfile.
    + rewrite filter_cons_True by exact Hfile. rewrite fmap_cons.
      unfold when, mlflow_log_artifact.
      destruct (log_artifact_raises env (path_join dir fname) "artifacts") as [e|].
      * cbv [bind ret raise call emit try_except any_exception print update_tracking].
        match goal with |- context [for_each names _ ?w0] =>
          destruct (IH w0) as (w' & Hrun & Htr & Hout & Hst & Hpar & Hfs)
        end.
        exists w'. split; [exact Hrun|]. rewrite Htr, Hout, Hst, Hpar, Hfs.
        cbn [trace stdout tracking files with_trace with_stdout fmap option_fmap
             option_map].
        rewrite <- !app_assoc. repeat split.
      * cbv [bind ret raise call emit try_except any_exception print update_tracking].
        match goal with |- context [for_each names _ ?w0] =>
          destruct (IH w0) as (w' & Hrun & Htr & Hout & Hst & Hpar & Hfs)
        end.
        exists w'. split; [exact Hrun|]. rewrite Htr, Hout, Hst, Hpar, Hfs.
        cbn [trace stdout tracking files with_trace with_tracking run params add_upload
             fmap option_fmap option_map].
        rewrite <- app_assoc. repeat split.
    + rewrite filter_cons_False by (rewrite Hfile; discriminate).
      unfold when. rewrite bind_ret.
      destruct (IH w) as (w' & Hrun & Htr & Hout & Hst & Hpar & Hfs).
      exists w'. repeat split; assumption.
Qed.

(** What the bulk uploads attempt, print and end with: the artifacts
    directory first, the plots directory only when the first upload did not
    raise; a directory that does not exist is skipped; an upload that
    succeeded is reported by a line. *)
Record Attempt : Type := mkAttempt {
  attempted : list action;
  reported : list string;
  failure : option exn
}.

Definition plots_attempt (env : Env) (p : string) : Attempt :=
  if path_exists env p
  then match log_artifacts_raises env p "plots" with
       | Some e => mkAttempt [LogArtifacts p "plots"] [] (Some e)
       | None => mkAttempt [LogArtifacts p "plots"] ["Logged plots from: " +:+ p] None
       end
  else mkAttempt [] [] None.

Definition bulk_uploads (env : Env) (a p : string) : Attempt :=
  if path_exists env a
  then match log_artifacts_raises env a "artifacts" with
       | Some e => mkAttempt [LogArtifacts a "artifacts"] [] (Some e)
       | None =>
           let rest := plots_attempt env p in
           mkAttempt (LogArtifacts a "artifacts" :: attempted rest)
                     (("Logged artifacts from: " +:+ a) :: reported rest)
                     (failure rest)
       end
  else plots_attempt env p.

(** X12. [upload_directories] raises only when the bulk upload failed and the
    artifacts directory cannot be listed.  Each bulk upload that succeeds is
    reported by its line.  When a bulk upload fails, whichever of the two
    directories it was, the failure is reported, the fallback lists the
    artifacts directory and attempts each of its regular files once, under
    "artifacts"; a file that fails is reported by a line of its own and does
    not stop the others; nothing of the plots directory is attempted
    again. *)
Theorem upload_directories_falls_back_per_file env a p w :
  let out := upload_directories env a p w in
  let bulk := bulk_uploads env a p in
  match failure bulk with
  | None =>
      out.1 = Ok tt
      ∧ performed_by w out.2 = attempted bulk
      ∧ printed_by w out.2 = reported bulk
  | Some e =>
      let refused := "Could not log artifacts directories: " +:+ exn_str e in
      match listdir env a with
      | Ok names =>
          out.1 = Ok tt
          ∧ performed_by w out.2
            = attempted bulk ++ ListDir a :: fallback_uploads env a names
          ∧ printed_by w out.2
            = reported bulk ++ refused :: fallback_lines env a names
      | Raise e2 =>
          out.1 = Raise e2
          ∧ performed_by w out.2 = attempted bulk ++ [ListDir a]
          ∧ printed_by w out.2 = reported bulk ++ [refused]
      end
  end.
Proof.
  intros out bulk. subst out bulk.
  unfold upload_directories, bulk_uploads, plots_attempt, when, mlflow_log_artifacts,
    mlflow_log_artifact.
  destruct (path_exists env a);
    [destruct (log_artifacts_raises env a "artifacts") as [ea|]|];
    destruct (path_exists env p);
    try destruct (log_artifacts_raises env p "plots") as [ep|];
    cbv zeta; cbn [attempted reported failure];
    cbv [bind ret raise lift call emit try_except any_exception print update_tracking].
  all: try (split; [reflexivity|]; split;
            [apply performed_by_app|apply printed_by_app];
            cbn [snd trace stdout with_trace with_stdout with_tracking];
            rewrite <- ?app_assoc, ?app_nil_r; reflexivity).
  all: destruct (listdir env a) as [names|e2];
    [|split; [reflexivity|]; split;
      [apply performed_by_app|apply printed_by_app];
      cbn [snd trace stdout with_trace with_stdout with_tracking];
      rewrite <- ?app_assoc; reflexivity].
  all: match goal with |- context [for_each ?ns _ ?w0] =>
         destruct (fallback_loop_returns env a ns w0) as (w' & Hrun & Htr & Hout & _)
       end;
    cbv [bind ret raise lift call emit try_except any_exception print update_tracking
         when mlflow_log_artifact] in Hrun;
    rewrite Hrun; split; [reflexivity|]; split;
    [apply performed_by_app; cbn [snd]; rewrite Htr
    |apply printed_by_app; cbn [snd]; rewrite Hout];
    cbn [trace stdout with_trace with_stdout with_tracking];
    rewrite <- ?app_assoc; reflexivity.
Qed.

Lemma upload_directories_returns env a p names w :
  listdir env a = Ok names →
  ∃ w', upload_directories env a p w = (Ok tt, w').
Proof.
  intros Hlist.
  unfold upload_directories, when, mlflow_log_artifacts, mlflow_log_artifact.
  destruct (path_exists env a);
    [destruct (log_artifacts_raises env a "artifacts") as [ea|]|];
    destruct (path_exists env p);
    try destruct (log_artifacts_raises env p "plots") as [ep|];
    cbv [bind ret raise lift call emit try_except any_exception print update_tracking];
    rewrite ?Hlist; eauto.
  all: match goal with |- context [for_each ?ns _ ?w0] =>
         destruct (fallback_loop_returns env a ns w0) as (w' & Hrun & _)
       end;
    cbv [bind ret raise lift call emit try_except any_exception print update_tracking
         when mlflow_log_artifact] in Hrun;
    rewrite Hrun; eauto.
Qed.

Lemma upload_model_returns env w : ∃ w', upload_model env w = (Ok tt, w').
Proof.
  unfold upload_model, when, mlflow_log_artifacts. cbv zeta.
  destruct (path_exists env _); [|unfold ret; eauto].
  destruct (log_artifacts_raises env _ "model");
    cbv [bind ret raise call emit try_except any_exception print update_tracking]; eauto.
Qed.

Lemma create_visualizations_returns env predictor test_data predictions plots_dir w :
  ∃ plots w',
    create_visualizations env predictor test_data predictions plots_dir w = (Ok plots, w').
Proof.
  unfold create_visualizations.
  destruct (feature_importance_plot_spec env predictor test_data plots_dir ∅ w)
    as (plots1 & w1 & Hrun1 & _).
  destruct (prediction_distribution_plot_spec env predictions plots_dir plots1 w1)
    as (plots2 & w2 & Hrun2 & _).
  rewrite (bind_ok _ _ _ _ _ Hrun1), (bind_ok _ _ _ _ _ Hrun2). unfold ret. eauto.
Qed.

(** ** What the body of the run leaves alone *)

(** The actions of the body: it neither starts nor ends a run, and it does
    not record the parameter "error". *)
Definition body_action (a : action) : Prop :=
  match a with
  | StartRun | EndRun _ => False
  | LogParam key _ => key ≠ "error"
  | LogParams ps => "error" ∉ ps.*1
  | _ => True
  end.

(** A computation that only adds body actions to the trace and leaves the
    state of the run and the parameter "error" as they are. *)
Definition keeps_run {A} (m : M A) : Prop :=
  ∀ w, ∃ l, trace (m w).2 = trace w ++ l
            ∧ Forall body_action l
            ∧ run (tracking (m w).2) = run (tracking w)
            ∧ params (tracking (m w).2) !! "error" = params (tracking w) !! "error".

Lemma keeps_run_ret {A} (a : A) : keeps_run (ret a).
Proof. intros w. exists []. rewrite app_nil_r. repeat split. constructor. Qed.

Lemma keeps_run_raise {A} e : keeps_run (raise (A := A) e).
Proof. intros w. exists []. rewrite app_nil_r. repeat split. constructor. Qed.

Lemma keeps_run_lift {A} (r : result A) : keeps_run (lift r).
Proof. intros w. exists []. rewrite app_nil_r. repeat split. constructor. Qed.

Lemma keeps_run_print line : keeps_run (print line).
Proof. intros w. exists []. rewrite app_nil_r. repeat split. constructor. Qed.

Lemma keeps_run_save_file path d : keeps_run (save_file path d).
Proof. intros w. exists []. rewrite app_nil_r. repeat split. constructor. Qed.

Lemma keeps_run_emit a : body_action a → keeps_run (emit a).
Proof. intros Ha w. exists [a]. repeat split. repeat constructor. exact Ha. Qed.

Lemma keeps_run_update f :
  (∀ t, run (f t) = run t ∧ params (f t) !! "error" = params t !! "error") →
  keeps_run (update_tracking f).
Proof.
  intros Hf w. exists []. rewrite app_nil_r.
  destruct (Hf (tracking w)) as [Hr Hp]. repeat split; [constructor|exact Hr|exact Hp].
Qed.

Lemma keeps_run_bind {A B} (m : M A) (k : A → M B) :
  keeps_run m → (∀ a, keeps_run (k a)) → keeps_run (bind m k).
Proof.
  intros Hm Hk w. unfold bind.
  destruct (Hm w) as (l1 & Htr1 & Hq1 & Hr1 & Hp1).
  destruct (m w) as [[a|e] w1]; cbn [snd] in *.
  - destruct (Hk a w1) as (l2 & Htr2 & Hq2 & Hr2 & Hp2).
    exists (l1 ++ l2). rewrite Htr2, Htr1, Hr2, Hr1, Hp2, Hp1, app_assoc.
    repeat split. apply Forall_app; split; assumption.
  - exists l1. repeat split; assumption.
Qed.

Lemma keeps_run_try {A} (m : M A) C (h : exn → M A) :
  keeps_run m → (∀ e, keeps_run (h e)) → keeps_run (try_except m C h).
Proof.
  intros Hm Hh w. unfold try_except.
  destruct (Hm w) as (l1 & Htr1 & Hq1 & Hr1 & Hp1).
  destruct (m w) as [[a|e] w1]; cbn [snd] in *.
  - exists l1. repeat split; assumption.
  - destruct (C e).
    + destruct (Hh e w1) as (l2 & Htr2 & Hq2 & Hr2 & Hp2).
      exists (l1 ++ l2). rewrite Htr2, Htr1, Hr2, Hr1, Hp2, Hp1, app_assoc.
      repeat split. apply Forall_app; split; assumption.
    + exists l1. repeat split; assumption.
Qed.

Lemma keeps_run_for_each {A} (l : list A) (f : A → M unit) :
  (∀ x, x ∈ l → keeps_run (f x)) → keeps_run (for_each l f).
Proof.
  induction l as [|x l IH]; intros Hf; cbn [for_each].
  - apply keeps_run_ret.
  - apply keeps_run_bind; [apply Hf; left|].
    intros _. apply IH. intros y Hy. apply Hf. right. exact Hy.
Qed.

Lemma keeps_run_call a outcome : body_action a → keeps_run (call a outcome).
Proof.
  intros Ha. unfold call. apply keeps_run_bind; [apply keeps_run_emit, Ha|].
  intros _. destruct outcome; [apply keeps_run_raise|apply keeps_run_ret].
Qed.

Lemma keeps_run_when b (m : M unit) : keeps_run m → keeps_run (when b m).
Proof. intros Hm. destruct b; [exact Hm|apply keeps_run_ret]. Qed.

(** One step of the syntax-directed proof that a block keeps the run. *)
Ltac keeps_run_step :=
  first
    [ apply keeps_run_call; exact I
    | apply keeps_run_emit; exact I
    | apply keeps_run_when
    | apply keeps_run_ret
    | apply keeps_run_raise
    | apply keeps_run_lift
    | apply keeps_run_print
    | apply keeps_run_save_file
    | apply keeps_run_update; intros ?; split; reflexivity
    | apply keeps_run_try; [|intros ?]
    | apply keeps_run_bind; [|intros ?] ].

Lemma params_add_params ps t key :
  key ∉ ps.*1 → params (add_params ps t) !! key = params t !! key.
Proof.
  unfold add_params. revert t. induction ps as [|p ps IH]; intros t Hkey; [reflexivity|].
  rewrite fmap_cons in Hkey. apply not_elem_of_cons in Hkey as [Hne Hkey].
  cbn [foldl]. rewrite IH by exact Hkey.
  cbn [add_param params]. apply lookup_insert_ne. congruence.
Qed.

Lemma run_add_params ps t : run (add_params ps t) = run t.
Proof.
  unfold add_params. revert t. induction ps as [|p ps IH]; intros t; [reflexivity|].
  cbn [foldl]. rewrite IH. reflexivity.
Qed.

Lemma run_add_metrics ms t : run (add_metrics ms t) = run t.
Proof.
  unfold add_metrics. revert t. induction ms as [|m ms IH]; intros t; [reflexivity|].
  cbn [foldl]. rewrite IH. reflexivity.
Qed.

Lemma params_add_metrics ms t : params (add_metrics ms t) = params t.
Proof.
  unfold add_metrics. revert t. induction ms as [|m ms IH]; intros t; [reflexivity|].
  cbn [foldl]. rewrite IH. reflexivity.
Qed.

Lemma keeps_run_log_params env ps :
  "error" ∉ ps.*1 → keeps_run (mlflow_log_params env ps).
Proof.
  intros Hps. unfold mlflow_log_params.
  apply keeps_run_bind; [apply keeps_run_call; exact Hps|].
  intros _. apply keeps_run_update. intros t.
  split; [apply run_add_params|apply params_add_params, Hps].
Qed.

Lemma keeps_run_log_metrics env ms : keeps_run (mlflow_log_metrics env ms).
Proof.
  unfold mlflow_log_metrics.
  apply keeps_run_bind; [apply keeps_run_call; exact I|].
  intros _. apply keeps_run_update. intros t.
  split; [apply run_add_metrics|rewrite params_add_metrics; reflexivity].
Qed.

(** The body of the run is the training followed by steps that keep the
    run, whatever the training returned. *)
Lemma experiment_steps_after_training env dirs label time_limit train_data test_data
    run_id :
  ∃ K, experiment_steps env dirs label time_limit train_data test_data run_id
       = bind (train_model env train_data test_data label time_limit hyperparameters) K
       ∧ ∀ trained, keeps_run (K trained).
Proof.
  eexists. split; [reflexivity|].
  intros trained. cbv zeta.
  apply keeps_run_bind;
    [unfold create_visualizations, feature_importance_plot,
       prediction_distribution_plot, plt_savefig, plt; cbv zeta;
     repeat keeps_run_step|].
  intros plots.
  apply keeps_run_bind;
    [apply keeps_run_log_params; cbn [fmap list_fmap fst];
     rewrite !elem_of_cons, elem_of_nil; intros H;
     repeat destruct H as [H|H]; try discriminate H; exact H|].
  intros _.
  apply keeps_run_bind; [apply keeps_run_log_metrics|].
  intros _.
  do 4 (apply keeps_run_bind; [repeat keeps_run_step|intros ?]).
  apply keeps_run_bind;
    [unfold write_artifacts; apply keeps_run_for_each; intros it _;
     unfold write_text_file; repeat keeps_run_step|].
  intros _.
  apply keeps_run_bind; [unfold mlflow_get_artifact_uri; repeat keeps_run_step|intros ?].
  apply keeps_run_bind; [repeat keeps_run_step|intros _].
  apply keeps_run_bind;
    [unfold upload_directories, mlflow_log_artifacts; repeat keeps_run_step;
     apply keeps_run_for_each; intros fname _; cbv zeta;
     unfold mlflow_log_artifact; repeat keeps_run_step|].
  intros _.
  apply keeps_run_bind;
    [unfold upload_model, mlflow_log_artifacts; cbv zeta; repeat keeps_run_step|].
  intros _. unfold mlflow_get_artifact_uri. repeat keeps_run_step.
Qed.

Lemma keeps_run_experiment_steps env dirs label time_limit train_data test_data run_id :
  keeps_run (experiment_steps env dirs label time_limit train_data test_data run_id).
Proof.
  destruct (experiment_steps_after_training env dirs label time_limit train_data
              test_data run_id) as (K & -> & HK).
  apply keeps_run_bind; [unfold train_model; repeat keeps_run_step|exact HK].
Qed.


(** X13. The actions of one [run_experiment].  The start of the run is
    requested first; when the server refuses it, nothing else happens.
    Otherwise the body neither starts nor ends a run and does not record
    "error", and the way out requests the end of the run once, as the last
    action: as finished when the body returned, and as failed, right after
    the request to record "error", when it raised.  "error" is recorded
    exactly when that request is accepted; what [run_experiment] raises is
    the exception of the end request when the server refuses it (the run is
    then left running), else the exception of the refused recording, else
    the exception of the body. *)
Theorem run_is_started_and_ended_once env dirs label time_limit train_data test_data w :
  let out := run_experiment env dirs label time_limit train_data test_data w in
  match tracking_raises env StartRun with
  | Some e0 => out = (Raise e0, with_trace (λ t, t ++ [StartRun]) w)
  | None =>
      ∃ body,
        Forall body_action body
        ∧ match (experiment_steps env dirs label time_limit train_data test_data
                   (new_run_id env) (run_opened env w)).1 with
          | Ok _ =>
              performed_by w out.2 = StartRun :: body ++ [EndRun Finished]
              ∧ params (tracking out.2) !! "error" = params (tracking w) !! "error"
              ∧ match tracking_raises env (EndRun Finished) with
                | None => out.1 = Ok tt ∧ run (tracking out.2) = Finished
                | Some e2 => out.1 = Raise e2 ∧ run (tracking out.2) = Running
                end
          | Raise e =>
              let record := LogParam "error" (PStr (exn_str e)) in
              performed_by w out.2 = StartRun :: body ++ [record; EndRun Failed]
              ∧ params (tracking out.2) !! "error"
                = match tracking_raises env record with
                  | None => Some (PStr (exn_str e))
                  | Some _ => params (tracking w) !! "error"
                  end
              ∧ match tracking_raises env (EndRun Failed) with
                | None =>
                    out.1 = Raise (default e (tracking_raises env record))
                    ∧ run (tracking out.2) = Failed
                | Some e2 => out.1 = Raise e2 ∧ run (tracking out.2) = Running
                end
          end
  end.
Proof.
  intros out. subst out. rewrite run_experiment_result.
  destruct (tracking_raises env StartRun) as [e0|]; [reflexivity|].
  destruct (keeps_run_experiment_steps env dirs label time_limit train_data test_data
              (new_run_id env) (run_opened env w)) as (body & Htr & Hbody & Hrun & Hpar).
  exists body. split; [exact Hbody|].
  destruct (experiment_steps env dirs label time_limit train_data test_data
              (new_run_id env) (run_opened env w)) as [[[]|e] w1]; cbn [fst snd] in *.
  - unfold closed.
    destruct (tracking_raises env (EndRun Finished)) as [e2|]; cbn [fst snd];
      unfold run_ended;
      cbn [trace tracking with_tracking with_trace set_run run params];
      (split; [apply performed_by_app;
               cbn [snd trace with_tracking with_trace with_stdout];
               rewrite Htr; unfold run_opened;
               cbn [trace with_tracking with_trace with_stdout];
               rewrite <- !app_assoc; reflexivity|]);
      (split; [rewrite Hpar; reflexivity|]);
      (split; [reflexivity|]); [rewrite Hrun|]; reflexivity.
  - cbv zeta.
    destruct (tracking_raises env (LogParam "error" (PStr (exn_str e)))) as [e1|];
      unfold closed;
      destruct (tracking_raises env (EndRun Failed)) as [e2|]; cbn [fst snd default];
      unfold run_ended, error_recorded, error_refused;
      cbn [trace tracking with_tracking with_trace with_stdout set_run run params
           add_param];
      (split; [apply performed_by_app;
               cbn [snd trace with_tracking with_trace with_stdout];
               rewrite Htr; unfold run_opened;
               cbn [trace with_tracking with_trace with_stdout];
               rewrite <- !app_assoc; reflexivity|]);
      (split; [first [rewrite Hpar; reflexivity|apply lookup_insert_eq]|]);
      (split; [reflexivity|]); first [reflexivity|rewrite Hrun; reflexivity].
Qed.

(** ** Fatal and non-fatal failures of a run *)

Lemma bind_emit {B} a (k : unit → M B) w :
  bind (emit a) k w = k tt (with_trace (λ t, t ++ [a]) w).
Proof. reflexivity. Qed.

Lemma bind_lift_ok {A B} (a : A) (k : A → M B) w : bind (lift (Ok a)) k w = k a w.
Proof. reflexivity. Qed.

Lemma bind_lift_raise {A B} e (k : A → M B) w : bind (lift (Raise e)) k w = (Raise e, w).
Proof. reflexivity. Qed.

(** A request the server accepts. *)
Lemma mlflow_log_params_accepted env ps w :
  tracking_raises env (LogParams ps) = None →
  mlflow_log_params env ps w
  = (Ok tt, with_tracking (add_params ps) (with_trace (λ t, t ++ [LogParams ps]) w)).
Proof. intros H. unfold mlflow_log_params. rewrite H. reflexivity. Qed.

Lemma mlflow_log_metrics_accepted env ms w :
  tracking_raises env (LogMetrics ms) = None →
  mlflow_log_metrics env ms w
  = (Ok tt, with_tracking (add_metrics ms) (with_trace (λ t, t ++ [LogMetrics ms]) w)).
Proof. intros H. unfold mlflow_log_metrics. rewrite H. reflexivity. Qed.

Lemma mlflow_get_artifact_uri_accepted env w :
  tracking_raises env GetArtifactUri = None →
  mlflow_get_artifact_uri env w
  = (Ok (artifact_uri env), with_trace (λ t, t ++ [GetArtifactUri]) w).
Proof. intros H. unfold mlflow_get_artifact_uri. rewrite H. reflexivity. Qed.

(** A tracking server that accepts every request of the run.  Uploads are
    not among them: they have their own answers. *)
Definition server_accepts (env : Env) : Prop := ∀ a, tracking_raises env a = None.

(** The three names of [artifacts_map]. *)
Definition artifact_names : list string :=
  ["leaderboard.csv"; "predictions.csv"; "model_summary.json"].

(** X14. Plots and uploads cannot fail a run.  When the tracking server
    accepts the requests of the run, training, the summary, the label
    column and the three file writes succeed, there are as many predictions
    as test rows, and the artifacts directory can be listed, the run
    finishes — whatever the plotting calls, the feature importance and the
    uploads do. *)
Theorem plot_and_upload_failures_do_not_fail_the_run env dirs label time_limit
    train_data test_data predictor predictions lb summary true_values names w :
  server_accepts env →
  fit env train_data label time_limit hyperparameters = Ok predictor →
  predict predictor test_data = Ok predictions →
  leaderboard predictor test_data = Ok lb →
  fit_summary predictor = Ok summary →
  df_getitem test_data label = Ok true_values →
  length predictions = length true_values →
  Forall (λ name, writes_ok env (dir_artifacts dirs) (name, EmptyFile)) artifact_names →
  listdir env (dir_artifacts dirs) = Ok names →
  ∃ w',
    run_experiment env dirs label time_limit train_data test_data w = (Ok tt, w')
    ∧ run (tracking w') = Finished
    ∧ last (trace w') = Some (EndRun Finished)
    ∧ last (stdout w')
      = Some ("View run at: " +:+ artifact_uri env +:+ "/runs/" +:+ new_run_id env).
Proof.
  intros Hsrv Hfit Hpred Hlb Hsum Hcol Hlen Hwrite Hlist.
  rewrite run_experiment_accepted by apply Hsrv.
  assert (Hsteps : ∃ w1,
            experiment_steps env dirs label time_limit train_data test_data
              (new_run_id env) (run_opened env w)
            = (Ok tt,
               with_stdout
                 (λ o, o ++ ["View run at: " +:+ artifact_uri env +:+ "/runs/"
                             +:+ new_run_id env]) w1)).
  { unfold experiment_steps.
    erewrite bind_ok;
      [|unfold train_model; cbv [bind ret emit lift]; rewrite Hfit, Hpred, Hlb;
        reflexivity].
    cbv zeta. cbn [fst snd].
    match goal with |- context [bind (create_visualizations ?e ?p ?t ?ps ?d) _ ?w0] =>
      destruct (create_visualizations_returns e p t ps d w0) as (plots & w1 & Hcv)
    end.
    rewrite (bind_ok _ _ _ _ _ Hcv).
    rewrite (bind_ok _ _ _ _ _ (mlflow_log_params_accepted env _ _ (Hsrv _))).
    rewrite (bind_ok _ _ _ _ _ (mlflow_log_metrics_accepted env _ _ (Hsrv _))).
    rewrite bind_emit, Hsum, bind_lift_ok, Hcol, bind_lift_ok.
    destruct (proj1 (predictions_frame_lemma true_values predictions) Hlen)
      as (pdf & Hpdf).
    rewrite Hpdf, bind_lift_ok.
    match goal with |- context [bind (write_artifacts ?e ?d ?items) _ ?w0] =>
      destruct (write_artifacts_ok e d items w0) as (w4 & Hwr & _)
    end.
    { unfold artifacts_of. unfold artifact_names in Hwrite.
      inversion Hwrite as [|? ? H1 Hw1]; subst.
      inversion Hw1 as [|? ? H2 Hw2]; subst.
      inversion Hw2 as [|? ? H3 _]; subst.
      constructor; [exact H1|]. constructor; [exact H2|].
      constructor; [exact H3|]. constructor. }
    rewrite (bind_ok _ _ _ _ _ Hwr).
    rewrite (bind_ok _ _ _ _ _ (mlflow_get_artifact_uri_accepted env _ (Hsrv _))).
    rewrite bind_print.
    match goal with |- context [bind (upload_directories ?e ?a ?p) _ ?w0] =>
      destruct (upload_directories_returns e a p names w0 Hlist) as (w5 & Hup)
    end.
    rewrite (bind_ok _ _ _ _ _ Hup).
    match goal with |- context [bind (upload_model ?e) _ ?w0] =>
      destruct (upload_model_returns e w0) as (w6 & Hum)
    end.
    rewrite (bind_ok _ _ _ _ _ Hum), !bind_print.
    rewrite (bind_ok _ _ _ _ _ (mlflow_get_artifact_uri_accepted env _ (Hsrv _))).
    unfold print. eauto. }
  destruct Hsteps as (w1 & ->).
  eexists. split; [reflexivity|].
  unfold run_ended. cbn [tracking trace stdout with_tracking with_trace with_stdout
                         run set_run].
  split; [reflexivity|]. split; apply last_snoc.
Qed.

(** ** What a finished run needed *)

Lemma bind_ok_inv {A B} (m : M A) (k : A → M B) w b w' :
  bind m k w = (Ok b, w') → ∃ a w1, m w = (Ok a, w1) ∧ k a w1 = (Ok b, w').
Proof.
  unfold bind. destruct (m w) as [[a|e] w1]; [eauto|discriminate].
Qed.

Lemma lift_ok_inv {A} (r : result A) w a w' : lift r w = (Ok a, w') → r = Ok a.
Proof. unfold lift. intros [= -> _]. reflexivity. Qed.

Lemma write_artifacts_ok_inv env dir items w w' :
  write_artifacts env dir items w = (Ok tt, w') → Forall (writes_ok env dir) items.
Proof.
  unfold write_artifacts. revert w.
  induction items as [|it items IH]; intros w Hrun; [constructor|].
  cbn [for_each] in Hrun. unfold write_text_file in Hrun.
  destruct (open_write_raises env (path_join dir it.1)) as [e|] eqn:Ho;
    [cbv [bind ret raise call emit save_file] in Hrun; discriminate|].
  destruct (write_raises env (path_join dir it.1)) as [e|] eqn:Hw;
    [cbv [bind ret raise call emit save_file] in Hrun; discriminate|].
  cbv [bind ret raise call emit save_file] in Hrun.
  constructor; [split; assumption|]. eapply IH. exact Hrun.
Qed.

Lemma call_ok_inv a outcome w w' : call a outcome w = (Ok tt, w') → outcome = None.
Proof.
  unfold call. cbv [bind emit raise ret]. destruct outcome; [discriminate|reflexivity].
Qed.

Lemma run_experiment_ok_inv env dirs label time_limit train_data test_data w a w' :
  run_experiment env dirs label time_limit train_data test_data w = (Ok a, w') →
  tracking_raises env StartRun = None
  ∧ tracking_raises env (EndRun Finished) = None
  ∧ ∃ w1, experiment_steps env dirs label time_limit train_data test_data
            (new_run_id env) (run_opened env w) = (Ok a, w1)
          ∧ w' = run_ended Finished w1.
Proof.
  rewrite run_experiment_result.
  destruct (tracking_raises env StartRun); [discriminate|].
  destruct (experiment_steps env dirs label time_limit train_data test_data
              (new_run_id env) (run_opened env w)) as [[a'|e] w1]; unfold closed.
  - destruct (tracking_raises env (EndRun Finished)); [discriminate|].
    intros [= -> <-]. eauto.
  - destruct (tracking_raises env (LogParam "error" (PStr (exn_str e))));
      destruct (tracking_raises env (EndRun Failed)); discriminate.
Qed.

(** Everything a body that returned went through. *)
Lemma experiment_steps_ok_inv env dirs label time_limit train_data test_data run_id w w' :
  experiment_steps env dirs label time_limit train_data test_data run_id w = (Ok tt, w') →
  ∃ predictor predictions lb summary true_values,
    fit env train_data label time_limit hyperparameters = Ok predictor
    ∧ predict predictor test_data = Ok predictions
    ∧ leaderboard predictor test_data = Ok lb
    ∧ tracking_raises env
        (LogParams [("label", label); ("time_limit", time_limit);
                    ("train_samples", PInt (Z.of_nat (df_len train_data)));
                    ("test_samples", PInt (Z.of_nat (df_len test_data)));
                    ("timestamp", PStr (now env))]) = None
    ∧ tracking_raises env
        (LogMetrics [("best_score", to_float (best_score (score_val <$> lb)));
                     ("avg_score", to_float (avg_score (score_val <$> lb)));
                     ("model_count", count_float (length lb))]) = None
    ∧ fit_summary predictor = Ok summary
    ∧ df_getitem test_data label = Ok true_values
    ∧ length predictions = length true_values
    ∧ Forall (λ name, writes_ok env (dir_artifacts dirs) (name, EmptyFile)) artifact_names
    ∧ tracking_raises env GetArtifactUri = None.
Proof.
  intros Hs. unfold experiment_steps in Hs.
  apply bind_ok_inv in Hs as (trained & w2 & Htm & Hs).
  rewrite train_model_result in Htm. cbv zeta in Htm.
  destruct (fit env train_data label time_limit hyperparameters)
    as [predictor|] eqn:Hfit; [|discriminate].
  destruct (predict predictor test_data) as [predictions|] eqn:Hpred; [|discriminate].
  destruct (leaderboard predictor test_data) as [lb|] eqn:Hlb; [|discriminate].
  injection Htm as <- _.
  cbv beta zeta in Hs. cbn [fst snd] in Hs.
  apply bind_ok_inv in Hs as (plots & w3 & _ & Hs).
  apply bind_ok_inv in Hs as ([] & w4 & Hps & Hs).
  unfold mlflow_log_params in Hps. apply bind_ok_inv in Hps as ([] & ? & Hps & _).
  apply call_ok_inv in Hps.
  apply bind_ok_inv in Hs as ([] & w5 & Hms & Hs).
  unfold mlflow_log_metrics in Hms. apply bind_ok_inv in Hms as ([] & ? & Hms & _).
  apply call_ok_inv in Hms.
  apply bind_ok_inv in Hs as ([] & w6 & _ & Hs).
  apply bind_ok_inv in Hs as (summary & w7 & Hsum & Hs). apply lift_ok_inv in Hsum.
  apply bind_ok_inv in Hs as (true_values & w8 & Hcol & Hs). apply lift_ok_inv in Hcol.
  apply bind_ok_inv in Hs as (pdf & w9 & Hpdf & Hs). apply lift_ok_inv in Hpdf.
  apply bind_ok_inv in Hs as ([] & w10 & Hwr & Hs).
  apply write_artifacts_ok_inv in Hwr.
  apply bind_ok_inv in Hs as (uri & w11 & Huri & _).
  unfold mlflow_get_artifact_uri in Huri.
  apply bind_ok_inv in Huri as ([] & ? & Huri & _). apply call_ok_inv in Huri.
  exists predictor, predictions, lb, summary, true_values.
  split; [reflexivity|]. split; [exact Hpred|]. split; [exact Hlb|].
  split; [exact Hps|]. split; [exact Hms|]. split; [exact Hsum|].
  split; [exact Hcol|]. split; [|split; [|exact Huri]].
  - destruct (decide (length predictions = length true_values)) as [Heq|Hne];
      [exact Heq|].
    rewrite (proj2 (predictions_frame_lemma true_values predictions) Hne) in Hpdf.
    discriminate.
  - unfold artifacts_of in Hwr. unfold artifact_names.
    inversion Hwr as [|? ? H1 Hw1]; subst.
    inversion Hw1 as [|? ? H2 Hw2]; subst.
    inversion Hw2 as [|? ? H3 _]; subst.
    constructor; [exact H1|]. constructor; [exact H2|].
    constructor; [exact H3|]. constructor.
Qed.

(** X15. The steps whose failure is fatal.  A run that finishes had a model
    fitted, predictions and a leaderboard computed, a summary produced, the
    label among the columns of the test data, as many predictions as test
    rows, and its three artifact files written without an error. *)
Theorem finished_run_passed_every_fatal_step env dirs label time_limit
    train_data test_data w w' :
  run_experiment env dirs label time_limit train_data test_data w = (Ok tt, w') →
  ∃ predictor predictions lb summary true_values,
    fit env train_data label time_limit hyperparameters = Ok predictor
    ∧ predict predictor test_data = Ok predictions
    ∧ leaderboard predictor test_data = Ok lb
    ∧ fit_summary predictor = Ok summary
    ∧ df_getitem test_data label = Ok true_values
    ∧ length predictions = length true_values
    ∧ Forall (λ name, writes_ok env (dir_artifacts dirs) (name, EmptyFile)) artifact_names
    ∧ run (tracking w') = Finished.
Proof.
  intros Hrun.
  apply run_experiment_ok_inv in Hrun as (_ & _ & w1 & Hs & ->).
  apply experiment_steps_ok_inv in Hs
    as (predictor & predictions & lb & summary & true_values
        & Hfit & Hpred & Hlb & _ & _ & Hsum & Hcol & Hlen & Hwr & _).
  exists predictor, predictions, lb, summary, true_values.
  repeat (split; [assumption|]). reflexivity.
Qed.

(** X20. The requests whose refusal is fatal.  A run that finishes had the
    start of the run, the parameters, the metrics, the artifact location
    and the end of the run accepted by the tracking server: each of these
    requests is made outside every handler of the body or, for the start
    and the end, outside the [try] altogether. *)
Theorem finished_run_had_its_requests_accepted env dirs label time_limit
    train_data test_data w w' :
  run_experiment env dirs label time_limit train_data test_data w = (Ok tt, w') →
  tracking_raises env StartRun = None
  ∧ tracking_raises env
      (LogParams [("label", label); ("time_limit", time_limit);
                  ("train_samples", PInt (Z.of_nat (df_len train_data)));
                  ("test_samples", PInt (Z.of_nat (df_len test_data)));
                  ("timestamp", PStr (now env))]) = None
  ∧ (∃ predictor lb,
       fit env train_data label time_limit hyperparameters = Ok predictor
       ∧ leaderboard predictor test_data = Ok lb
       ∧ tracking_raises env
           (LogMetrics [("best_score", to_float (best_score (score_val <$> lb)));
                        ("avg_score", to_float (avg_score (score_val <$> lb)));
                        ("model_count", count_float (length lb))]) = None)
  ∧ tracking_raises env GetArtifactUri = None
  ∧ tracking_raises env (EndRun Finished) = None.
Proof.
  intros Hrun.
  apply run_experiment_ok_inv in Hrun as (Hstart & Hend & w1 & Hs & _).
  apply experiment_steps_ok_inv in Hs
    as (predictor & predictions & lb & summary & true_values
        & Hfit & _ & Hlb & Hps & Hms & _ & _ & _ & _ & Huri).
  split; [exact Hstart|]. split; [exact Hps|].
  split; [exists predictor, lb; repeat split; assumption|].
  split; assumption.
Qed.

(** ** Failures before the run *)

Lemma makedirs_loop_stops env pre d post e w :
  (∀ x, x ∈ pre → makedirs_raises env x = None) →
  makedirs_raises env d = Some e →
  for_each (pre ++ d :: post) (λ d, call (Makedirs d) (makedirs_raises env d)) w
  = (Raise e, with_trace (λ t, t ++ (Makedirs <$> pre) ++ [Makedirs d]) w).
Proof.
  intros Hpre Hd. revert w.
  induction pre as [|x pre IH]; intros w; cbn [app for_each].
  - rewrite Hd. reflexivity.
  - rewrite (Hpre x) by left.
    cbv [bind call emit ret]. rewrite IH by (intros y Hy; apply Hpre; right; exact Hy).
    unfold with_trace. cbn [trace stdout np_pos files tracking fmap list_fmap].
    rewrite <- !app_assoc. reflexivity.
Qed.

(** X16. A directory that cannot be created ends the script there: the
    directories before it have been asked for, the others are not, and
    nothing else has happened — no experiment, no file read, no run. *)
Theorem directory_failure_aborts_main env args pre d post e w :
  dirs_list = pre ++ d :: post →
  (∀ x, x ∈ pre → makedirs_raises env x = None) →
  makedirs_raises env d = Some e →
  main env args w
  = (Raise e, with_trace (λ t, t ++ (Makedirs <$> pre) ++ [Makedirs d]) w).
Proof.
  intros Hsplit Hpre Hd. unfold main, setup_directories. rewrite Hsplit.
  rewrite bind_assoc.
  apply bind_raise. apply makedirs_loop_stops; assumption.
Qed.




(** ** What is recorded of a trained model *)

(** A computation that leaves the recorded parameters and metrics as they
    are. *)
Definition keeps_records {A} (m : M A) : Prop :=
  ∀ w, params (tracking (m w).2) = params (tracking w)
       ∧ metrics (tracking (m w).2) = metrics (tracking w).

Lemma keeps_records_ret {A} (a : A) : keeps_records (ret a).
Proof. intros w. split; reflexivity. Qed.

Lemma keeps_records_raise {A} e : keeps_records (raise (A := A) e).
Proof. intros w. split; reflexivity. Qed.

Lemma keeps_records_lift {A} (r : result A) : keeps_records (lift r).
Proof. intros w. split; reflexivity. Qed.

Lemma keeps_records_print line : keeps_records (print line).
Proof. intros w. split; reflexivity. Qed.

Lemma keeps_records_save_file path d : keeps_records (save_file path d).
Proof. intros w. split; reflexivity. Qed.

Lemma keeps_records_emit a : keeps_records (emit a).
Proof. intros w. split; reflexivity. Qed.

Lemma keeps_records_upload src dst : keeps_records (update_tracking (add_upload src dst)).
Proof. intros w. split; reflexivity. Qed.

Lemma keeps_records_bind {A B} (m : M A) (k : A → M B) :
  keeps_records m → (∀ a, keeps_records (k a)) → keeps_records (bind m k).
Proof.
  intros Hm Hk w. unfold bind.
  destruct (Hm w) as [Hp1 Hm1].
  destruct (m w) as [[a|e] w1]; cbn [snd] in *.
  - destruct (Hk a w1) as [Hp2 Hm2]. rewrite Hp2, Hm2. split; assumption.
  - split; assumption.
Qed.

Lemma keeps_records_try {A} (m : M A) C (h : exn → M A) :
  keeps_records m → (∀ e, keeps_records (h e)) → keeps_records (try_except m C h).
Proof.
  intros Hm Hh w. unfold try_except.
  destruct (Hm w) as [Hp1 Hm1].
  destruct (m w) as [[a|e] w1]; cbn [snd] in *.
  - split; assumption.
  - destruct (C e); [|split; assumption].
    destruct (Hh e w1) as [Hp2 Hm2]. rewrite Hp2, Hm2. split; assumption.
Qed.

Lemma keeps_records_for_each {A} (l : list A) (f : A → M unit) :
  (∀ x, keeps_records (f x)) → keeps_records (for_each l f).
Proof.
  intros Hf. induction l as [|x l IH]; cbn [for_each].
  - apply keeps_records_ret.
  - apply keeps_records_bind; [apply Hf|]. intros _. exact IH.
Qed.

Lemma keeps_records_call a outcome : keeps_records (call a outcome).
Proof.
  unfold call. apply keeps_records_bind; [apply keeps_records_emit|].
  intros _. destruct outcome; [apply keeps_records_raise|apply keeps_records_ret].
Qed.

Lemma keeps_records_when b (m : M unit) : keeps_records m → keeps_records (when b m).
Proof. intros Hm. destruct b; [exact Hm|apply keeps_records_ret]. Qed.

Ltac keeps_records_step :=
  first
    [ apply keeps_records_call
    | apply keeps_records_emit
    | apply keeps_records_when
    | apply keeps_records_ret
    | apply keeps_records_raise
    | apply keeps_records_lift
    | apply keeps_records_print
    | apply keeps_records_save_file
    | apply keeps_records_upload
    | apply keeps_records_for_each; intros ?
    | apply keeps_records_try; [|intros ?]
    | apply keeps_records_bind; [|intros ?] ].

Lemma params_add_params_foldl ps t :
  params (add_params ps t) = foldl (λ m p, <[p.1 := p.2]> m) (params t) ps.
Proof.
  unfold add_params. revert t. induction ps as [|p ps IH]; intros t; [reflexivity|].
  cbn [foldl]. rewrite IH. reflexivity.
Qed.

Lemma metrics_add_metrics_foldl ms t :
  metrics (add_metrics ms t) = foldl (λ m p, <[p.1 := p.2]> m) (metrics t) ms.
Proof.
  unfold add_metrics. revert t. induction ms as [|p ms IH]; intros t; [reflexivity|].
  cbn [foldl]. rewrite IH. reflexivity.
Qed.

Lemma metrics_add_params ps t : metrics (add_params ps t) = metrics t.
Proof.
  unfold add_params. revert t. induction ps as [|p ps IH]; intros t; [reflexivity|].
  cbn [foldl]. rewrite IH. reflexivity.
Qed.

(** X18. Once a model is trained and the server has accepted the parameters
    and the metrics, the five parameters and the three metrics are in the
    tracking store when the run is over, with the values computed from the
    data and the leaderboard, whether the run finished or a later step or
    request failed it: what follows in the body records nothing under these
    names, and the handler only adds "error". *)
Theorem trained_model_is_recorded env dirs label time_limit train_data test_data
    predictor predictions lb w :
  tracking_raises env StartRun = None →
  fit env train_data label time_limit hyperparameters = Ok predictor →
  predict predictor test_data = Ok predictions →
  leaderboard predictor test_data = Ok lb →
  tracking_raises env
    (LogParams [("label", label); ("time_limit", time_limit);
                ("train_samples", PInt (Z.of_nat (df_len train_data)));
                ("test_samples", PInt (Z.of_nat (df_len test_data)));
                ("timestamp", PStr (now env))]) = None →
  tracking_raises env
    (LogMetrics [("best_score", to_float (best_score (score_val <$> lb)));
                 ("avg_score", to_float (avg_score (score_val <$> lb)));
                 ("model_count", count_float (length lb))]) = None →
  let t := tracking (run_experiment env dirs label time_limit train_data test_data w).2 in
  params t !! "label" = Some label
  ∧ params t !! "time_limit" = Some time_limit
  ∧ params t !! "train_samples" = Some (PInt (Z.of_nat (df_len train_data)))
  ∧ params t !! "test_samples" = Some (PInt (Z.of_nat (df_len test_data)))
  ∧ params t !! "timestamp" = Some (PStr (now env))
  ∧ metrics t !! "best_score" = Some (to_float (best_score (score_val <$> lb)))
  ∧ metrics t !! "avg_score" = Some (to_float (avg_score (score_val <$> lb)))
  ∧ metrics t !! "model_count" = Some (count_float (length lb)).
Proof.
  intros Hstart Hfit Hpred Hlb Hps Hms t. subst t.
  rewrite run_experiment_result, Hstart.
  unfold experiment_steps.
  erewrite bind_ok; [|rewrite train_model_result, Hfit, Hpred, Hlb; reflexivity].
  cbv zeta. cbn [fst snd].
  match goal with |- context [bind (create_visualizations ?e ?p ?t ?ps ?d) _ ?w0] =>
    destruct (create_visualizations_returns e p t ps d w0) as (plots & w1 & Hcv)
  end.
  rewrite (bind_ok _ _ _ _ _ Hcv).
  rewrite (bind_ok _ _ _ _ _ (mlflow_log_params_accepted env _ _ Hps)).
  rewrite (bind_ok _ _ _ _ _ (mlflow_log_metrics_accepted env _ _ Hms)).
  match goal with |- context [bind (emit FitSummary) ?k ?w3] =>
    assert (Hrest : keeps_records (bind (emit FitSummary) k));
    [|destruct (Hrest w3) as [Hp4 Hm4]; clear Hrest;
      destruct (bind (emit FitSummary) k w3) as [[a|e] w4]]
  end.
  { unfold write_artifacts, write_text_file, upload_directories, upload_model,
      mlflow_log_artifacts, mlflow_log_artifact, mlflow_get_artifact_uri. cbv zeta.
    repeat keeps_records_step. }
  all: cbn [snd] in Hp4, Hm4;
    cbn [tracking with_tracking with_trace] in Hp4, Hm4;
    rewrite params_add_metrics, params_add_params_foldl in Hp4;
    rewrite metrics_add_metrics_foldl, metrics_add_params in Hm4;
    cbn [foldl fst snd] in Hp4, Hm4.
  - unfold closed. destruct (tracking_raises env (EndRun Finished));
      unfold run_ended;
      cbn [fst snd tracking with_tracking with_trace with_stdout set_run params metrics];
      rewrite Hp4, Hm4; repeat split; simplify_map_eq; reflexivity.
  - destruct (tracking_raises env (LogParam "error" (PStr (exn_str e))));
      unfold closed; destruct (tracking_raises env (EndRun Failed));
      unfold run_ended, error_recorded, error_refused;
      cbn [fst snd tracking with_tracking with_trace with_stdout set_run add_param params
           metrics];
      rewrite ?Hp4, ?Hm4; repeat split; simplify_map_eq; reflexivity.
Qed.

(** ** From the command line to the fit *)



(** ** The further properties on concrete inputs *)

(** A file of 120 rows where 100 are asked for. *)
Definition long_file_env : Env :=
  demo_env (file_of 120) missing_file (Ok two_models) no_plot_failure no_open_failure.

Lemma load_long_file_unchanged_witness :
  ∃ data w',
    load_or_create_data long_file_env "product_reviews.csv" 100 world0 = (Ok data, w')
    ∧ df_len data = 120
    ∧ df_index data = seq 0 120
    ∧ np_pos w' = 0
    ∧ length (printed_by world0 w') = 1.
Proof.
  destruct (load_long_file_unchanged long_file_env "product_reviews.csv" 100
              synthetic_columns
              ((λ i : nat, [CInt (1 + Z.of_nat i mod 5); CStr "fine"; CInt 0;
                            CFloat 25%float]) <$> seq 0 120)
              world0 eq_refl)
    as (data & w' & Hrun & _ & _ & Hrows & Hidx & Hnp & Hout).
  - rewrite length_fmap, length_seq. lia.
  - exists data, w'. split; [exact Hrun|].
    rewrite length_fmap, length_seq in Hidx.
    split; [rewrite <- df_len_rows, Hrows, length_fmap, length_seq; reflexivity|].
    split; [rewrite Hidx; apply list_fmap_id|].
    split; [exact Hnp|]. rewrite Hout. reflexivity.
Defined.

(** Whether a computation returned. *)
Definition returned {A} (out : result A * World) : bool :=
  match out.1 with Ok _ => true | Raise _ => false end.

Lemma loaded_dataset_is_large_witness :
  ∃ data w',
    load_or_create_data short_file_env "product_reviews.csv" 100 world0 = (Ok data, w')
    ∧ 100 ≤ df_len data
    ∧ df_index data = seq 0 (df_len data)
    ∧ NoDup (df_index data).
Proof.
  assert (Hok : returned (load_or_create_data short_file_env "product_reviews.csv" 100
                            world0) = true) by (vm_compute; reflexivity).
  destruct (load_or_create_data short_file_env "product_reviews.csv" 100 world0)
    as [[data|e] w'] eqn:Hload; [|discriminate Hok].
  exists data, w'. split; [reflexivity|].
  destruct (loaded_dataset_is_large short_file_env "product_reviews.csv" 100 world0
              data w' Hload) as (Hmin & _ & Hfresh).
  split; [exact Hmin|]. exact (Hfresh (λ i, eq_refl)).
Defined.

Lemma missing_file_dataset_rows_witness :
  ∃ data w',
    load_or_create_data plain_env "product_reviews.csv" 100 world0 = (Ok data, w')
    ∧ columns data = synthetic_columns
    ∧ df_rows data = synthetic_row plain_env (np_pos world0) 100 <$> seq 0 100
    ∧ np_pos w' = np_pos world0 + 3 * 100.
Proof.
  exact (missing_file_dataset_rows plain_env "product_reviews.csv" 100 world0
           (Exn FileNotFoundError "No such file or directory") eq_refl eq_refl).
Defined.

Lemma split_part_sizes_witness :
  ∃ train_data test_data,
    split plain_env hundred_rows world0 = (Ok (train_data, test_data), world0)
    ∧ df_len train_data + df_len test_data = df_len hundred_rows
    ∧ (8 * Z.of_nat (df_len hundred_rows) - 5 ≤ 10 * Z.of_nat (df_len train_data)
       ≤ 8 * Z.of_nat (df_len hundred_rows) + 5)%Z
    ∧ (3 ≤ df_len hundred_rows → 0 < df_len train_data ∧ 0 < df_len test_data)
    ∧ (0 < df_len hundred_rows < 3 → df_len test_data = 0).
Proof.
  apply (split_part_sizes plain_env hundred_rows world0).
  unfold hundred_rows. rewrite df_index_range_frame. apply NoDup_seq.
Defined.

Lemma loaded_data_splits_into_two_nonempty_parts_witness :
  ∃ data w' train_data test_data,
    load_or_create_data plain_env "product_reviews.csv" 100 world0 = (Ok data, w')
    ∧ split plain_env data w' = (Ok (train_data, test_data), w')
    ∧ df_len train_data + df_len test_data = df_len data
    ∧ 0 < df_len train_data
    ∧ 0 < df_len test_data.
Proof.
  assert (Hok : returned (load_or_create_data plain_env "product_reviews.csv" 100
                            world0) = true) by (vm_compute; reflexivity).
  destruct (load_or_create_data plain_env "product_reviews.csv" 100 world0)
    as [[data|e] w'] eqn:Hload; [|discriminate Hok].
  destruct (loaded_data_splits_into_two_nonempty_parts plain_env "product_reviews.csv"
              100 world0 data w' Hload) as (tr & te & Hsplit & _ & Hparts); [lia| |].
  - intros cols rows Hread. discriminate Hread.
  - exists data, w', tr, te. split; [reflexivity|]. split; [exact Hsplit|exact Hparts].
Defined.

Lemma written_artifacts_hold_their_content_witness :
  ∃ w',
    write_artifacts plain_env "/repo/app/artifacts"
      (artifacts_of [] empty_dataset "{}") world0 = (Ok tt, w')
    ∧ files w' !! summary_path = Some (Json "{}")
    ∧ files w' !! "/repo/app/plots/feature_importance.png" = None.
Proof.
  destruct (written_artifacts_hold_their_content plain_env "/repo/app/artifacts"
              (artifacts_of [] empty_dataset "{}") world0)
    as (w' & Hrun & _ & Hin & Hout).
  - repeat (constructor; [split; reflexivity|]). constructor.
  - refine (bool_decide_unpack _ _). vm_compute. exact I.
  - exists w'. split; [exact Hrun|]. split.
    + apply (Hin "model_summary.json" (Json "{}")).
      unfold artifacts_of. rewrite !elem_of_cons. tauto.
    + rewrite Hout; [reflexivity|].
      refine (bool_decide_unpack _ _). vm_compute. exact I.
Defined.

(** Services that fail wherever a failure is handled: every plotting call
    and every upload raises. *)
Definition plot_failed : exn := Exn RuntimeError "backend is not available".
Definition upload_failed : exn := Exn MlflowException "connection refused".

Definition unreliable_env : Env :=
  service_env (λ _, None) missing_file (λ i, i) missing_file (Ok two_models)
    (λ _ _, Some plot_failed) no_open_failure (λ _ _, Some upload_failed) (λ _, None).

Lemma plot_and_upload_failures_do_not_fail_the_run_witness :
  plt_raises unreliable_env FeaturePlot Figure = Some plot_failed
  ∧ log_artifacts_raises unreliable_env "/repo/app/artifacts" "artifacts"
    = Some upload_failed
  ∧ ∃ w',
      run_experiment unreliable_env repo_dirs (PStr "rating") (PInt 300)
        hundred_rows hundred_rows world0 = (Ok tt, w')
      ∧ run (tracking w') = Finished
      ∧ last (trace w') = Some (EndRun Finished)
      ∧ last (stdout w')
        = Some ("View run at: " +:+ artifact_uri unreliable_env +:+ "/runs/"
                +:+ new_run_id unreliable_env).
Proof.
  split; [reflexivity|]. split; [reflexivity|].
  eapply (plot_and_upload_failures_do_not_fail_the_run unreliable_env repo_dirs
            (PStr "rating") (PInt 300) hundred_rows hundred_rows two_models).
  - intros a. reflexivity.
  - reflexivity.
  - reflexivity.
  - reflexivity.
  - reflexivity.
  - reflexivity.
  - vm_compute. reflexivity.
  - repeat (constructor; [split; reflexivity|]). constructor.
  - reflexivity.
Defined.

Lemma finished_run_passed_every_fatal_step_witness :
  ∃ predictor predictions lb summary true_values,
    fit unreliable_env hundred_rows (PStr "rating") (PInt 300) hyperparameters
    = Ok predictor
    ∧ predict predictor hundred_rows = Ok predictions
    ∧ leaderboard predictor hundred_rows = Ok lb
    ∧ fit_summary predictor = Ok summary
    ∧ df_getitem hundred_rows (PStr "rating") = Ok true_values
    ∧ length predictions = length true_values
    ∧ Forall (λ name, writes_ok unreliable_env (dir_artifacts repo_dirs) (name, EmptyFile))
        artifact_names
    ∧ run (tracking (run_experiment unreliable_env repo_dirs (PStr "rating") (PInt 300)
                       hundred_rows hundred_rows world0).2) = Finished.
Proof.
  assert (Hok : (run_experiment unreliable_env repo_dirs (PStr "rating") (PInt 300)
                   hundred_rows hundred_rows world0).1 = Ok tt)
    by (vm_compute; reflexivity).
  destruct (run_experiment unreliable_env repo_dirs (PStr "rating") (PInt 300)
              hundred_rows hundred_rows world0) as [r w'] eqn:Hrun.
  cbn [fst] in Hok. subst r. cbn [snd].
  exact (finished_run_passed_every_fatal_step unreliable_env repo_dirs (PStr "rating")
           (PInt 300) hundred_rows hundred_rows world0 w' Hrun).
Defined.

(** A working directory in which [plots] cannot be created. *)
Definition read_only : exn := Exn PermissionError "Permission denied: 'plots'".

Definition read_only_env : Env :=
  service_env (λ d, if String.eqb d "plots" then Some read_only else None)
    missing_file (λ i, i) missing_file (Ok two_models) no_plot_failure no_open_failure
    (λ _ _, None) (λ _, None).

Lemma directory_failure_aborts_main_witness :
  main read_only_env no_flags world0
  = (Raise read_only,
     with_trace (λ t, t ++ (Makedirs <$> ["artifacts"]) ++ [Makedirs "plots"]) world0).
Proof.
  apply (directory_failure_aborts_main read_only_env no_flags ["artifacts"] "plots"
           ["models"] read_only world0 eq_refl); [|reflexivity].
  intros x Hx. apply list_elem_of_singleton in Hx. subst x. reflexivity.
Defined.



Lemma trained_model_is_recorded_witness :
  let t := tracking (run_experiment disk_full_env repo_dirs (PStr "rating") (PInt 300)
                       hundred_rows hundred_rows world0).2 in
  run t = Failed
  ∧ params t !! "train_samples" = Some (PInt 100)
  ∧ params t !! "timestamp" = Some (PStr "20240101_000000")
  ∧ metrics t !! "model_count" = Some (count_float 2).
Proof.
  intros t. subst t.
  split; [vm_compute; reflexivity|].
  destruct (trained_model_is_recorded disk_full_env repo_dirs (PStr "rating") (PInt 300)
              hundred_rows hundred_rows two_models (replicate 100 (CInt 3))
              [mkRow "model_0" 0.5%float; mkRow "model_1" 0.25%float] world0
              eq_refl eq_refl eq_refl eq_refl eq_refl eq_refl)
    as (_ & _ & Htrain & _ & Hstamp & _ & _ & Hcount).
  split; [exact Htrain|]. split; [exact Hstamp|exact Hcount].
Defined.


Lemma finished_run_had_its_requests_accepted_witness :
  tracking_raises plain_env StartRun = None
  ∧ tracking_raises plain_env GetArtifactUri = None
  ∧ tracking_raises plain_env (EndRun Finished) = None.
Proof.
  assert (Hok : (run_experiment plain_env repo_dirs (PStr "rating") (PInt 300)
                   hundred_rows hundred_rows world0).1 = Ok tt)
    by (vm_compute; reflexivity).
  destruct (run_experiment plain_env repo_dirs (PStr "rating") (PInt 300)
              hundred_rows hundred_rows world0) as [r w'] eqn:Hrun.
  cbn [fst] in Hok. subst r.
  destruct (finished_run_had_its_requests_accepted plain_env repo_dirs (PStr "rating")
              (PInt 300) hundred_rows hundred_rows world0 w' Hrun)
    as (Hstart & _ & _ & Huri & Hend).
  split; [exact Hstart|]. split; [exact Huri|exact Hend].
Defined.
